(** * pysled: the Sled parser and serializers, embedded in Rocq

    The Python package [pysled] (modules [spec], [_sled_error],
    [_parser_metadata], [_keyword_literal], [_parser], [_serializer_basic],
    [_serializer], [_serializer_mini]) is translated function by function.

    - A Python [str] is a list of Unicode code points ([Py.str]).
    - A Python [bytes] is a [list byte].
    - A Python [float] is an IEEE-754 binary64 value ([spec_float]).
    - Exceptions are an explicit outcome: [Raise (Sled e)] for [SledError],
      [Raise (Builtin x)] for a built-in exception that escapes.
    - The parser is a state-and-error monad over the record [Parser]. *)

From Stdlib Require Import String Ascii.
From Stdlib Require Import ZArith NArith List Bool Lia.
From Stdlib Require Import Strings.Byte.
From Stdlib Require Import Floats.SpecFloat.
From Stdlib Require Import DecimalString.
Import ListNotations.
Open Scope Z_scope.

(** ** Python built-in strings *)

Module Py.

(** A [str]: the sequence of its code points. *)
Definition str := list N.

(** Literals are written in ASCII and lifted code point by code point. *)
Definition u (s : string) : str := map N_of_ascii (list_ascii_of_string s).

Definition chr_eqb (a b : N) : bool := N.eqb a b.

Fixpoint eqb (a b : str) : bool :=
  match a, b with
  | [], [] => true
  | x :: a', y :: b' => chr_eqb x y && eqb a' b'
  | _, _ => false
  end.

Definition len (s : str) : Z := Z.of_nat (length s).

(** A slice bound: a negative bound counts from the end.  (A bound past
    the end needs no clamping: [skipn] and [firstn] stop at the end.) *)
Definition bound (s : str) (i : Z) : Z :=
  if i <? 0 then Z.max 0 (i + len s) else i.

(** [s[a:b]] *)
Definition slice (s : str) (a b : Z) : str :=
  let a := bound s a in
  let b := bound s b in
  firstn (Z.to_nat (b - a)) (skipn (Z.to_nat a) s).

(** [s[a:]] *)
Definition slice_from (s : str) (a : Z) : str := slice s a (len s).

(** [s[:b]] *)
Definition slice_to (s : str) (b : Z) : str := slice s 0 b.

(** [s[i]]; [None] stands for [IndexError]. *)
Definition getitem (s : str) (i : Z) : option N :=
  let j := if i <? 0 then i + len s else i in
  if j <? 0 then None else nth_error s (Z.to_nat j).

Fixpoint startswith (s sub : str) : bool :=
  match sub, s with
  | [], _ => true
  | x :: sub', y :: s' => chr_eqb x y && startswith s' sub'
  | _ :: _, [] => false
  end.

(** Lowest offset at which [sub] occurs in [s], counted from [i]. *)
Fixpoint find_from (sub s : str) (i : Z) : Z :=
  if startswith s sub then i
  else match s with
       | [] => -1
       | _ :: s' => find_from sub s' (i + 1)
       end.

(** [s.find(sub, a, b)], for a non-empty [sub]. *)
Definition find (s sub : str) (a b : Z) : Z :=
  find_from sub (slice s a b) (bound s a).

(** [s.find(sub, a)] *)
Definition find2 (s sub : str) (a : Z) : Z := find s sub a (len s).

(** [sub in s] *)
Definition contains (s sub : str) : bool := 0 <=? find_from sub s 0.

Fixpoint replace_go (old new : str) (skip : nat) (s : str) : str :=
  match s with
  | [] => []
  | c :: s' =>
      match skip with
      | S k => replace_go old new k s'
      | O => if startswith s old
             then new ++ replace_go old new (length old - 1) s'
             else c :: replace_go old new 0 s'
      end
  end.

(** [s.replace(old, new)], for a non-empty [old]. *)
Definition replace (s old new : str) : str := replace_go old new 0 s.

Fixpoint split_go (sep : str) (skip : nat) (cur : str) (s : str) : list str :=
  match s with
  | [] => [rev cur]
  | c :: s' =>
      match skip with
      | S k => split_go sep k cur s'
      | O => if startswith s sep
             then rev cur :: split_go sep (length sep - 1) [] s'
             else split_go sep 0 (c :: cur) s'
      end
  end.

(** [s.split(sep)], for a non-empty [sep]. *)
Definition split (s sep : str) : list str := split_go sep 0 [] s.

(** [sep.join(parts)] *)
Fixpoint join (sep : str) (parts : list str) : str :=
  match parts with
  | [] => []
  | [p] => p
  | p :: rest => p ++ sep ++ join sep rest
  end.

(** [s * n]: empty when [n] is not positive. *)
Definition mul (s : str) (n : Z) : str := concat (repeat s (Z.to_nat n)).

(** [s.rjust(width, " ")] *)
Definition rjust (s : str) (width : Z) : str :=
  mul [32%N] (width - len s) ++ s.

(** [c.isascii()] and [c.isspace()] for one code point. *)
Definition isascii (c : N) : bool := (c <? 128)%N.

Definition isspace (c : N) : bool :=
  ((9 <=? c) && (c <=? 13) || (28 <=? c) && (c <=? 32)
   || (c =? 133) || (c =? 160) || (c =? 5760)
   || (8192 <=? c) && (c <=? 8202)
   || (c =? 8232) || (c =? 8233) || (c =? 8239) || (c =? 8287)
   || (c =? 12288))%N.

(** [str(n)] for an [int]. *)
Definition str_of_int (n : Z) : str := u (NilZero.string_of_int (Z.to_int n)).

(** Built-in exceptions that the package lets escape. *)
Inductive Exception :=
| AttributeError
| IndexError
| TypeError
| ValueError
| OverflowError.

(** *** Numbers *)

Definition digit_value (c : N) : option Z :=
  if ((48 <=? c) && (c <=? 57))%N then Some (Z.of_N c - 48) else None.

Definition hex_digit_value (c : N) : option Z :=
  if ((48 <=? c) && (c <=? 57))%N then Some (Z.of_N c - 48)
  else if ((97 <=? c) && (c <=? 102))%N then Some (Z.of_N c - 87)
  else if ((65 <=? c) && (c <=? 70))%N then Some (Z.of_N c - 55)
  else None.

(** The digits of an integer literal: single underscores are accepted
    between digits only. *)
Fixpoint int_digits (base : Z) (value : N -> option Z) (s : str)
    (acc : Z) (after_digit : bool) : option Z :=
  match s with
  | [] => if after_digit then Some acc else None
  | c :: s' =>
      if (c =? 95)%N
      then if after_digit then int_digits base value s' acc false else None
      else match value c with
           | Some d => int_digits base value s' (acc * base + d) true
           | None => None
           end
  end.

Definition signed (value : str -> option Z) (s : str) : option Z :=
  match s with
  | 45%N :: s' => option_map Z.opp (value s')
  | 43%N :: s' => value s'
  | _ => value s
  end.

(** [int(s)] and [int(s, base=16)] on a sign followed by digits and
    underscores; [None] stands for [ValueError]. *)
Definition int (s : str) : option Z :=
  signed (fun d => int_digits 10 digit_value d 0 false) s.
Definition int16 (s : str) : option Z :=
  signed (fun d => int_digits 16 hex_digit_value d 0 false) s.

(** [chr(n)] *)
Definition chr (n : Z) : Exception + str :=
  if (0 <=? n) && (n <=? 1114111) then inr [Z.to_N n]
  else if (- 2147483648 <=? n) && (n <=? 2147483647) then inl ValueError
  else inl OverflowError.

Fixpoint fromhex_go (s : str) : option (list byte) :=
  match s with
  | [] => Some []
  | a :: b :: s' =>
      match hex_digit_value a, hex_digit_value b, fromhex_go s' with
      | Some x, Some y, Some l =>
          match Byte.of_N (Z.to_N (16 * x + y)) with
          | Some v => Some (v :: l)
          | None => None
          end
      | _, _, _ => None
      end
  | _ => None
  end.

(** [bytes.fromhex(s)] on a string without white space; [None] stands
    for [ValueError]. *)
Definition fromhex (s : str) : option (list byte) := fromhex_go s.

(** *** Floats: IEEE-754 binary64 *)

Definition prec : Z := 53.
Definition emax : Z := 1024.

(** The double nearest to [(-1)^neg * m * 10^e] (ties to even). *)
Definition float_of_decimal (neg : bool) (m e : Z) : spec_float :=
  if m =? 0 then S754_zero neg
  else if 0 <=? e
  then binary_normalize prec emax
         (if neg then - (m * 10 ^ e) else m * 10 ^ e) 0 neg
  else
    let '(q, e', l) := SFdiv_core_binary prec emax m 0 (10 ^ (- e)) 0 in
    binary_round_aux prec emax neg q e' l.

Fixpoint take_digits (s : str) : str * str :=
  match s with
  | c :: s' =>
      match digit_value c with
      | Some _ => let '(d, r) := take_digits s' in (c :: d, r)
      | None => ([], s)
      end
  | [] => ([], [])
  end.

Definition digits_value (d : str) : Z :=
  fold_left (fun acc c =>
               match digit_value c with
               | Some v => 10 * acc + v
               | None => acc
               end) d 0.

Definition take_sign (s : str) : bool * str :=
  match s with
  | 45%N :: s' => (true, s')
  | 43%N :: s' => (false, s')
  | _ => (false, s)
  end.

(** [float(s)] on a decimal literal: sign, digits, an optional point and
    digits, an optional exponent; [None] stands for [ValueError]. *)
Definition float (s : str) : option spec_float :=
  let '(neg, s) := take_sign s in
  let '(integral, s) := take_digits s in
  let '(fraction, s) :=
    match s with
    | 46%N :: s' => take_digits s'
    | _ => ([], s)
    end in
  match integral ++ fraction with
  | [] => None
  | coefficient =>
      let m := digits_value coefficient in
      let shift := len fraction in
      match s with
      | [] => Some (float_of_decimal neg m (- shift))
      | c :: s' =>
          if ((c =? 101) || (c =? 69))%N
          then
            let '(eneg, s') := take_sign s' in
            let '(edigits, rest) := take_digits s' in
            match edigits, rest with
            | _ :: _, [] =>
                let e := digits_value edigits in
                Some (float_of_decimal neg m
                        ((if eneg then - e else e) - shift))
            | _, _ => None
            end
          else None
      end
  end.

(** [str(x)] for an infinity or a NaN. *)
Definition str_of_nonfinite (x : spec_float) : str :=
  match x with
  | S754_infinity true => u "-inf"
  | S754_infinity false => u "inf"
  | _ => u "nan"
  end.

End Py.

Definition u : string -> Py.str := Py.u.

(** The line feed, written ["\n"] in the source. *)
Definition NL : Py.str := [10%N].

(** A frozenset of strings (single symbols, the empty string, or CRLF). *)
Definition frozenset := list Py.str.

Definition mem (c : Py.str) (s : frozenset) : bool := existsb (Py.eqb c) s.
Definition union (a b : frozenset) : frozenset := a ++ b.
Definition difference (a b : frozenset) : frozenset :=
  filter (fun x => negb (mem x b)) a.
(** [frozenset(s)] for a string [s]: its symbols. *)
Definition symbols (s : Py.str) : frozenset := map (fun c => [c]) s.
(** [S.isdisjoint(s)] and [S.issuperset(s)] for a string [s]. *)
Definition isdisjoint (S : frozenset) (s : Py.str) : bool :=
  forallb (fun c => negb (mem [c] S)) s.
Definition issuperset (S : frozenset) (s : Py.str) : bool :=
  forallb (fun c => mem [c] S) s.

Definition range_chr (lo : N) (n : nat) : frozenset :=
  map (fun i => [(lo + N.of_nat i)%N]) (seq 0 n).

(** ** [spec.py]: shared constants

    The sets are stored evaluated (a list of their elements); the expression
    after [Eval vm_compute in] is the one of the source. *)

Module spec.

Definition EMPTY : Py.str := [].
Definition KEYWORD_MARK := u "@".
Definition digits := u "0123456789".
Definition ascii_letters :=
  u "abcdefghijklmnopqrstuvwxyzABCDEFGHIJKLMNOPQRSTUVWXYZ".
Definition hexdigits := u "0123456789abcdefABCDEF".
Definition KEYWORD_CHAR_SET : frozenset :=
  Eval vm_compute in
  symbols (digits ++ ascii_letters ++ u "_").
Definition OPEN_PAREN := u "(".
Definition CLOSE_PAREN := u ")".

Definition C0_CONTROL_SET : frozenset :=
  Eval vm_compute in
  union (range_chr 0 32) [[127%N]].

Definition COMMENT_MARK := u "#".
Definition TAB_CHARACTER : Py.str := [9%N].

Definition COMMENT_DISALLOWED_SYMBOLS : frozenset :=
  Eval vm_compute in
  difference (union C0_CONTROL_SET [EMPTY]) [TAB_CHARACTER].

Definition LF_LINE_SEPARATOR : Py.str := [10%N].
Definition CR_LINE_SEPARATOR : Py.str := [13%N].
Definition CRLF_LINE_SEPARATOR : Py.str := [13%N; 10%N].
Definition DEFAULT_LINE_SEPARATOR := LF_LINE_SEPARATOR.

Definition LINE_SEPARATOR_SET : frozenset :=
  [LF_LINE_SEPARATOR; CR_LINE_SEPARATOR; CRLF_LINE_SEPARATOR].
Definition HORIZONTAL_SPACE_SET : frozenset :=
  Eval vm_compute in
  symbols [32%N; 9%N].
Definition WS_SET : frozenset :=
  Eval vm_compute in
  union LINE_SEPARATOR_SET HORIZONTAL_SPACE_SET.

Definition DEFAULT_INDENT := u "  ".

Definition MAP_OPEN_MARK := u "{".
Definition MAP_CLOSE_MARK := u "}".
Definition LIST_OPEN_MARK := u "[".
Definition LIST_CLOSE_MARK := u "]".
Definition DELIMITER_MARK := u ";".
Definition KEY_VALUE_SEPARATOR := u "=".

Definition CONTAINER_SYMBOL_SET : frozenset :=
  [DELIMITER_MARK; KEY_VALUE_SEPARATOR;
   MAP_OPEN_MARK; MAP_CLOSE_MARK;
   LIST_OPEN_MARK; LIST_CLOSE_MARK;
   u "<"; u ">"].

Definition DELIMITER_SET : frozenset :=
  Eval vm_compute in
  union LINE_SEPARATOR_SET [DELIMITER_MARK].
Definition DELIMITER_OR_HORIZONTAL_SPACE_SET : frozenset :=
  Eval vm_compute in
  union HORIZONTAL_SPACE_SET [DELIMITER_MARK].

Definition SLED_INTEGER_MIN : Z := -9223372036854775808.
Definition SLED_INTEGER_MAX : Z := 9223372036854775807.

Definition DIGIT_SEPARATOR := u "_".
Definition SIGN_SET : frozenset := [u "-"; u "+"].
Definition DIGIT_SET : frozenset :=
  Eval vm_compute in
  symbols digits.
Definition OPTIONAL_DIGIT_SET : frozenset :=
  Eval vm_compute in
  union DIGIT_SET [DIGIT_SEPARATOR].
Definition DECIMAL_MARK_SET : frozenset := [u "."; u ","].
Definition EXPONENT_PREFIX_SET : frozenset := [u "E"; u "e"].
Definition NUMBER_START_SET : frozenset :=
  Eval vm_compute in
  union OPTIONAL_DIGIT_SET (union SIGN_SET DECIMAL_MARK_SET).

Definition DEFAULT_DECIMAL_MARK := u ".".
Definition DEFAULT_EXPONENT_PREFIX := u "e".

Definition HEX_KEYWORD_NAME := u "hex".
Definition HEX_OPEN_MARK := OPEN_PAREN.
Definition HEX_CLOSE_MARK := CLOSE_PAREN.
Definition HEX_DIGITS_PER_BYTE : Z := 2.

Definition HEX_DIGIT_SET : frozenset :=
  Eval vm_compute in
  union (symbols hexdigits) [DIGIT_SEPARATOR].
Definition HEX_CHAR_SET : frozenset :=
  Eval vm_compute in
  union HEX_DIGIT_SET (union HORIZONTAL_SPACE_SET WS_SET).

Definition DEFAULT_HEX_BYTES_PER_SEPARATOR : Z := -2.
Definition DEFAULT_HEX_LINE_LENGTH : Z := 80.

Definition SINGLE_QUOTE_MARK : Py.str := [39%N].
Definition DOUBLE_QUOTE_MARK : Py.str := [34%N].
Definition QUOTE_MARK_SET : frozenset :=
  [SINGLE_QUOTE_MARK; DOUBLE_QUOTE_MARK].
Definition DEFAULT_QUOTE_MARK := DOUBLE_QUOTE_MARK.

Definition CONCAT_KEYWORD_NAME := u "concat".
Definition CONCAT_OPEN_MARK := OPEN_PAREN.
Definition CONCAT_CLOSE_MARK := CLOSE_PAREN.

Definition ESCAPE_CHARACTER : Py.str := [92%N].

Definition UNICODE_ESCAPE_KEY := u "u".
Definition UNICODE_ESCAPE_OPEN_MARK := u "{".
Definition UNICODE_ESCAPE_CLOSE_MARK := u "}".
Definition UNICODE_ESCAPE_OPEN_SEQUENCE :=
  ESCAPE_CHARACTER ++ UNICODE_ESCAPE_KEY ++ UNICODE_ESCAPE_OPEN_MARK.

(** A [Mapping[str, str]] in insertion order. *)
Definition mapping := list (Py.str * Py.str).

Fixpoint get (m : mapping) (k : Py.str) : option Py.str :=
  match m with
  | [] => None
  | (k', v) :: m' => if Py.eqb k k' then Some v else get m' k
  end.

Definition SIMPLE_ESCAPE_EVALUATION : mapping :=
  [(ESCAPE_CHARACTER, ESCAPE_CHARACTER);
   (DOUBLE_QUOTE_MARK, DOUBLE_QUOTE_MARK);
   (SINGLE_QUOTE_MARK, SINGLE_QUOTE_MARK);
   (u "n", LF_LINE_SEPARATOR);
   (u "r", CR_LINE_SEPARATOR);
   (u "t", TAB_CHARACTER)].

Definition SIMPLE_ESCAPE_SEQUENCES : mapping :=
  map (fun kv => (snd kv, ESCAPE_CHARACTER ++ fst kv))
      SIMPLE_ESCAPE_EVALUATION.

Definition ESCAPE_CHARACTER_ESCAPE := ESCAPE_CHARACTER ++ ESCAPE_CHARACTER.
Definition LF_LINE_SEPARATOR_ESCAPE := ESCAPE_CHARACTER ++ u "n".
Definition CR_LINE_SEPARATOR_ESCAPE := ESCAPE_CHARACTER ++ u "r".

Definition LINE_SEPARATOR_ESCAPES : mapping :=
  [(LF_LINE_SEPARATOR, LF_LINE_SEPARATOR_ESCAPE);
   (CR_LINE_SEPARATOR, CR_LINE_SEPARATOR_ESCAPE);
   (CRLF_LINE_SEPARATOR,
    CR_LINE_SEPARATOR_ESCAPE ++ LF_LINE_SEPARATOR_ESCAPE)].

Definition C0_SIMPLE_ESCAPE_SET : frozenset :=
  [LF_LINE_SEPARATOR; CR_LINE_SEPARATOR; TAB_CHARACTER].

Definition RESTRICTED_QUOTE_SYMBOLS : frozenset :=
  Eval vm_compute in
  difference (union C0_CONTROL_SET [ESCAPE_CHARACTER; EMPTY])
             [TAB_CHARACTER].

Definition IDENTITY_DISALLOWED_SYMBOLS : frozenset :=
  Eval vm_compute in
  union RESTRICTED_QUOTE_SYMBOLS
    (union HORIZONTAL_SPACE_SET
      (union QUOTE_MARK_SET
        (union [ESCAPE_CHARACTER]
          (union CONTAINER_SYMBOL_SET
            (union [OPEN_PAREN; CLOSE_PAREN] [COMMENT_MARK]))))).

Definition IDENTITY_DISALLOWED_START_SYMBOLS : frozenset :=
  Eval vm_compute in
  union IDENTITY_DISALLOWED_SYMBOLS (union NUMBER_START_SET [KEYWORD_MARK]).

End spec.

(** ** The value model ([spec.Entity]) *)

(** A Python object of the shapes the package handles: [None], [bool], [int],
    [float], [bytes], [str], [dict] (its items in insertion order) and
    [list]. *)
Inductive Entity :=
| PyNone
| PyBool (b : bool)
| PyInt (n : Z)
| PyFloat (x : spec_float)
| PyBytes (b : list byte)
| PyStr (s : Py.str)
| PyDict (items : list (Entity * Entity))
| PyList (items : list Entity).

(** [math.isnan] and [math.isinf]. *)
Definition isnan (x : spec_float) : bool :=
  match x with S754_nan => true | _ => false end.
Definition isinf (x : spec_float) : bool :=
  match x with S754_infinity _ => true | _ => false end.

(** [a == b] on the objects that occur as keys of a parsed map
    ([str] and [int]). *)
Definition key_eqb (a b : Entity) : bool :=
  match a, b with
  | PyStr s, PyStr t => Py.eqb s t
  | PyInt m, PyInt n => Z.eqb m n
  | _, _ => false
  end.

(** ** Formatted text

    An f-string is kept as the sequence of its parts, so that [repr] of an
    arbitrary string (which depends on the Unicode database) stays symbolic. *)
Inductive piece :=
| Str (s : Py.str)     (** literal text, or [{s}] for a string [s] *)
| Repr (s : Py.str)    (** [{repr(s)}] *)
| Int (n : Z).         (** [{n}] for an integer [n] *)

Definition fstring := list piece.

(** ** [_parser_metadata.py] *)

Inductive SledType :=
| NIL | BOOLEAN | INTEGER | FLOAT | HEX | STRING | SMAP | IMAP | LIST.

(** [SledType.__str__] returns the member's value. *)
Definition SledType_str (t : SledType) : Py.str :=
  match t with
  | NIL => u "nil" | BOOLEAN => u "boolean" | INTEGER => u "integer"
  | FLOAT => u "float" | HEX => u "hex" | STRING => u "string"
  | SMAP => u "smap" | IMAP => u "imap" | LIST => u "list"
  end.

Definition SledType_eqb (a b : SledType) : bool :=
  match a, b with
  | NIL, NIL | BOOLEAN, BOOLEAN | INTEGER, INTEGER | FLOAT, FLOAT
  | HEX, HEX | STRING, STRING | SMAP, SMAP | IMAP, IMAP | LIST, LIST => true
  | _, _ => false
  end.

(** [str(t)] for an [Optional[SledType]]. *)
Definition opt_SledType_str (t : option SledType) : Py.str :=
  match t with Some t => SledType_str t | None => u "None" end.

Module Snapshot.
Record ParseSnapshot := {
  start_index : Z;
  end_index : Z;
  line_start : Z;
  line_num : Z;
  sled_type : option SledType;
}.
End Snapshot.
Export Snapshot.

(** ** [_sled_error.py] *)

Inductive SledErrorCategory :=
| SYNTAX | MAP_KEY_TYPE | DUPLICATE_MAP_KEY | NUMBER_RANGE.

Record SledError := {
  error_message : fstring;
  error_category : SledErrorCategory;
  reason : fstring;
  start_line_num : Z;
}.

(** What a call can end in: a value, a raised exception, or (for the
    recursive functions, which take a recursion budget) an exhausted budget. *)
Inductive exn :=
| Sled (e : SledError)
| Builtin (e : Py.Exception).

Inductive result (A : Type) :=
| Ok (a : A)
| Raise (e : exn)
| OutOfFuel.
Arguments Ok {A} a.
Arguments Raise {A} e.
Arguments OutOfFuel {A}.

Module SledErrors.

Definition ERROR_POINTER_CHAR := u "^".
Definition ERROR_ELLIPSIS := u "...".
Definition MAX_ERROR_CONTEXT_LEN : Z := 80.
Definition _SPACE := u " ".

Fixpoint _len_leading_horizontal_space (s : Py.str) : Z :=
  match s with
  | [] => 0
  | c :: s' => if mem [c] spec.HORIZONTAL_SPACE_SET
               then 1 + _len_leading_horizontal_space s'
               else 0
  end.

Definition make_short_parse_error
    (reason : fstring) (error_category : SledErrorCategory)
    (line : Py.str) (line_num start_index end_index : Z)
  : result SledError :=
  let line_length := Py.len line in
  if negb ((0 <=? start_index) && (start_index <? end_index)
           && (end_index <=? line_length + 1))
  then Raise (Builtin Py.ValueError)
  else if Py.contains (Py.slice_to line (-1)) spec.DEFAULT_LINE_SEPARATOR
  then Raise (Builtin Py.ValueError)
  else
    let line :=
      if MAX_ERROR_CONTEXT_LEN <? line_length - end_index
      then Py.slice_to line (end_index + MAX_ERROR_CONTEXT_LEN)
             ++ ERROR_ELLIPSIS
      else line in
    let initial_strip_index := _len_leading_horizontal_space line in
    let line := Py.slice_from line initial_strip_index in
    let len_before_invalid := start_index - initial_strip_index in
    let '(line, len_before_invalid) :=
      if MAX_ERROR_CONTEXT_LEN <? len_before_invalid
      then (ERROR_ELLIPSIS
              ++ Py.slice_from line
                   (len_before_invalid - MAX_ERROR_CONTEXT_LEN),
            MAX_ERROR_CONTEXT_LEN + Py.len ERROR_ELLIPSIS)
      else (line, len_before_invalid) in
    let error_message :=
      reason
      ++ [Str (NL ++ u "Line "); Int line_num;
          Str (u ", from index "); Int start_index;
          Str (u " to "); Int end_index; Str (u ":" ++ NL);
          Str line; Str NL;
          Str (Py.mul _SPACE len_before_invalid);
          Str (Py.mul ERROR_POINTER_CHAR (end_index - start_index))] in
    Ok {| error_message := error_message;
          error_category := error_category;
          reason := reason;
          start_line_num := line_num |}.

(** The [defaultdict(list)] of the snapshots of each key, in the order in
    which the keys first occur. *)
Fixpoint group_add (groups : list (Entity * list ParseSnapshot))
    (k : Entity) (snapshot : ParseSnapshot)
  : list (Entity * list ParseSnapshot) :=
  match groups with
  | [] => [(k, [snapshot])]
  | (k', l) :: rest =>
      if key_eqb k k' then (k', l ++ [snapshot]) :: rest
      else (k', l) :: group_add rest k snapshot
  end.

Definition str_of_key (k : Entity) : list piece :=
  match k with
  | PyStr s => [Str s]
  | PyInt n => [Int n]
  | _ => []
  end.

(** [sep.join(parts)] on formatted text. *)
Fixpoint fjoin (sep : Py.str) (parts : list fstring) : fstring :=
  match parts with
  | [] => []
  | [p] => p
  | p :: rest => p ++ [Str sep] ++ fjoin sep rest
  end.

Definition make_duplicate_map_key_error
    (data : list (Entity * ParseSnapshot))
    (start_line_num start_index_within_line : Z) : SledError :=
  let groups :=
    fold_left (fun g ks => group_add g (fst ks) (snd ks)) data [] in
  let dup_dict :=
    map (fun ks =>
           (fst ks,
            fjoin (u ", ")
              (map (fun snapshot =>
                      [Str (u "line "); Int (line_num snapshot);
                       Str (u " index ");
                       Int (start_index snapshot - line_start snapshot)])
                   (snd ks))))
        (filter (fun ks => 1 <? Z.of_nat (length (snd ks))) groups) in
  let dup_str :=
    fjoin NL
      (map (fun kr => str_of_key (fst kr) ++ [Str (u ": ")] ++ snd kr)
           dup_dict) in
  let reason :=
    [Str (u "Sled map starting on line "); Int start_line_num;
     Str (u " at index "); Int start_index_within_line;
     Str (u " contains duplicate keys.")] in
  {| error_message := reason ++ [Str NL] ++ dup_str;
     reason := reason;
     error_category := DUPLICATE_MAP_KEY;
     start_line_num := start_line_num |}.

End SledErrors.

(** ** [_keyword_literal.py] *)

Record KeywordLiteralSpec := {
  name : Py.str;
  evaluation : Entity;
}.

(** [lexeme] is set by [__post_init__]. *)
Definition lexeme (k : KeywordLiteralSpec) : Py.str :=
  spec.KEYWORD_MARK ++ name k.

Module KeywordLiteral.
Definition NAN :=
  {| name := u "nan"; evaluation := PyFloat S754_nan |}.
Definition INF :=
  {| name := u "inf"; evaluation := PyFloat (S754_infinity false) |}.
Definition NINF :=
  {| name := u "ninf"; evaluation := PyFloat (S754_infinity true) |}.
Definition TRUE := {| name := u "true"; evaluation := PyBool true |}.
Definition FALSE := {| name := u "false"; evaluation := PyBool false |}.
Definition NIL := {| name := u "nil"; evaluation := PyNone |}.
Definition members := [NAN; INF; NINF; TRUE; FALSE; NIL].
End KeywordLiteral.

(** [KEYWORD_LITERALS.get(keyword_name)] *)
Definition KEYWORD_LITERALS_get (keyword_name : Py.str)
  : option KeywordLiteralSpec :=
  find (fun k => Py.eqb keyword_name (name k)) KeywordLiteral.members.

(** ** [_parser.py] *)

Record Parser := {
  _text : Py.str;
  _index : Z;
  _line_num : Z;
  _line_start : Z;
}.

(** A method of [Parser]: it reads and updates the parser, and returns or
    raises. *)
Definition M (A : Type) := Parser -> result (A * Parser).

Definition ret {A} (a : A) : M A := fun self => Ok (a, self).

Definition bind {A B} (c : M A) (k : A -> M B) : M B :=
  fun self =>
    match c self with
    | Ok (a, self') => k a self'
    | Raise e => Raise e
    | OutOfFuel => OutOfFuel
    end.

Definition raise {A} (e : exn) : M A := fun _ => Raise e.
Definition out_of_fuel {A} : M A := fun _ => OutOfFuel.
Definition get {A} (f : Parser -> A) : M A := fun self => Ok (f self, self).

Declare Scope parser_scope.
Delimit Scope parser_scope with parser.
Notation "x <- c ;; k" := (bind c (fun x => k))
  (at level 61, c at next level, right associativity) : parser_scope.
Notation "' p <- c ;; k" := (bind c (fun x => match x with p => k end))
  (at level 61, p pattern, c at next level, right associativity)
  : parser_scope.
Notation "c ;; k" := (bind c (fun _ => k))
  (at level 61, right associativity) : parser_scope.
Open Scope parser_scope.

Definition set_index (i : Z) : M unit :=
  fun self => Ok (tt, {| _text := _text self; _index := i;
                         _line_num := _line_num self;
                         _line_start := _line_start self |}).

Definition set_line (num start : Z) : M unit :=
  fun self => Ok (tt, {| _text := _text self; _index := _index self;
                         _line_num := num; _line_start := start |}).

(** A bound on the number of iterations of a scanning loop: every iteration
    moves the index forward by at least one symbol. *)
Definition scan_fuel (self : Parser) : nat := S (length (_text self)).

Definition standardize_line_separator (s : Py.str) : Py.str :=
  Py.replace
    (Py.replace s spec.CRLF_LINE_SEPARATOR spec.DEFAULT_LINE_SEPARATOR)
    spec.CR_LINE_SEPARATOR spec.DEFAULT_LINE_SEPARATOR.

Definition remove_digit_separator (s : Py.str) : Py.str :=
  Py.replace s spec.DIGIT_SEPARATOR [].

Definition _INVALID_NUMBER_COEFFICIENT_ERROR_REASON : fstring :=
  [Str (u "Invalid number. Expected at least 1 digit excluding any exponent.")].

(** [Parser.__init__] *)
Definition Parser__init__ (text : Py.str) : Parser :=
  {| _text := standardize_line_separator text;
     _index := 0; _line_num := 1; _line_start := 0 |}.

(** *** Input interface *)

Definition _is_at_end : M bool :=
  get (fun self => _index self =? Py.len (_text self)).

Definition _peek : M Py.str :=
  fun self =>
    match Py.getitem (_text self) (_index self) with
    | Some c => Ok ([c], self)
    | None =>
        if _index self =? Py.len (_text self) then Ok (spec.EMPTY, self)
        else Raise (Builtin Py.IndexError)
    end.

Definition _advance : M unit :=
  i <- get _index ;; set_index (i + 1).

Definition _next : M Py.str := _advance ;; _peek.

Definition _get_range (start_index end_index : Z) : M Py.str :=
  get (fun self => Py.slice (_text self) start_index end_index).

(** [while self._next() in S: pass], with [p] the test on the symbol. *)
Fixpoint _next_while (fuel : nat) (p : Py.str -> bool) : M unit :=
  c <- _next ;;
  if p c then
    match fuel with
    | O => out_of_fuel
    | S fuel' => _next_while fuel' p
    end
  else ret tt.

Definition while_next (p : Py.str -> bool) : M unit :=
  fun self => _next_while (scan_fuel self) p self.

(** *** Error reporting *)

Definition _find_line_end (start_index : Z) : M Z :=
  get (fun self =>
         let line_end :=
           Py.find2 (_text self) spec.DEFAULT_LINE_SEPARATOR start_index in
         if line_end =? -1 then Py.len (_text self) else line_end).

Definition default (o : option Z) (d : Z) : Z :=
  match o with Some v => v | None => d end.

Definition _make_invalid_sled_error (reason : fstring)
    (error_category : SledErrorCategory)
    (start_index end_index line_start line_num : option Z) : M SledError :=
  fun self =>
    let start_index := default start_index (_index self) in
    let end_index := default end_index (start_index + 1) in
    let line_start := default line_start (_line_start self) in
    let line_num := default line_num (_line_num self) in
    if negb ((line_start <=? start_index) && (start_index <? end_index)
             && (end_index <=? Py.len (_text self) + 1))
    then Raise (Builtin Py.ValueError)
    else if negb (Py.find (_text self) spec.DEFAULT_LINE_SEPARATOR
                    start_index (end_index - 1) =? -1)
    then Raise (Builtin Py.ValueError)
    else
      match _find_line_end line_start self with
      | Ok (line_end, _) =>
          match SledErrors.make_short_parse_error reason error_category
                  (Py.slice (_text self) line_start line_end) line_num
                  (start_index - line_start) (end_index - line_start) with
          | Ok e => Ok (e, self)
          | Raise x => Raise x
          | OutOfFuel => OutOfFuel
          end
      | Raise x => Raise x
      | OutOfFuel => OutOfFuel
      end.

(** [raise self._make_invalid_sled_error(reason)] *)
Definition raise_invalid {A} (reason : fstring) : M A :=
  e <- _make_invalid_sled_error reason SYNTAX None None None None ;;
  raise (Sled e).

(** [raise self._make_invalid_sled_error(reason, ...)] with keywords. *)
Definition raise_invalid_at {A} (reason : fstring)
    (error_category : SledErrorCategory)
    (start_index end_index line_start line_num : option Z) : M A :=
  e <- _make_invalid_sled_error reason error_category
         start_index end_index line_start line_num ;;
  raise (Sled e).

(** *** Misc parsing *)

Definition _consume_default_line_separators : M Py.str :=
  c <- _peek ;;
  if negb (Py.eqb c spec.DEFAULT_LINE_SEPARATOR) then
    at_end <- _is_at_end ;;
    if at_end then ret []
    else raise_invalid
           [Str (u "Expected "); Repr spec.DEFAULT_LINE_SEPARATOR;
            Str (u ", but got "); Repr c; Str (u ".")]
  else
    start_index <- get _index ;;
    while_next (fun c => Py.eqb c spec.DEFAULT_LINE_SEPARATOR) ;;
    i <- get _index ;;
    n <- get _line_num ;;
    set_line (n + (i - start_index)) i ;;
    _get_range start_index i.

Definition _parse_comment : M Py.str :=
  c <- _peek ;;
  if negb (Py.eqb c spec.COMMENT_MARK) then
    raise_invalid
      [Str (u "Expected comment to start with '"); Str spec.COMMENT_MARK;
       Str (u "', but got "); Repr c; Str (u ".")]
  else
    i <- get _index ;;
    let content_start_index := i + 1 in
    while_next (fun c => negb (mem c spec.COMMENT_DISALLOWED_SYMBOLS)) ;;
    j <- get _index ;;
    content <- _get_range content_start_index j ;;
    at_end <- _is_at_end ;;
    (if negb at_end then _consume_default_line_separators else ret []) ;;
    ret content.

Fixpoint _multi_line_consume_optional_loop (fuel : nat)
    (horizontal_set : frozenset) : M unit :=
  c <- _peek ;;
  let continue :=
    match fuel with
    | O => out_of_fuel
    | S fuel' => _multi_line_consume_optional_loop fuel' horizontal_set
    end in
  if Py.eqb c spec.DEFAULT_LINE_SEPARATOR then
    _consume_default_line_separators ;; continue
  else if Py.eqb c spec.COMMENT_MARK then
    _parse_comment ;; continue
  else if mem c horizontal_set then
    while_next (fun c => mem c horizontal_set) ;; continue
  else ret tt.

Definition _multi_line_consume_optional (horizontal_set : frozenset)
  : M Py.str :=
  start_index <- get _index ;;
  (fun self =>
     _multi_line_consume_optional_loop (scan_fuel self) horizontal_set self) ;;
  i <- get _index ;;
  _get_range start_index i.

Definition _consume_optional_ws : M Py.str :=
  _multi_line_consume_optional spec.HORIZONTAL_SPACE_SET.

Definition _consume_optional_ws_or_delimiters : M Py.str :=
  _multi_line_consume_optional spec.DELIMITER_OR_HORIZONTAL_SPACE_SET.

(** *** [string] representations *)

Definition snapshot_here (start_index : Z) (t : option SledType)
  : M ParseSnapshot :=
  get (fun self =>
         {| start_index := start_index;
            end_index := _index self;
            line_num := _line_num self;
            line_start := _line_start self;
            sled_type := t |}).

Definition _parse_unicode_escape_content : M Py.str :=
  c <- _next ;;
  if negb (Py.eqb c spec.UNICODE_ESCAPE_OPEN_MARK) then
    raise_invalid
      [Str (u "Expected '"); Str spec.UNICODE_ESCAPE_OPEN_MARK;
       Str (u "' after "); Str spec.DOUBLE_QUOTE_MARK;
       Str spec.ESCAPE_CHARACTER; Str spec.UNICODE_ESCAPE_KEY;
       Str spec.DOUBLE_QUOTE_MARK; Str (u ", but got "); Repr c;
       Str (u ".")]
  else
    i <- get _index ;;
    let content_start_index := i + 1 in
    content_end_index <-
      get (fun self => Py.find2 (_text self) spec.UNICODE_ESCAPE_CLOSE_MARK
                         content_start_index) ;;
    if content_end_index =? -1 then
      while_next (fun c => mem c spec.HEX_DIGIT_SET) ;;
      at_end <- _is_at_end ;;
      if at_end then
        raise_invalid
          [Str (u "Invalid Unicode escape sequence. ");
           Str (u "Reached end of input without finding ");
           Str (u "'"); Str spec.UNICODE_ESCAPE_CLOSE_MARK;
           Str (u "' to end ");
           Str (u "escape sequence for Unicode code point.")]
      else
        c <- _peek ;;
        raise_invalid
          [Str (u "Invalid Unicode escape sequence. ");
           Str (u "Expected only hexadecimal, ");
           Str (u "but found "); Repr c; Str (u ".")]
    else
      code_point_str <- _get_range content_start_index content_end_index ;;
      if negb (issuperset spec.HEX_DIGIT_SET code_point_str) then
        while_next (fun c => mem c spec.HEX_DIGIT_SET) ;;
        c <- _peek ;;
        raise_invalid
          [Str (u "Invalid Unicode escape sequence. ");
           Str (u "Expected only hexadecimal between ");
           Str (u "'"); Str spec.UNICODE_ESCAPE_OPEN_MARK;
           Str (u "' and ");
           Str (u "'"); Str spec.UNICODE_ESCAPE_CLOSE_MARK; Str (u "', ");
           Str (u "but found "); Repr c; Str (u ".")]
      else
        set_index (content_end_index + 1) ;;
        match Py.int16 code_point_str with
        | None => raise (Builtin Py.ValueError)
        | Some n =>
            match Py.chr n with
            | inr s => ret s
            | inl x => raise (Builtin x)
            end
        end.

Definition _parse_escape_sequence : M Py.str :=
  c <- _peek ;;
  if negb (Py.eqb c spec.ESCAPE_CHARACTER) then
    raise_invalid
      [Str (u "Invalid escape sequence. Expected '");
       Str spec.ESCAPE_CHARACTER;
       Str (u "' to start the escape sequence, but got "); Repr c;
       Str (u ".")]
  else
    c <- _next ;;
    match spec.get spec.SIMPLE_ESCAPE_EVALUATION c with
    | Some evaluation => _advance ;; ret evaluation
    | None =>
        if Py.eqb c spec.UNICODE_ESCAPE_KEY
        then _parse_unicode_escape_content
        else
          i <- get _index ;;
          raise_invalid_at
            [Str (u "Invalid escape sequence. No escape sequence ");
             Str (u "has the escape character followed by "); Repr c;
             Str (u ".")]
            SYNTAX (Some (i - 1)) (Some (i + 1)) None None
    end.

Fixpoint _parse_quote_loop (fuel : nat) (quote_mark : Py.str)
    (restricted_symbols : frozenset) (pieces : list Py.str)
  : M (list Py.str) :=
  piece_start_index <- get _index ;;
  c <- _peek ;;
  (if negb (mem c restricted_symbols)
   then while_next (fun c => negb (mem c restricted_symbols))
   else ret tt) ;;
  i <- get _index ;;
  piece <- _get_range piece_start_index i ;;
  let pieces := pieces ++ [piece] in
  c <- _peek ;;
  if Py.eqb c quote_mark then
    _advance ;; ret pieces
  else if Py.eqb c spec.ESCAPE_CHARACTER then
    escaped <- _parse_escape_sequence ;;
    match fuel with
    | O => out_of_fuel
    | S fuel' =>
        _parse_quote_loop fuel' quote_mark restricted_symbols
          (pieces ++ [escaped])
    end
  else if Py.eqb c spec.EMPTY then
    raise_invalid
      [Str (u "Reached end of file without finding "); Repr quote_mark;
       Str (u " to end quote.")]
  else
    raise_invalid
      [Str (u "Invalid quote. Found disallowed symbol "); Repr c;
       Str (u ".")].

Definition _parse_quote : M (Py.str * ParseSnapshot) :=
  quote_mark <- _peek ;;
  if negb (mem quote_mark spec.QUOTE_MARK_SET) then
    raise_invalid
      [Str (u "Expected a quote mark (single or double) to start quote, ");
       Str (u "but got "); Repr quote_mark; Str (u ". ")]
  else
    let restricted_symbols :=
      union spec.RESTRICTED_QUOTE_SYMBOLS (symbols quote_mark) in
    start_index <- get _index ;;
    _advance ;;
    pieces <-
      (fun self =>
         _parse_quote_loop (scan_fuel self) quote_mark restricted_symbols []
           self) ;;
    parse_snapshot <- snapshot_here start_index (Some STRING) ;;
    ret (Py.join [] pieces, parse_snapshot).

Definition _parse_identity : M (Py.str * ParseSnapshot) :=
  c <- _peek ;;
  if mem c spec.IDENTITY_DISALLOWED_START_SYMBOLS then
    raise_invalid
      [Str (u "Invalid identity. Cannot start with "); Repr c; Str (u ".")]
  else
    start_index <- get _index ;;
    while_next (fun c => negb (mem c spec.IDENTITY_DISALLOWED_SYMBOLS)) ;;
    parse_snapshot <- snapshot_here start_index (Some STRING) ;;
    i <- get _index ;;
    s <- _get_range start_index i ;;
    ret (s, parse_snapshot).

(** *** Number types *)

Definition _parse_optional_sign : M Py.str :=
  c <- _peek ;;
  (if Py.eqb c spec.DIGIT_SEPARATOR
   then while_next (fun c => Py.eqb c spec.DIGIT_SEPARATOR)
   else ret tt) ;;
  c <- _peek ;;
  if mem c spec.SIGN_SET then _advance ;; ret c else ret [].

Definition _consume_optional_digits : M Py.str :=
  start_index <- get _index ;;
  c <- _peek ;;
  (if mem c spec.OPTIONAL_DIGIT_SET
   then while_next (fun c => mem c spec.OPTIONAL_DIGIT_SET)
   else ret tt) ;;
  i <- get _index ;;
  _get_range start_index i.

Definition _consume_exponent : M Py.str :=
  exponent_prefix <- _peek ;;
  if negb (mem exponent_prefix spec.EXPONENT_PREFIX_SET) then
    raise_invalid
      [Str (u "Invalid exponent. Must start with 'e' or 'E', ");
       Str (u "but got "); Repr exponent_prefix; Str (u ".")]
  else
    _advance ;;
    sign_str <- _parse_optional_sign ;;
    digits <- _consume_optional_digits ;;
    let exponent_digit_str := remove_digit_separator digits in
    if 0 <? Py.len exponent_digit_str
    then ret (exponent_prefix ++ sign_str ++ exponent_digit_str)
    else
      raise_invalid
        [Str (u "Invalid exponent. Expected at least 1 digit in the exponent ");
         Str (u "(after '"); Str exponent_prefix; Str sign_str;
         Str (u "').")].

Definition _evaluate_float_excl_keyword (s : Py.str)
    (parse_snapshot : ParseSnapshot) : M spec_float :=
  match Py.float s with
  | None =>
      raise_invalid_at
        [Str (u "Invalid float. ");
         Str (u "Python's built-in failed to convert input: "); Str s]
        NUMBER_RANGE
        (Some (start_index parse_snapshot)) (Some (end_index parse_snapshot))
        (Some (line_start parse_snapshot)) (Some (line_num parse_snapshot))
  | Some evaluation =>
      if isinf evaluation || isnan evaluation then
        raise_invalid_at
          [Str (u "Invalid float. Expected a non-keyword value but ");
           Str (u "Python's built-in converted input to ");
           Str (Py.str_of_nonfinite evaluation); Str (u ": "); Str s]
          NUMBER_RANGE
          (Some (start_index parse_snapshot))
          (Some (end_index parse_snapshot))
          (Some (line_start parse_snapshot))
          (Some (line_num parse_snapshot))
      else ret evaluation
  end.

Definition _parse_number_excl_keyword : M (Entity * ParseSnapshot) :=
  start_index <- get _index ;;
  sign_str <- _parse_optional_sign ;;
  coefficient_start_index <- get _index ;;
  raw_integral_str <- _consume_optional_digits ;;
  let standardized_integral_str := remove_digit_separator raw_integral_str in
  c <- _peek ;;
  if negb (mem c spec.DECIMAL_MARK_SET) then
    if Py.len standardized_integral_str =? 0 then
      i <- get _index ;;
      raise_invalid_at _INVALID_NUMBER_COEFFICIENT_ERROR_REASON SYNTAX
        (Some coefficient_start_index) (Some i) None None
    else if mem c spec.EXPONENT_PREFIX_SET then
      exponent_str <- _consume_exponent ;;
      parse_snapshot <- snapshot_here start_index (Some FLOAT) ;;
      evaluation <-
        _evaluate_float_excl_keyword
          (sign_str ++ standardized_integral_str ++ exponent_str)
          parse_snapshot ;;
      ret (PyFloat evaluation, parse_snapshot)
    else
      parse_snapshot <- snapshot_here start_index (Some INTEGER) ;;
      let integer_str := sign_str ++ standardized_integral_str in
      match Py.int integer_str with
      | None => raise (Builtin Py.ValueError)
      | Some evaluation =>
          if (evaluation <? spec.SLED_INTEGER_MIN)
             || (spec.SLED_INTEGER_MAX <? evaluation) then
            i <- get _index ;;
            raise_invalid_at
              [Str (u "Invalid integer. Does not fall within allowed values ");
               Str (u "for Sled integer (overflow): "); Str integer_str]
              NUMBER_RANGE (Some start_index) (Some i) None None
          else ret (PyInt evaluation, parse_snapshot)
      end
  else
    _advance ;;
    raw_mantissa_str <- _consume_optional_digits ;;
    let standardized_mantissa_str :=
      remove_digit_separator raw_mantissa_str in
    if (Py.len standardized_integral_str =? 0)
       && (Py.len standardized_mantissa_str =? 0) then
      i <- get _index ;;
      raise_invalid_at _INVALID_NUMBER_COEFFICIENT_ERROR_REASON SYNTAX
        (Some coefficient_start_index) (Some i) None None
    else
      c <- _peek ;;
      exponent_str <-
        (if mem c spec.EXPONENT_PREFIX_SET then _consume_exponent
         else ret []) ;;
      parse_snapshot <- snapshot_here start_index (Some FLOAT) ;;
      let float_str :=
        sign_str ++ standardized_integral_str
        ++ spec.DEFAULT_DECIMAL_MARK ++ standardized_mantissa_str
        ++ exponent_str in
      evaluation <- _evaluate_float_excl_keyword float_str parse_snapshot ;;
      ret (PyFloat evaluation, parse_snapshot).

(** *** Keywords *)

Definition _parse_keyword_name : M (Py.str * ParseSnapshot) :=
  start_index <- get _index ;;
  c <- _peek ;;
  (if mem c spec.KEYWORD_CHAR_SET
   then while_next (fun c => mem c spec.KEYWORD_CHAR_SET)
   else ret tt) ;;
  i <- get _index ;;
  name <- _get_range start_index i ;;
  keyword_snapshot <- snapshot_here start_index None ;;
  ret (name, keyword_snapshot).

Definition hex_error_found (c : Py.str) : fstring :=
  [Str (u "Invalid hex. Expected only '"); Str spec.DIGIT_SEPARATOR;
   Str (u "', ");
   Str (u "hexadecimal and ws between '"); Str spec.HEX_OPEN_MARK;
   Str (u "' and ");
   Str (u "'"); Str spec.HEX_CLOSE_MARK; Str (u "', but found "); Repr c;
   Str (u ".")].

Definition _parse_hex_content : M (list byte) :=
  content_start_index <- get _index ;;
  hex_close_index <-
    get (fun self => Py.find2 (_text self) spec.HEX_CLOSE_MARK
                       content_start_index) ;;
  if hex_close_index =? -1 then
    while_next (fun c => mem c spec.HEX_CHAR_SET) ;;
    at_end <- _is_at_end ;;
    if at_end then
      raise_invalid
        [Str (u "Invalid hex. Reached end of input without finding ");
         Str (u "'"); Str spec.HEX_CLOSE_MARK; Str (u "' to end hex.")]
    else
      c <- _peek ;;
      raise_invalid (hex_error_found c)
  else
    content_str <- _get_range content_start_index hex_close_index ;;
    let content_set := symbols content_str in
    if negb (issuperset spec.HEX_CHAR_SET content_str) then
      while_next (fun c => mem c spec.HEX_CHAR_SET) ;;
      c <- _peek ;;
      raise_invalid (hex_error_found c)
    else
      let content_str :=
        fold_left (fun s c => Py.replace s c [])
          (difference content_set spec.HEX_DIGIT_SET) content_str in
      if negb (Py.len content_str mod 2 =? 0) then
        raise_invalid_at
          [Str (u "Invalid hex. Expected an even number of hexadecimal digits ");
           Str (u "for full bytes of data, but got ");
           Int (Py.len content_str); Str (u " ");
           Str (u "hexadecimal digits.")]
          SYNTAX None (Some hex_close_index) None None
      else
        set_index hex_close_index ;;
        match Py.fromhex content_str with
        | Some b => ret b
        | None => raise (Builtin Py.ValueError)
        end.

Fixpoint _parse_concat_content_loop (fuel : nat) (content : list Py.str)
  : M Py.str :=
  c <- _peek ;;
  if negb (mem c spec.QUOTE_MARK_SET) then
    raise_invalid
      [Str (u "Expected either a quote mark (single or double) ");
       Str (u "to start a quote, or '"); Str spec.CONCAT_CLOSE_MARK;
       Str (u "' ");
       Str (u "to end the concat, but got "); Repr c; Str (u ".")]
  else
    '(quote, _) <- _parse_quote ;;
    let content := content ++ [quote] in
    ws <- _consume_optional_ws_or_delimiters ;;
    c <- _peek ;;
    if Py.eqb c spec.CONCAT_CLOSE_MARK then ret (Py.join [] content)
    else if isdisjoint spec.DELIMITER_SET ws then
      raise_invalid
        [Str (u "Expected either '"); Str spec.CONCAT_CLOSE_MARK;
         Str (u "' to end ");
         Str (u "the concat, or a delimiter ('"); Str spec.DELIMITER_MARK;
         Str (u "' ");
         Str (u "or a line separator) before the next segment, ");
         Str (u "but got "); Repr c; Str (u ".")]
    else
      match fuel with
      | O => out_of_fuel
      | S fuel' => _parse_concat_content_loop fuel' content
      end.

Definition _parse_concat_content : M Py.str :=
  _consume_optional_ws_or_delimiters ;;
  c <- _peek ;;
  if Py.eqb c spec.CONCAT_CLOSE_MARK then ret []
  else fun self => _parse_concat_content_loop (scan_fuel self) [] self.

Definition _handle_concat_after_keyword (keyword_snapshot : ParseSnapshot)
  : M (Py.str * ParseSnapshot) :=
  _consume_optional_ws ;;
  c <- _peek ;;
  if negb (Py.eqb c spec.CONCAT_OPEN_MARK) then
    raise_invalid
      [Str (u "Expected '"); Str spec.CONCAT_OPEN_MARK;
       Str (u "' to start concat, ");
       Str (u "but got "); Repr c; Str (u ".")]
  else
    _advance ;;
    content <- _parse_concat_content ;;
    c <- _peek ;;
    if Py.eqb c spec.CONCAT_CLOSE_MARK then
      _advance ;;
      i <- get _index ;;
      ret (content,
           {| start_index := start_index keyword_snapshot;
              end_index := i;
              line_num := line_num keyword_snapshot;
              line_start := line_start keyword_snapshot;
              sled_type := Some STRING |})
    else
      raise_invalid
        [Str (u "Expected '"); Str spec.CONCAT_CLOSE_MARK;
         Str (u "' to end concat, ");
         Str (u "but got "); Repr c; Str (u ".")].

Definition _parse_keyword : M (Entity * ParseSnapshot) :=
  c <- _peek ;;
  if negb (Py.eqb c spec.KEYWORD_MARK) then
    raise_invalid
      [Str (u "Invalid keyword. Expected keyword to be prefixed ");
       Str (u "by '"); Str spec.KEYWORD_MARK; Str (u "', but got ");
       Repr c; Str (u ".")]
  else
    start_index <- get _index ;;
    _advance ;;
    '(keyword_name, keyword_snapshot) <- _parse_keyword_name ;;
    match KEYWORD_LITERALS_get keyword_name with
    | Some keyword_literal_spec =>
        ret (evaluation keyword_literal_spec, keyword_snapshot)
    | None =>
        if Py.eqb keyword_name spec.HEX_KEYWORD_NAME then
          _consume_optional_ws ;;
          c <- _peek ;;
          if negb (Py.eqb c spec.HEX_OPEN_MARK) then
            raise_invalid
              [Str (u "Expected '"); Str spec.HEX_OPEN_MARK;
               Str (u "' to start hex, ");
               Str (u "but got "); Repr c; Str (u ".")]
          else
            _advance ;;
            content <- _parse_hex_content ;;
            c <- _peek ;;
            if Py.eqb c spec.HEX_CLOSE_MARK then
              _advance ;;
              i <- get _index ;;
              ret (PyBytes content,
                   {| start_index := Snapshot.start_index keyword_snapshot;
                      end_index := i;
                      line_num := line_num keyword_snapshot;
                      line_start := line_start keyword_snapshot;
                      sled_type := Some HEX |})
            else
              raise_invalid
                [Str (u "Expected '"); Str spec.HEX_CLOSE_MARK;
                 Str (u "' to end hex, ");
                 Str (u "but got "); Repr c; Str (u ".")]
        else if Py.eqb keyword_name spec.CONCAT_KEYWORD_NAME then
          '(s, snapshot) <- _handle_concat_after_keyword keyword_snapshot ;;
          ret (PyStr s, snapshot)
        else
          i <- get _index ;;
          ls <- get _line_start ;;
          ln <- get _line_num ;;
          raise_invalid_at
            [Str (u "Invalid keyword "); Str spec.DOUBLE_QUOTE_MARK;
             Str spec.KEYWORD_MARK; Str keyword_name;
             Str spec.DOUBLE_QUOTE_MARK; Str (u ".")]
            SYNTAX (Some start_index) (Some i) (Some ls) (Some ln)
    end.

(** *** Map keys *)

(** The statement [self._make_invalid_sled_error(...)] without [raise]: the
    error is built (which may itself raise [ValueError]) and dropped. *)
Definition non_concat_keyword (what : Py.str) (start_index : Z) : M unit :=
  i <- get _index ;;
  r <- _get_range start_index i ;;
  _make_invalid_sled_error
    [Str (u "Expected "); Str what;
     Str (u ", but got a non-concat keyword: "); Str r]
    SYNTAX (Some start_index) (Some i) None None ;;
  ret tt.

Definition as_str (p : M (Py.str * ParseSnapshot))
  : M (Entity * ParseSnapshot) :=
  '(s, snapshot) <- p ;; ret (PyStr s, snapshot).

Definition _parse_map_key : M (Entity * ParseSnapshot) :=
  start_index <- get _index ;;
  c <- _peek ;;
  if Py.eqb c spec.KEYWORD_MARK then
    _advance ;;
    '(keyword_name, keyword_snapshot) <- _parse_keyword_name ;;
    (if negb (Py.eqb keyword_name spec.CONCAT_KEYWORD_NAME)
     then non_concat_keyword (u "a map key") start_index
     else ret tt) ;;
    as_str (_handle_concat_after_keyword keyword_snapshot)
  else if mem c spec.NUMBER_START_SET then _parse_number_excl_keyword
  else if mem c spec.QUOTE_MARK_SET then as_str _parse_quote
  else if negb (mem c spec.IDENTITY_DISALLOWED_START_SYMBOLS)
  then as_str _parse_identity
  else
    raise_invalid
      [Str (u "Invalid map key. No map key starts with "); Repr c;
       Str (u ".")].

Definition _parse_string : M (Entity * ParseSnapshot) :=
  start_index <- get _index ;;
  c <- _peek ;;
  if Py.eqb c spec.KEYWORD_MARK then
    _advance ;;
    '(keyword_name, keyword_snapshot) <- _parse_keyword_name ;;
    (if negb (Py.eqb keyword_name spec.CONCAT_KEYWORD_NAME)
     then non_concat_keyword (u "a string") start_index
     else ret tt) ;;
    as_str (_handle_concat_after_keyword keyword_snapshot)
  else if mem c spec.QUOTE_MARK_SET then as_str _parse_quote
  else if negb (mem c spec.IDENTITY_DISALLOWED_START_SYMBOLS)
  then as_str _parse_identity
  else
    raise_invalid
      [Str (u "Invalid string. No string starts with "); Repr c;
       Str (u ".")].

(** [self._start_index]: the class [Parser] defines no such attribute
    (its attributes are [_text], [_index], [_line_num], [_line_start] and
    [_evaluation]), so the lookup raises [AttributeError]. *)
Definition _start_index : M Z := raise (Builtin Py.AttributeError).

Definition _parse_integer : M (Entity * ParseSnapshot) :=
  start_index <- _start_index ;;
  '(evaluation, parse_snapshot) <- _parse_number_excl_keyword ;;
  match sled_type parse_snapshot with
  | Some INTEGER => ret (evaluation, parse_snapshot)
  | t =>
      i <- get _index ;;
      raise_invalid_at
        [Str (u "Expected an integer, but got "); Str (opt_SledType_str t)]
        SYNTAX (Some start_index) (Some i) None None
  end.

(** *** [container] types *)

(** [c == NUMBER_START_SET], for the string [c]: a [str] and a [frozenset]
    never compare equal. *)
Definition str_eq_frozenset (c : Py.str) (s : frozenset) : bool := false.

Definition key_parser := M (Entity * ParseSnapshot).

Definition _handle_map_first_key (key_type : option SledType)
  : M (Entity * ParseSnapshot * key_parser) :=
  match key_type with
  | None =>
      '(key, key_snapshot) <- _parse_map_key ;;
      match sled_type key_snapshot with
      | Some STRING => ret (key, key_snapshot, _parse_string)
      | Some INTEGER => ret (key, key_snapshot, _parse_integer)
      | t =>
          raise_invalid_at
            [Str (u "Expected map key to be either a string or integer, ");
             Str (u "but got: "); Str (opt_SledType_str t)]
            MAP_KEY_TYPE
            (Some (start_index key_snapshot)) (Some (end_index key_snapshot))
            (Some (line_start key_snapshot)) (Some (line_num key_snapshot))
      end
  | Some STRING =>
      '(key, key_snapshot) <- _parse_string ;;
      ret (key, key_snapshot, _parse_string)
  | Some INTEGER =>
      '(key, key_snapshot) <- _parse_integer ;;
      ret (key, key_snapshot, _parse_integer)
  | Some _ => raise (Builtin Py.ValueError)
  end.

(** The methods below call [_parse_entity] recursively; they take it as an
    argument, and [_parse_entity] ties the knot on a nesting budget. *)
Section Containers.

Variable _parse_entity : M Entity.

Definition _parse_map_pair_after_key : M Entity :=
  _consume_optional_ws ;;
  c <- _peek ;;
  if negb (Py.eqb c spec.KEY_VALUE_SEPARATOR) then
    raise_invalid
      [Str (u "Expected '"); Str spec.KEY_VALUE_SEPARATOR;
       Str (u "' between key and value, ");
       Str (u "but got "); Repr c; Str (u ".")]
  else
    _advance ;;
    _consume_optional_ws ;;
    _parse_entity.

Definition map_data := list (Entity * ParseSnapshot * Entity).

(** [while True:] collecting the remaining map pairs. *)
Fixpoint _parse_map_content_loop (fuel : nat) (key_parse_func : key_parser)
    (data : map_data) : M map_data :=
  ws <- _consume_optional_ws_or_delimiters ;;
  c <- _peek ;;
  if Py.eqb c spec.MAP_CLOSE_MARK || Py.eqb c [] then ret data
  else if isdisjoint spec.DELIMITER_SET ws then
    raise_invalid
      [Str (u "Expected either the end of the map, or a delimiter ");
       Str (u "('"); Str spec.DELIMITER_MARK;
       Str (u "' or a line separator) before ");
       Str (u "the next key-value pair, but got "); Repr c; Str (u ".")]
  else
    '(key, key_snapshot) <- key_parse_func ;;
    value <- _parse_map_pair_after_key ;;
    match fuel with
    | O => out_of_fuel
    | S fuel' =>
        _parse_map_content_loop fuel' key_parse_func
          (data ++ [(key, key_snapshot, value)])
    end.

(** The first key of [data], in order, that equals an earlier key. *)
Fixpoint has_seen_key (seen_keys : list Entity) (data : map_data) : bool :=
  match data with
  | [] => false
  | (k, _, _) :: data' =>
      if existsb (key_eqb k) seen_keys then true
      else has_seen_key (seen_keys ++ [k]) data'
  end.

Definition _parse_map_content (key_type : option SledType) : M Entity :=
  i <- get _index ;;
  ls <- get _line_start ;;
  let start_index_within_line := i - ls in
  start_line_num <- get _line_num ;;
  _consume_optional_ws_or_delimiters ;;
  c <- _peek ;;
  if Py.eqb c spec.MAP_CLOSE_MARK || Py.eqb c [] then ret (PyDict [])
  else
    '(key, key_snapshot, key_parse_func) <-
      _handle_map_first_key key_type ;;
    value <- _parse_map_pair_after_key ;;
    data <-
      (fun self =>
         _parse_map_content_loop (scan_fuel self) key_parse_func
           [(key, key_snapshot, value)] self) ;;
    if has_seen_key [] data then
      raise (Sled (SledErrors.make_duplicate_map_key_error
                     (map (fun kv => (fst (fst kv), snd (fst kv))) data)
                     start_line_num start_index_within_line))
    else
      ret (PyDict (map (fun kv => (fst (fst kv), snd kv)) data)).

Fixpoint _parse_list_content_loop (fuel : nat) (content : list Entity)
  : M (list Entity) :=
  e <- _parse_entity ;;
  let content := content ++ [e] in
  ws <- _consume_optional_ws_or_delimiters ;;
  c <- _peek ;;
  if Py.eqb c spec.LIST_CLOSE_MARK then ret content
  else if isdisjoint spec.DELIMITER_SET ws then
    raise_invalid
      [Str (u "Expected either '"); Str spec.LIST_CLOSE_MARK;
       Str (u "' to end the list, ");
       Str (u "or a delimiter ('"); Str spec.DELIMITER_MARK;
       Str (u "' or a line separator) ");
       Str (u "before the next entity, but got "); Repr c; Str (u ".")]
  else
    match fuel with
    | O => out_of_fuel
    | S fuel' => _parse_list_content_loop fuel' content
    end.

Definition _parse_list_content : M Entity :=
  _consume_optional_ws_or_delimiters ;;
  c <- _peek ;;
  if Py.eqb c spec.LIST_CLOSE_MARK then ret (PyList [])
  else
    content <-
      (fun self => _parse_list_content_loop (scan_fuel self) [] self) ;;
    ret (PyList content).

(** The body of [_parse_entity]. *)
Definition _parse_entity_body : M Entity :=
  c <- _peek ;;
  if Py.eqb c spec.MAP_OPEN_MARK then
    _advance ;;
    content <- _parse_map_content None ;;
    c <- _peek ;;
    if Py.eqb c spec.MAP_CLOSE_MARK then _advance ;; ret content
    else
      raise_invalid
        [Str (u "Expected '"); Str spec.MAP_CLOSE_MARK;
         Str (u "' to end map, ");
         Str (u "but got "); Repr c; Str (u ".")]
  else if Py.eqb c spec.LIST_OPEN_MARK then
    _advance ;;
    content <- _parse_list_content ;;
    c <- _peek ;;
    if Py.eqb c spec.LIST_CLOSE_MARK then _advance ;; ret content
    else
      raise_invalid
        [Str (u "Expected '"); Str spec.LIST_CLOSE_MARK;
         Str (u "' to end list, ");
         Str (u "but got "); Repr c; Str (u ".")]
  else if Py.eqb c spec.KEYWORD_MARK then
    '(keyword_evaluation, _) <- _parse_keyword ;;
    ret keyword_evaluation
  else if str_eq_frozenset c spec.NUMBER_START_SET then
    '(number_evaluation, _) <- _parse_number_excl_keyword ;;
    ret number_evaluation
  else if mem c spec.QUOTE_MARK_SET then
    '(quote_evaluation, _) <- _parse_quote ;;
    ret (PyStr quote_evaluation)
  else if negb (mem c spec.IDENTITY_DISALLOWED_START_SYMBOLS) then
    '(identity_evaluation, _) <- _parse_identity ;;
    ret (PyStr identity_evaluation)
  else
    raise_invalid
      [Str (u "Invalid entity. No entity starts with "); Repr c;
       Str (u ".")].

End Containers.

(** [_parse_entity], with [depth] bounding the nesting of maps and lists. *)
Fixpoint _parse_entity (depth : nat) : M Entity :=
  match depth with
  | O => out_of_fuel
  | S depth' => _parse_entity_body (_parse_entity depth')
  end.

Definition _parse_document : M Entity :=
  fun self =>
    let entity := _parse_entity (scan_fuel self) in
    (c <- _peek ;;
     let has_top_level_braces := Py.eqb c spec.MAP_OPEN_MARK in
     (if has_top_level_braces then _advance else ret tt) ;;
     evaluation <- _parse_map_content entity (Some STRING) ;;
     _consume_optional_ws_or_delimiters ;;
     c <- _peek ;;
     (if has_top_level_braces then
        if Py.eqb c spec.MAP_CLOSE_MARK then _advance
        else
          raise_invalid
            [Str (u "Expected '"); Str spec.MAP_CLOSE_MARK;
             Str (u "' to end top-level map ");
             Str (u "but got "); Repr c; Str (u ".")]
      else ret tt) ;;
     at_end <- _is_at_end ;;
     if at_end then ret evaluation
     else raise_invalid [Str (u "Sled input did not end where expected.")])
      self.

(** [Parser.parse] on a fresh parser. *)
Definition parse (self : Parser) : result Entity :=
  match _parse_document self with
  | Ok (evaluation, _) => Ok evaluation
  | Raise e => Raise e
  | OutOfFuel => OutOfFuel
  end.

Definition from_sled (text : Py.str) : result Entity :=
  parse (Parser__init__ text).

(** ** [_serializer_basic.py], [_serializer.py], [_serializer_mini.py] *)

(** [f"{n:d}"] and [f"{n:_d}"] *)
Definition format_d (n : Z) : Py.str := Py.str_of_int n.

(** Groups of [width] symbols counted from the right, joined by [_]. *)
Fixpoint group_right (width : nat) (fuel : nat) (digits : Py.str) : Py.str :=
  match fuel with
  | O => digits
  | S fuel' =>
      if (length digits <=? width)%nat then digits
      else group_right width fuel'
             (firstn (length digits - width) digits)
           ++ u "_" ++ skipn (length digits - width) digits
  end.

Definition with_sign (n : Z) (magnitude : Py.str) : Py.str :=
  (if n <? 0 then u "-" else []) ++ magnitude.

Definition format__d (n : Z) : Py.str :=
  let digits := Py.str_of_int (Z.abs n) in
  with_sign n (group_right 3 (length digits) digits).

Definition upper_hex_digit (d : Z) : N :=
  Z.to_N (if d <? 10 then 48 + d else 55 + d).

Definition lower_hex_digit (d : Z) : N :=
  Z.to_N (if d <? 10 then 48 + d else 87 + d).

Fixpoint hex_digits (digit : Z -> N) (fuel : nat) (n : Z) (acc : Py.str)
  : Py.str :=
  match fuel with
  | O => acc
  | S fuel' =>
      let acc := digit (n mod 16) :: acc in
      if n / 16 =? 0 then acc else hex_digits digit fuel' (n / 16) acc
  end.

(** [f"{n:_X}"] for a non-negative [n]. *)
Definition format__X (n : Z) : Py.str :=
  let digits := hex_digits upper_hex_digit (S (Z.to_nat (Z.log2 n))) n [] in
  group_right 4 (length digits) digits.

(** [b.hex()] *)
Definition bytes_hex (b : list byte) : Py.str :=
  flat_map (fun x => let n := Z.of_N (Byte.to_N x) in
                     [lower_hex_digit (n / 16); lower_hex_digit (n mod 16)])
           b.

(** Chunks of [width] bytes counted from the left; the last may be short. *)
Fixpoint chunks_left (width : nat) (fuel : nat) (b : list byte)
  : list (list byte) :=
  match fuel with
  | O => [b]
  | S fuel' =>
      if (length b <=? width)%nat then [b]
      else firstn width b :: chunks_left width fuel' (skipn width b)
  end.

(** [b.hex(sep, bytes_per_sep)]; [None] stands for the [ValueError] raised
    when [sep] is not a single ASCII symbol. *)
Definition bytes_hex_sep (b : list byte) (sep : Py.str) (bytes_per_sep : Z)
  : option Py.str :=
  match sep with
  | [c] =>
      if negb (Py.isascii c) then None
      else if (bytes_per_sep =? 0) || (length b =? 0)%nat
      then Some (bytes_hex b)
      else
        let width := Z.to_nat (Z.abs bytes_per_sep) in
        if bytes_per_sep <? 0
        then Some (Py.join sep
                     (map bytes_hex (chunks_left width (length b) b)))
        else Some (Py.join sep
                     (map bytes_hex
                        (rev (map (@rev byte)
                                (chunks_left width (length b) (rev b))))))
  | _ => None
  end.

Inductive SerializerClass :=
| SledSerializerBasic
| SledSerializer
| SledSerializerMini.

(** A serializer object: its class and its attributes.  The last five
    attributes are set by [SledSerializer.__init__] only. *)
Record Serializer := {
  class : SerializerClass;
  _indent : Py.str;
  _use_top_level_braces : bool;
  _line_separator : Py.str;
  _line_separator_escape : Py.str;
  _always_quote : bool;
  _ascii_only : bool;
  _quote_mark : Py.str;
  _quote_mark_escape : Py.str;
  _hex_upper_case : bool;
  _decimal_mark : Py.str;
  _exponent_prefix : Py.str;
  _break_on_line_separator : bool;
  _hex_horizontal_separator : Py.str;
  _hex_bytes_per_separator : Z;
  _hex_line_length : Z;
  _use_thousands_separator : bool;
}.

Definition DEFAULT_USE_TOP_LEVEL_BRACES := false.
Definition DEFAULT_ALWAYS_QUOTE := false.
Definition DEFAULT_ASCII_ONLY := false.
Definition DEFAULT_HEX_UPPER_CASE := false.
Definition DEFAULT_BREAK_ON_LINE_SEPARATOR := true.
Definition DEFAULT_HEX_HORIZONTAL_SEPARATOR := spec.DIGIT_SEPARATOR.
Definition DEFAULT_USE_THOUSANDS_SEPARATOR := true.

(** The keyword arguments of the three constructors. *)
Record Options := {
  indent : Py.str;
  use_top_level_braces : bool;
  line_separator : Py.str;
  always_quote : bool;
  ascii_only : bool;
  break_on_line_separator : bool;
  quote_mark : Py.str;
  hex_upper_case : bool;
  hex_horizontal_separator : Py.str;
  hex_bytes_per_separator : Z;
  hex_line_length : Z;
  decimal_mark : Py.str;
  exponent_prefix : Py.str;
  use_thousands_separator : bool;
}.

Definition default_options : Options :=
  {| indent := spec.DEFAULT_INDENT;
     use_top_level_braces := DEFAULT_USE_TOP_LEVEL_BRACES;
     line_separator := spec.DEFAULT_LINE_SEPARATOR;
     always_quote := DEFAULT_ALWAYS_QUOTE;
     ascii_only := DEFAULT_ASCII_ONLY;
     break_on_line_separator := DEFAULT_BREAK_ON_LINE_SEPARATOR;
     quote_mark := spec.DEFAULT_QUOTE_MARK;
     hex_upper_case := DEFAULT_HEX_UPPER_CASE;
     hex_horizontal_separator := DEFAULT_HEX_HORIZONTAL_SEPARATOR;
     hex_bytes_per_separator := spec.DEFAULT_HEX_BYTES_PER_SEPARATOR;
     hex_line_length := spec.DEFAULT_HEX_LINE_LENGTH;
     decimal_mark := spec.DEFAULT_DECIMAL_MARK;
     exponent_prefix := spec.DEFAULT_EXPONENT_PREFIX;
     use_thousands_separator := DEFAULT_USE_THOUSANDS_SEPARATOR |}.

(** [SledSerializerBasic.__init__]; the attributes of the subclass are given
    by the caller. *)
Definition SledSerializerBasic__init__ (cls : SerializerClass) (o : Options)
    (break_on : bool) (hex_sep : Py.str) (hex_bytes hex_len : Z)
    (thousands : bool) : result Serializer :=
  if negb (issuperset spec.HORIZONTAL_SPACE_SET (indent o))
  then Raise (Builtin Py.ValueError)
  else
    match spec.get spec.LINE_SEPARATOR_ESCAPES (line_separator o) with
    | None => Raise (Builtin Py.ValueError)
    | Some line_separator_escape =>
        match spec.get spec.SIMPLE_ESCAPE_SEQUENCES (quote_mark o) with
        | None => Raise (Builtin Py.ValueError)
        | Some quote_mark_escape =>
            Ok {| class := cls;
                  _indent := indent o;
                  _use_top_level_braces := use_top_level_braces o;
                  _line_separator := line_separator o;
                  _line_separator_escape := line_separator_escape;
                  _always_quote := always_quote o;
                  _ascii_only := ascii_only o;
                  _quote_mark := quote_mark o;
                  _quote_mark_escape := quote_mark_escape;
                  _hex_upper_case := hex_upper_case o;
                  _decimal_mark := decimal_mark o;
                  _exponent_prefix := exponent_prefix o;
                  _break_on_line_separator := break_on;
                  _hex_horizontal_separator := hex_sep;
                  _hex_bytes_per_separator := hex_bytes;
                  _hex_line_length := hex_len;
                  _use_thousands_separator := thousands |}
        end
    end.

(** [SledSerializerBasic(...)] *)
Definition new_SledSerializerBasic (o : Options) : result Serializer :=
  SledSerializerBasic__init__ SledSerializerBasic o false [] 0 0 false.

(** [SledSerializer(...)].  When the line length is too small the message of
    the intended [ValueError] applies [abs] to a string, which raises
    [TypeError]. *)
Definition new_SledSerializer (o : Options) : result Serializer :=
  let hex_sep :=
    if hex_bytes_per_separator o =? 0 then []
    else hex_horizontal_separator o in
  let hex_bytes :=
    if Py.eqb (hex_horizontal_separator o) [] then 0
    else hex_bytes_per_separator o in
  match SledSerializerBasic__init__ SledSerializer o
          (break_on_line_separator o) hex_sep hex_bytes (hex_line_length o)
          (use_thousands_separator o) with
  | Ok self =>
      if hex_line_length o <? Z.abs hex_bytes * spec.HEX_DIGITS_PER_BYTE
      then Raise (Builtin Py.TypeError)
      else Ok self
  | r => r
  end.

(** [SledSerializerMini(...)]: the indent and the line separator keep the
    defaults of the base class. *)
Definition new_SledSerializerMini (o : Options) : result Serializer :=
  SledSerializerBasic__init__ SledSerializerMini
    {| indent := spec.DEFAULT_INDENT;
       use_top_level_braces := use_top_level_braces o;
       line_separator := spec.DEFAULT_LINE_SEPARATOR;
       always_quote := always_quote o;
       ascii_only := ascii_only o;
       break_on_line_separator := break_on_line_separator o;
       quote_mark := quote_mark o;
       hex_upper_case := hex_upper_case o;
       hex_horizontal_separator := hex_horizontal_separator o;
       hex_bytes_per_separator := hex_bytes_per_separator o;
       hex_line_length := hex_line_length o;
       decimal_mark := decimal_mark o;
       exponent_prefix := exponent_prefix o;
       use_thousands_separator := use_thousands_separator o |}
    false [] 0 0 false.

(** [seq(f(x) for x in l)]: the results in order, or the first raise. *)
Fixpoint for_each {A B} (f : A -> result B) (l : list A) : result (list B) :=
  match l with
  | [] => Ok []
  | x :: l' =>
      match f x with
      | Ok y =>
          match for_each f l' with
          | Ok ys => Ok (y :: ys)
          | Raise e => Raise e
          | OutOfFuel => OutOfFuel
          end
      | Raise e => Raise e
      | OutOfFuel => OutOfFuel
      end
  end.

Definition result_map {A B} (f : A -> B) (r : result A) : result B :=
  match r with
  | Ok a => Ok (f a)
  | Raise e => Raise e
  | OutOfFuel => OutOfFuel
  end.

(** [isinstance(k, str)] and [isinstance(k, int)] ([bool] is a subclass of
    [int]). *)
Definition is_str (k : Entity) : bool :=
  match k with PyStr _ => true | _ => false end.
Definition is_int (k : Entity) : bool :=
  match k with PyInt _ | PyBool _ => true | _ => false end.

(** The value of an [int] object. *)
Definition int_value (k : Entity) : Z :=
  match k with
  | PyInt n => n
  | PyBool true => 1
  | _ => 0
  end.

(** [a == b] on [str] and [int] keys of a [dict]. *)
Definition dict_key_eqb (a b : Entity) : bool :=
  match a, b with
  | PyStr s, PyStr t => Py.eqb s t
  | (PyInt _ | PyBool _), (PyInt _ | PyBool _) => int_value a =? int_value b
  | _, _ => false
  end.

(** What [_to_hex_content] returns: the digest [content], or the bound
    method [content.upper] (the method is not called). *)
Inductive hex_content :=
| Digest (content : Py.str)
| MethodUpper (content : Py.str).

Section Methods.

(** Two built-ins are kept abstract: [format(x, spec)] for a finite float
    [x], and the address that [repr] prints for a method's receiver. *)
Variable format_float : spec_float -> Py.str -> Py.str.
Variable address_of : Py.str -> Py.str.

Variable self : Serializer.

(** Objects here carry no [to_sled_serializable] method. *)
Definition _unwrap (obj : Entity) : Entity := obj.

(** [f"{content}"] *)
Definition format_hex_content (c : hex_content) : Py.str :=
  match c with
  | Digest content => content
  | MethodUpper content =>
      u "<built-in method upper of str object at " ++ address_of content
        ++ u ">"
  end.

Definition to_boolean (b : bool) : Py.str :=
  if b then lexeme KeywordLiteral.TRUE else lexeme KeywordLiteral.FALSE.

Definition _to_hex_content (b : list byte) : result hex_content :=
  match class self with
  | SledSerializer =>
      match bytes_hex_sep b (_hex_horizontal_separator self)
              (_hex_bytes_per_separator self) with
      | None => Raise (Builtin Py.ValueError)
      | Some content =>
          Ok (if _hex_upper_case self then MethodUpper content
              else Digest content)
      end
  | _ =>
      let content := bytes_hex b in
      Ok (if _hex_upper_case self then MethodUpper content
          else Digest content)
  end.

Fixpoint _fold_hex_lines_loop (fuel : nat) (hex_content : Py.str)
    (line_length line_length_in_content line_start_index : Z)
    (lines : list Py.str) : list Py.str :=
  if line_start_index <? Py.len hex_content then
    let lines :=
      lines ++ [Py.slice hex_content line_start_index
                  (line_start_index + line_length)] in
    match fuel with
    | O => lines
    | S fuel' =>
        _fold_hex_lines_loop fuel' hex_content line_length
          line_length_in_content
          (line_start_index + line_length_in_content) lines
    end
  else lines.

(** [_fold_hex_lines] when [hex_bytes_per_separator <= 0]. *)
Definition _fold_hex_lines_left (hex_content : Py.str)
    (hex_bytes_per_separator : Z) : list Py.str :=
  let '(line_length, line_length_in_content) :=
    if negb (hex_bytes_per_separator =? 0)
       && negb (Py.eqb (_hex_horizontal_separator self) [])
    then
      let separator_length := Py.len (_hex_horizontal_separator self) in
      let remainder_length :=
        (_hex_line_length self + separator_length)
        mod (spec.HEX_DIGITS_PER_BYTE * hex_bytes_per_separator
             + separator_length) in
      let line_length := _hex_line_length self - remainder_length in
      (line_length, line_length + separator_length)
    else (_hex_line_length self, _hex_line_length self) in
  _fold_hex_lines_loop (length hex_content) hex_content line_length
    line_length_in_content 0 [].

(** [_fold_hex_lines]: a positive [hex_bytes_per_separator] folds the
    reversed content with the opposite sign, once. *)
Definition _fold_hex_lines (hex_content : Py.str)
    (hex_bytes_per_separator : Z) : list Py.str :=
  if 0 <? hex_bytes_per_separator then
    let reversed_lines :=
      _fold_hex_lines_left (rev hex_content) (- hex_bytes_per_separator) in
    let lines := map (@rev N) (rev reversed_lines) in
    match lines with
    | first :: second :: rest =>
        Py.rjust first (Py.len second) :: second :: rest
    | _ => lines
    end
  else _fold_hex_lines_left hex_content hex_bytes_per_separator.

Definition enclose_hex (content : Py.str) : Py.str :=
  spec.KEYWORD_MARK ++ spec.HEX_KEYWORD_NAME
  ++ spec.HEX_OPEN_MARK ++ content ++ spec.HEX_CLOSE_MARK.

Definition to_hex (b : list byte) (indent : Py.str) : result Py.str :=
  match _to_hex_content b with
  | Ok content =>
      match class self with
      | SledSerializer =>
          if _hex_line_length self <=? 0
          then Ok (enclose_hex (format_hex_content content))
          else
            match content with
            | MethodUpper _ => Raise (Builtin Py.TypeError)
            | Digest content =>
                if Py.len content <? _hex_line_length self
                then Ok (enclose_hex content)
                else
                  let lines :=
                    _fold_hex_lines content
                      (_hex_bytes_per_separator self) in
                  let last_line_separator :=
                    _line_separator self ++ indent in
                  let line_separator :=
                    last_line_separator ++ _indent self in
                  let joined_lines :=
                    concat (map (fun line => line_separator ++ line)
                              lines) in
                  Ok (spec.KEYWORD_MARK ++ spec.HEX_KEYWORD_NAME
                      ++ spec.HEX_OPEN_MARK
                      ++ joined_lines ++ last_line_separator
                      ++ spec.HEX_CLOSE_MARK)
            end
      | _ => Ok (enclose_hex (format_hex_content content))
      end
  | Raise e => Raise e
  | OutOfFuel => OutOfFuel
  end.

Definition validate_integer (n : Z) : result unit :=
  if (n <? spec.SLED_INTEGER_MIN) || (spec.SLED_INTEGER_MAX <? n) then
    let reason :=
      [Str (u "Value cannot be represented by a Sled integer ");
       Str (u "(overflow): "); Int n] in
    Raise (Sled {| error_message := reason;
                   error_category := NUMBER_RANGE;
                   reason := reason;
                   start_line_num := 0 |})
  else Ok tt.

Definition to_integer (n : Z) : result Py.str :=
  match validate_integer n with
  | Ok _ =>
      match class self with
      | SledSerializerMini => Ok (format_d n)
      | _ => Ok (format__d n)
      end
  | Raise e => Raise e
  | OutOfFuel => OutOfFuel
  end.

Definition to_float_custom (x : spec_float) (use_thousands_separator : bool)
  : Py.str :=
  if isnan x then lexeme KeywordLiteral.NAN
  else if isinf x then
    if SFltb x (S754_zero false)
    then lexeme KeywordLiteral.NINF
    else lexeme KeywordLiteral.INF
  else
    let output :=
      if use_thousands_separator then format_float x (u "_")
      else format_float x [] in
    let has_decimal_mark := Py.contains output spec.DEFAULT_DECIMAL_MARK in
    let output :=
      if has_decimal_mark
         && negb (Py.eqb (_decimal_mark self) spec.DEFAULT_DECIMAL_MARK)
      then Py.replace output spec.DEFAULT_DECIMAL_MARK (_decimal_mark self)
      else output in
    let has_exponent := Py.contains output spec.DEFAULT_EXPONENT_PREFIX in
    let output :=
      if has_exponent
         && negb (Py.eqb (_exponent_prefix self)
                    spec.DEFAULT_EXPONENT_PREFIX)
      then Py.replace output spec.DEFAULT_EXPONENT_PREFIX
             (_exponent_prefix self)
      else output in
    if negb (has_decimal_mark || has_exponent)
    then output ++ _decimal_mark self ++ u "0"
    else output.

Definition to_float (x : spec_float) : Py.str :=
  match class self with
  | SledSerializerBasic => to_float_custom x true
  | SledSerializer => to_float_custom x (_use_thousands_separator self)
  | SledSerializerMini => to_float_custom x false
  end.

(** [to_unicode_escape] of one symbol [chr(n)]. *)
Definition unicode_escape_of (n : N) : Py.str :=
  spec.UNICODE_ESCAPE_OPEN_SEQUENCE ++ format__X (Z.of_N n)
  ++ spec.UNICODE_ESCAPE_CLOSE_MARK.

Definition to_unicode_escape (c : Py.str) : result Py.str :=
  match c with
  | [n] => Ok (unicode_escape_of n)
  | _ => Raise (Builtin Py.ValueError)
  end.

(** [m[c]] for a key known to be present. *)
Definition lookup (m : spec.mapping) (c : Py.str) : Py.str :=
  match spec.get m c with Some v => v | None => [] end.

Definition escape_string (s : Py.str) : Py.str :=
  let content :=
    Py.replace s spec.ESCAPE_CHARACTER spec.ESCAPE_CHARACTER_ESCAPE in
  let content :=
    Py.replace content (_quote_mark self) (_quote_mark_escape self) in
  let content :=
    fold_left
      (fun content c =>
         Py.replace content c (lookup spec.SIMPLE_ESCAPE_SEQUENCES c))
      (filter (Py.contains content) spec.C0_SIMPLE_ESCAPE_SET) content in
  let content :=
    fold_left
      (fun content c =>
         match c with
         | [n] => Py.replace content c (unicode_escape_of n)
         | _ => content
         end)
      (filter (Py.contains content) spec.C0_CONTROL_SET) content in
  if _ascii_only self then
    fold_left
      (fun content n =>
         if negb (Py.isascii n)
         then Py.replace content [n] (unicode_escape_of n)
         else content)
      content content
  else content.

Definition _try_to_identity (s : Py.str) : Py.str :=
  if Py.eqb s []
     || _always_quote self
     || mem (firstn 1 s) spec.IDENTITY_DISALLOWED_START_SYMBOLS
     || negb (isdisjoint spec.IDENTITY_DISALLOWED_SYMBOLS s)
     || existsb Py.isspace s
     || (_ascii_only self && negb (forallb Py.isascii s))
  then []
  else s.

Definition quoted (content : Py.str) : Py.str :=
  _quote_mark self ++ content ++ _quote_mark self.

(** The [@concat(...)] of one quoted segment per line, each line but the
    last ending with the escape of the line separator. *)
Definition concat_of_lines (lines_wo_separator : list Py.str)
    (indent : Py.str) : Py.str :=
  let lines :=
    map (fun line => line ++ _line_separator_escape self)
        (removelast lines_wo_separator)
    ++ [last lines_wo_separator []] in
  let last_line_separator := _line_separator self ++ indent in
  let segment_separator := last_line_separator ++ _indent self in
  let segments_str :=
    concat (map (fun line => segment_separator ++ quoted line) lines) in
  spec.KEYWORD_MARK ++ spec.CONCAT_KEYWORD_NAME ++ spec.CONCAT_OPEN_MARK
  ++ segments_str ++ last_line_separator ++ spec.CONCAT_CLOSE_MARK.

Definition to_string (s : Py.str) (indent : Py.str) : Py.str :=
  if Py.eqb s [] then Py.mul (_quote_mark self) 2
  else
    let identity := _try_to_identity s in
    if negb (Py.eqb identity []) then identity
    else
      let content := escape_string s in
      match class self with
      | SledSerializer =>
          if negb (_break_on_line_separator self) then quoted content
          else
            let lines_wo_separator :=
              Py.split content (_line_separator_escape self) in
            if (length lines_wo_separator =? 1)%nat then quoted content
            else concat_of_lines lines_wo_separator indent
      | _ => quoted content
      end.

Definition _try_base_concrete (obj : Entity) (indent : Py.str)
  : option (result Py.str) :=
  match obj with
  | PyNone => Some (Ok (lexeme KeywordLiteral.NIL))
  | PyBool b => Some (Ok (to_boolean b))
  | PyBytes b => Some (to_hex b indent)
  | PyInt n => Some (to_integer n)
  | PyFloat x => Some (Ok (to_float x))
  | PyStr s => Some (Ok (to_string s indent))
  | _ => None
  end.

Definition to_concrete (obj : Entity) (indent : Py.str) : result Py.str :=
  let data := _unwrap obj in
  match _try_base_concrete data indent with
  | Some output => output
  | None => Raise (Builtin Py.TypeError)
  end.

Definition _enclose_map_content (content indent : Py.str) : Py.str :=
  match class self with
  | SledSerializerMini =>
      spec.MAP_OPEN_MARK ++ content ++ spec.MAP_CLOSE_MARK
  | _ =>
      let last_line_separator := _line_separator self ++ indent in
      let line_separator :=
        _line_separator self ++ indent ++ _indent self in
      spec.MAP_OPEN_MARK ++ line_separator ++ content
      ++ last_line_separator ++ spec.MAP_CLOSE_MARK
  end.

(** [Counter(it)] has a count above one. *)
Fixpoint has_repeat (keys : list Entity) : bool :=
  match keys with
  | [] => false
  | k :: keys' => existsb (dict_key_eqb k) keys' || has_repeat keys'
  end.

Definition _validate_distinct_map_keys (it : list Entity) : result unit :=
  if has_repeat it then Raise (Builtin Py.ValueError) else Ok tt.

Definition EMPTY_INDENT : Py.str := [].

(** The methods that call [to_entity], which is passed as an argument. *)
Section Recursive.

Variable to_entity : Entity -> Py.str -> result Py.str.

Definition smap_pair (indent : Py.str) (kv : Entity * Entity)
  : result Py.str :=
  match fst kv with
  | PyStr k =>
      match class self with
      | SledSerializerMini =>
          result_map
            (fun v => to_string k EMPTY_INDENT
                      ++ spec.KEY_VALUE_SEPARATOR ++ v)
            (to_entity (snd kv) EMPTY_INDENT)
      | _ =>
          result_map
            (fun v => to_string k indent ++ u " "
                      ++ spec.KEY_VALUE_SEPARATOR ++ u " " ++ v)
            (to_entity (snd kv) indent)
      end
  | _ => Raise (Builtin Py.TypeError)
  end.

Definition to_smap_content (mapping : list (Entity * Entity))
    (indent : Py.str) : result Py.str :=
  let separator :=
    match class self with
    | SledSerializerMini => spec.DELIMITER_MARK
    | _ => _line_separator self ++ indent
    end in
  result_map (Py.join separator) (for_each (smap_pair indent) mapping).

Definition imap_pair (indent : Py.str) (kv : Entity * Entity)
  : result Py.str :=
  match to_integer (int_value (fst kv)) with
  | Ok k =>
      match class self with
      | SledSerializerMini =>
          result_map (fun v => k ++ spec.KEY_VALUE_SEPARATOR ++ v)
            (to_entity (snd kv) EMPTY_INDENT)
      | _ =>
          result_map
            (fun v => k ++ u " " ++ spec.KEY_VALUE_SEPARATOR ++ u " "
                      ++ v)
            (to_entity (snd kv) indent)
      end
  | Raise e => Raise e
  | OutOfFuel => OutOfFuel
  end.

Definition to_imap_content (mapping : list (Entity * Entity))
    (indent : Py.str) : result Py.str :=
  let separator :=
    match class self with
    | SledSerializerMini => spec.DELIMITER_MARK
    | _ => _line_separator self ++ indent
    end in
  result_map (Py.join separator) (for_each (imap_pair indent) mapping).

Definition to_map_content (mapping : list (Entity * Entity))
    (indent : Py.str) : result Py.str :=
  let data := map (fun kv => (_unwrap (fst kv), _unwrap (snd kv)))
                  mapping in
  if forallb (fun kv => is_str (fst kv)) data then
    match _validate_distinct_map_keys (map fst data) with
    | Ok _ => to_smap_content data indent
    | Raise e => Raise e
    | OutOfFuel => OutOfFuel
    end
  else if forallb (fun kv => is_int (fst kv)) data then
    match _validate_distinct_map_keys (map fst data) with
    | Ok _ => to_imap_content data indent
    | Raise e => Raise e
    | OutOfFuel => OutOfFuel
    end
  else Raise (Builtin Py.TypeError).

Definition to_map (mapping : list (Entity * Entity)) (indent : Py.str)
  : result Py.str :=
  match class self with
  | SledSerializerMini =>
      result_map (fun content => _enclose_map_content content EMPTY_INDENT)
        (to_map_content mapping EMPTY_INDENT)
  | _ =>
      let nested_indent := indent ++ _indent self in
      result_map (fun content => _enclose_map_content content indent)
        (to_map_content mapping nested_indent)
  end.

Definition to_list (it : list Entity) (indent : Py.str) : result Py.str :=
  match class self with
  | SledSerializerMini =>
      result_map
        (fun parts =>
           spec.LIST_OPEN_MARK ++ Py.join spec.DELIMITER_MARK parts
           ++ spec.LIST_CLOSE_MARK)
        (for_each (fun obj => to_entity obj EMPTY_INDENT) it)
  | _ =>
      let nested_indent := indent ++ _indent self in
      let last_line_separator := _line_separator self ++ indent in
      let line_separator := _line_separator self ++ nested_indent in
      result_map
        (fun parts =>
           spec.LIST_OPEN_MARK
           ++ concat (map (fun part => line_separator ++ part) parts)
           ++ last_line_separator ++ spec.LIST_CLOSE_MARK)
        (for_each (fun obj => to_entity obj nested_indent) it)
  end.

(** The body of [to_entity]. *)
Definition to_entity_body (obj : Entity) (indent : Py.str)
  : result Py.str :=
  let data := _unwrap obj in
  match _try_base_concrete data indent with
  | Some output => output
  | None =>
      match data with
      | PyDict mapping => to_map mapping indent
      | PyList it => to_list it indent
      | _ => Raise (Builtin Py.TypeError)
      end
  end.

End Recursive.

(** [to_entity], with [depth] bounding the nesting of the object. *)
Fixpoint to_entity (depth : nat) (obj : Entity) (indent : Py.str)
  : result Py.str :=
  match depth with
  | O => OutOfFuel
  | S depth' => to_entity_body (to_entity depth') obj indent
  end.

(** The nesting of an object, which bounds the recursion of [to_entity]. *)
Fixpoint nesting (obj : Entity) : nat :=
  match obj with
  | PyDict items =>
      S (fold_right (fun kv n => Nat.max (nesting (snd kv)) n) O items)
  | PyList items => S (fold_right (fun o n => Nat.max (nesting o) n) O items)
  | _ => 1%nat
  end.

Definition to_top_level_smap_str (mapping : list (Entity * Entity))
  : result Py.str :=
  let entity := to_entity (nesting (PyDict mapping)) in
  if _use_top_level_braces self then
    result_map (fun content => _enclose_map_content content [])
      (to_smap_content entity mapping (_indent self))
  else to_smap_content entity mapping [].

Definition to_top_level_smap (mapping : list (Entity * Entity))
  : result Py.str :=
  match class self with
  | SledSerializerMini => to_top_level_smap_str mapping
  | _ => result_map (fun s => s ++ NL) (to_top_level_smap_str mapping)
  end.

Definition to_sled (obj : Entity) : result Py.str :=
  let data := _unwrap obj in
  match data with
  | PyDict items =>
      let pairs := map (fun kv => (_unwrap (fst kv), _unwrap (snd kv)))
                       items in
      if forallb (fun kv => is_str (fst kv)) pairs
      then to_top_level_smap items
      else Raise (Builtin Py.TypeError)
  | _ => Raise (Builtin Py.TypeError)
  end.

End Methods.

(** * Documents and objects used below *)

Module Examples.

Definition DQ := spec.DOUBLE_QUOTE_MARK.

(** The document of the docstring of [_parser.py] (three lines). *)
Definition john_doe_text : Py.str :=
  u "name = " ++ DQ ++ u "John Doe" ++ DQ ++ NL
  ++ u "age = 50" ++ NL
  ++ u "children = [Jane; Jimmy]" ++ NL.

(** The object that the docstrings give for it. *)
Definition john_doe : Entity :=
  PyDict [(PyStr (u "name"), PyStr (u "John Doe"));
          (PyStr (u "age"), PyInt 50);
          (PyStr (u "children"),
           PyList [PyStr (u "Jane"); PyStr (u "Jimmy")])].

(** [SledSerializer()], [SledSerializerMini()] and
    [SledSerializerBasic()] with every option left to its default. *)
Definition canonical : Serializer :=
  {| class := SledSerializer;
     _indent := u "  ";
     _use_top_level_braces := false;
     _line_separator := NL;
     _line_separator_escape := [92%N; 110%N];
     _always_quote := false;
     _ascii_only := false;
     _quote_mark := DQ;
     _quote_mark_escape := [92%N; 34%N];
     _hex_upper_case := false;
     _decimal_mark := u ".";
     _exponent_prefix := u "e";
     _break_on_line_separator := true;
     _hex_horizontal_separator := u "_";
     _hex_bytes_per_separator := -2;
     _hex_line_length := 80;
     _use_thousands_separator := true |}.

Definition minified : Serializer :=
  {| class := SledSerializerMini;
     _indent := u "  ";
     _use_top_level_braces := false;
     _line_separator := NL;
     _line_separator_escape := [92%N; 110%N];
     _always_quote := false;
     _ascii_only := false;
     _quote_mark := DQ;
     _quote_mark_escape := [92%N; 34%N];
     _hex_upper_case := false;
     _decimal_mark := u ".";
     _exponent_prefix := u "e";
     _break_on_line_separator := false;
     _hex_horizontal_separator := [];
     _hex_bytes_per_separator := 0;
     _hex_line_length := 0;
     _use_thousands_separator := false |}.

Definition basic : Serializer :=
  {| class := SledSerializerBasic;
     _indent := u "  ";
     _use_top_level_braces := false;
     _line_separator := NL;
     _line_separator_escape := [92%N; 110%N];
     _always_quote := false;
     _ascii_only := false;
     _quote_mark := DQ;
     _quote_mark_escape := [92%N; 34%N];
     _hex_upper_case := false;
     _decimal_mark := u ".";
     _exponent_prefix := u "e";
     _break_on_line_separator := false;
     _hex_horizontal_separator := [];
     _hex_bytes_per_separator := 0;
     _hex_line_length := 0;
     _use_thousands_separator := false |}.

(** The default options with [hex_upper_case=True]. *)
Definition upper_case_options : Options :=
  {| indent := spec.DEFAULT_INDENT;
     use_top_level_braces := DEFAULT_USE_TOP_LEVEL_BRACES;
     line_separator := spec.DEFAULT_LINE_SEPARATOR;
     always_quote := DEFAULT_ALWAYS_QUOTE;
     ascii_only := DEFAULT_ASCII_ONLY;
     break_on_line_separator := DEFAULT_BREAK_ON_LINE_SEPARATOR;
     quote_mark := spec.DEFAULT_QUOTE_MARK;
     hex_upper_case := true;
     hex_horizontal_separator := DEFAULT_HEX_HORIZONTAL_SEPARATOR;
     hex_bytes_per_separator := spec.DEFAULT_HEX_BYTES_PER_SEPARATOR;
     hex_line_length := spec.DEFAULT_HEX_LINE_LENGTH;
     decimal_mark := spec.DEFAULT_DECIMAL_MARK;
     exponent_prefix := spec.DEFAULT_EXPONENT_PREFIX;
     use_thousands_separator := DEFAULT_USE_THOUSANDS_SEPARATOR |}.

(** A serializer built with [hex_upper_case=True], the other options
    unchanged. *)
Definition upper_case (self : Serializer) : Serializer :=
  {| class := class self;
     _indent := _indent self;
     _use_top_level_braces := _use_top_level_braces self;
     _line_separator := _line_separator self;
     _line_separator_escape := _line_separator_escape self;
     _always_quote := _always_quote self;
     _ascii_only := _ascii_only self;
     _quote_mark := _quote_mark self;
     _quote_mark_escape := _quote_mark_escape self;
     _hex_upper_case := true;
     _decimal_mark := _decimal_mark self;
     _exponent_prefix := _exponent_prefix self;
     _break_on_line_separator := _break_on_line_separator self;
     _hex_horizontal_separator := _hex_horizontal_separator self;
     _hex_bytes_per_separator := _hex_bytes_per_separator self;
     _hex_line_length := _hex_line_length self;
     _use_thousands_separator := _use_thousands_separator self |}.

End Examples.

(** * Predicates and states used in the statements *)

Definition two_to_63 : Z := 9223372036854775808.

(** A parser state in which an error can be located: the line start is
    before the index, inside the text, with no line feed in between. *)
Definition well_formed (self : Parser) : bool :=
  (0 <=? _line_start self) && (_line_start self <=? _index self)
  && (_index self <=? Py.len (_text self))
  && negb (existsb (N.eqb 10)
             (Py.slice (_text self) (_line_start self) (_index self))).

(** The parser moved to another index. *)
Definition at_index (self : Parser) (i : Z) : Parser :=
  {| _text := _text self; _index := i;
     _line_num := _line_num self; _line_start := _line_start self |}.

(** An identity token: an allowed first symbol, then allowed symbols. *)
Definition identity_token (s : Py.str) : bool :=
  match s with
  | [] => false
  | first :: others =>
      negb (mem [first] spec.IDENTITY_DISALLOWED_START_SYMBOLS)
      && forallb (fun m => negb (mem [m] spec.IDENTITY_DISALLOWED_SYMBOLS))
           others
  end.

(** Symbolic evaluation of a parser run: the left-hand side of the goal is
    evaluated to its head, stopping at the calls that the lemmas below
    describe. *)
Ltac run_to_raise_invalid :=
  match goal with
  | |- context [parse ?st] =>
      let t := eval lazy head beta delta -[raise_invalid raise_invalid_at]
                 iota zeta in (parse st) in
      change (parse st) with t
  end.

Ltac run_to_multi_line :=
  lazymatch goal with
  | |- exists e : SledError, ?lhs = @?R e /\ @?Q e =>
      let t := eval lazy head beta delta
                 -[_multi_line_consume_optional _parse_entity_body
                   raise_invalid raise_invalid_at]
                 iota zeta in lhs in
      change lhs with t
  end.

Ltac run_to_peek :=
  lazymatch goal with
  | |- exists e : SledError, ?lhs = @?R e /\ @?Q e =>
      let t := eval lazy head beta delta
                 -[_multi_line_consume_optional _peek
                   raise_invalid raise_invalid_at]
                 iota zeta in lhs in
      change lhs with t
  end.

Ltac run_to_error :=
  lazymatch goal with
  | |- exists e : SledError, ?lhs = @?R e /\ @?Q e =>
      let t := eval lazy head beta delta -[raise_invalid raise_invalid_at]
                 iota zeta in lhs in
      change lhs with t
  end.

(** What a method returns, when it returns: every result satisfies [P]. *)
Definition returns {A} (c : M A) (P : A -> Prop) : Prop :=
  forall self a self', c self = Ok (a, self') -> P a.

(** A property of the keys of every map inside an object. *)
Fixpoint every_map (P : list Entity -> Prop) (e : Entity) : Prop :=
  match e with
  | PyDict items =>
      P (map fst items)
      /\ fold_right (fun kv rest => every_map P (snd kv) /\ rest) True items
  | PyList items =>
      fold_right (fun o rest => every_map P o /\ rest) True items
  | _ => True
  end.

Definition is_string_key (k : Entity) : Prop := exists s, k = PyStr s.

Definition is_integer_key (k : Entity) : Prop :=
  exists n, k = PyInt n
            /\ spec.SLED_INTEGER_MIN <= n <= spec.SLED_INTEGER_MAX.

(** The keys of a map: pairwise different, and of one kind. *)
Definition parsed_keys (keys : list Entity) : Prop :=
  NoDup keys
  /\ (Forall is_string_key keys \/ Forall is_integer_key keys).

Definition key_of_kind (ks : Entity * ParseSnapshot) : Prop :=
  is_string_key (fst ks)
  \/ (is_integer_key (fst ks) /\ sled_type (snd ks) = Some INTEGER)
  \/ ((exists x, fst ks = PyFloat x) /\ sled_type (snd ks) = Some FLOAT).

(** The first key fixes the kind of the later keys: strings; or none at
    all, [_parse_integer] never returning. *)
Definition first_key_of_kind
    (r : Entity * ParseSnapshot * key_parser) : Prop :=
  let '(key, _, key_parse_func) := r in
  (is_string_key key
   /\ returns key_parse_func (fun ks => is_string_key (fst ks)))
  \/ ((is_string_key key \/ is_integer_key key)
      /\ returns key_parse_func (fun _ => False)).

Definition keys_of (data : map_data) : list Entity :=
  map (fun kv => fst (fst kv)) data.

Definition one_kind (keys : list Entity) : Prop :=
  Forall is_string_key keys \/ Forall is_integer_key keys.

Definition values_of (data : map_data) : list Entity := map snd data.

Definition string_keyed (v : Entity) : Prop :=
  exists items,
    v = PyDict items /\ Forall (fun kv => is_string_key (fst kv)) items.

(** What [_peek] returns in front of [tail]. *)
Definition head_symbol (tail : Py.str) : Py.str :=
  match tail with [] => [] | c :: _ => [c] end.

(** What may follow an identity: a symbol that an identity cannot hold, or
    the end of the text. *)
Definition ends_identity (tail : Py.str) : bool :=
  mem (head_symbol tail) spec.IDENTITY_DISALLOWED_SYMBOLS.

(** The symbols that a quote holds as they are. *)
Definition quotable (q : N) (s : Py.str) : bool :=
  forallb (fun c => negb (mem [c] (union spec.RESTRICTED_QUOTE_SYMBOLS
                                     (symbols [q])))) s.

(** A string that the serializers escape nowhere: no control symbol, no
    escape character, no double quote mark. *)
Definition needs_no_escape (s : Py.str) : bool :=
  forallb (fun c => (32 <=? c) && negb (c =? 127) && negb (c =? 92)
                    && negb (c =? 34))%N s.

(** The parser on a later line. *)
Definition on_line (self : Parser) (i n : Z) : Parser :=
  {| _text := _text self; _index := i; _line_num := n; _line_start := i |}.

(** A symbol that cannot start a key, and that the parser does not skip. *)
Definition cannot_start_key (c : N) : bool :=
  mem [c] (symbols (u "<>=()[]")).

(** The parser stands in front of [s]: the text from the index on. *)
Definition points_at (self : Parser) (s : Py.str) : Prop :=
  0 <= _index self <= Py.len (_text self)
  /\ skipn (Z.to_nat (_index self)) (_text self) = s.

(** [None], booleans, [bytes], the floats that are not finite, strings that
    need no escape, lists of such objects, and dicts of such objects under
    distinct string keys that need no escape. *)
Fixpoint portable (obj : Entity) : bool :=
  match obj with
  | PyNone | PyBool _ | PyBytes _ => true
  | PyInt _ => false
  | PyFloat x => isnan x || isinf x
  | PyStr s => needs_no_escape s
  | PyDict items =>
      forallb (fun kv =>
                 match fst kv with
                 | PyStr k => needs_no_escape k
                 | _ => false
                 end && portable (snd kv)) items
      && negb (has_repeat (map fst items))
  | PyList items => forallb portable items
  end.

(** The text of a key of a minified map. *)
Definition key_text (k : Entity) : Py.str :=
  match k with
  | PyStr s => to_string Examples.minified s []
  | _ => []
  end.

(** The text that the minified serializer gives for a portable object. *)
Fixpoint minified_text (obj : Entity) : Py.str :=
  match obj with
  | PyNone => lexeme KeywordLiteral.NIL
  | PyBool b =>
      if b then lexeme KeywordLiteral.TRUE else lexeme KeywordLiteral.FALSE
  | PyInt _ => []
  | PyFloat x =>
      if isnan x then lexeme KeywordLiteral.NAN
      else if SFltb x (S754_zero false) then lexeme KeywordLiteral.NINF
      else lexeme KeywordLiteral.INF
  | PyBytes b => enclose_hex (bytes_hex b)
  | PyStr s => to_string Examples.minified s []
  | PyDict items =>
      spec.MAP_OPEN_MARK
      ++ Py.join spec.DELIMITER_MARK
           (map (fun kv =>
                   key_text (fst kv) ++ spec.KEY_VALUE_SEPARATOR
                   ++ minified_text (snd kv)) items)
      ++ spec.MAP_CLOSE_MARK
  | PyList items =>
      spec.LIST_OPEN_MARK
      ++ Py.join spec.DELIMITER_MARK (map minified_text items)
      ++ spec.LIST_CLOSE_MARK
  end.

(** The text of one pair of a minified map. *)
Definition pair_text (kv : Entity * Entity) : Py.str :=
  key_text (fst kv) ++ spec.KEY_VALUE_SEPARATOR ++ minified_text (snd kv).

(** The symbols that start neither a key nor a value: what the parser skips
    between entities, and the marks that close a container. *)
Definition between_entities : frozenset :=
  [spec.DEFAULT_LINE_SEPARATOR; spec.COMMENT_MARK;
   spec.LIST_CLOSE_MARK; spec.MAP_CLOSE_MARK; []; u " "; [9%N];
   spec.DELIMITER_MARK].

Definition starts_entity (text : Py.str) : bool :=
  negb (mem (head_symbol text) between_entities).

(** No control symbol below the space. *)
Definition printable (text : Py.str) : bool :=
  forallb (fun c => (32 <=? c)%N) text.

(** What follows a value that a serializer wrote: a delimiter (the mark or
    a line feed), a closing mark, or the end of the text. *)
Definition value_end (tail : Py.str) : bool :=
  mem (head_symbol tail)
    [spec.DELIMITER_MARK; spec.LIST_CLOSE_MARK; spec.MAP_CLOSE_MARK; [];
     spec.DEFAULT_LINE_SEPARATOR].


(** The items after the first, each behind its delimiter. *)
Definition delimited (parts : list Py.str) : Py.str :=
  concat (map (fun part => spec.DELIMITER_MARK ++ part) parts).





(** The parser moved by [n] symbols in the same text (the line number and
    the line start may have changed). *)
Definition moved (self after : Parser) (n : Z) : Prop :=
  _text after = _text self /\ _index after = _index self + n.










(** * Properties *)

(** The three default serializers are what the constructors build. *)
Lemma default_serializers :
  new_SledSerializer default_options = Ok Examples.canonical
  /\ new_SledSerializerMini default_options = Ok Examples.minified
  /\ new_SledSerializerBasic default_options = Ok Examples.basic.
Proof. repeat split; reflexivity. Qed.

(** The escape tables hold the keys that [escape_string] looks up. *)
Lemma simple_escapes_present :
  forall c, mem c spec.C0_SIMPLE_ESCAPE_SET = true ->
            exists e, spec.get spec.SIMPLE_ESCAPE_SEQUENCES c = Some e.
Proof.
  intros c H. unfold mem, spec.C0_SIMPLE_ESCAPE_SET in H. simpl in H.
  repeat rewrite orb_true_iff in H.
  destruct c as [|a [|b c]]; simpl in H;
    try (destruct H as [H|[H|[H|H]]]; discriminate).
  - repeat rewrite andb_true_r in H.
    destruct H as [H|[H|[H|H]]]; try discriminate;
      apply N.eqb_eq in H; subst a; eexists; reflexivity.
  - repeat rewrite andb_false_r in H.
    destruct H as [H|[H|[H|H]]]; discriminate.
Qed.

(** ** Number literals in value position *)

(** [_parse_entity] compares the symbol with the whole set
    ([c == NUMBER_START_SET]) where [_parse_map_key] tests membership
    ([c in NUMBER_START_SET]): the number branch is never taken. *)
Lemma number_branch_dead :
  forall c, str_eq_frozenset c spec.NUMBER_START_SET = false.
Proof. reflexivity. Qed.

(** C2.  The document of the docstring does not parse: the value [50] is
    rejected with a syntax error on line 2, where the claim expects the map
    with ["age": 50]. *)
Theorem C2_docstring_document_rejected :
  exists e,
    from_sled Examples.john_doe_text = Raise (Sled e)
    /\ error_category e = SYNTAX
    /\ reason e = [Str (u "Invalid entity. No entity starts with ");
                   Repr (u "5"); Str (u ".")]
    /\ start_line_num e = 2.
Proof. eexists. split; [vm_compute; reflexivity | repeat split]. Qed.

(** Without the number pair the same document parses as documented. *)
Lemma docstring_document_without_age :
  from_sled (u "name = " ++ Examples.DQ ++ u "John Doe" ++ Examples.DQ ++ NL
             ++ u "children = [Jane; Jimmy]" ++ NL)
  = Ok (PyDict [(PyStr (u "name"), PyStr (u "John Doe"));
                (PyStr (u "children"),
                 PyList [PyStr (u "Jane"); PyStr (u "Jimmy")])]).
Proof. vm_compute. reflexivity. Qed.

(** C1.  Round trip fails on an integer value: both default serializers
    turn the documented object into the documented text, and parsing that
    text raises a syntax error at the integer. *)
Theorem C1_roundtrip_fails_on_integer :
  forall format_float address_of,
    (exists e,
        to_sled format_float address_of Examples.canonical Examples.john_doe
        = Ok (u "name = " ++ Examples.DQ ++ u "John Doe" ++ Examples.DQ ++ NL
              ++ u "age = 50" ++ NL
              ++ u "children = [" ++ NL ++ u "  Jane" ++ NL
              ++ u "  Jimmy" ++ NL ++ u "]" ++ NL)
        /\ from_sled
             (u "name = " ++ Examples.DQ ++ u "John Doe" ++ Examples.DQ ++ NL
              ++ u "age = 50" ++ NL
              ++ u "children = [" ++ NL ++ u "  Jane" ++ NL
              ++ u "  Jimmy" ++ NL ++ u "]" ++ NL)
           = Raise (Sled e)
        /\ error_category e = SYNTAX)
    /\ (exists e,
           to_sled format_float address_of Examples.minified Examples.john_doe
           = Ok (u "name=" ++ Examples.DQ ++ u "John Doe" ++ Examples.DQ
                 ++ u ";age=50;children=[Jane;Jimmy]")
           /\ from_sled
                (u "name=" ++ Examples.DQ ++ u "John Doe" ++ Examples.DQ
                 ++ u ";age=50;children=[Jane;Jimmy]")
              = Raise (Sled e)
           /\ error_category e = SYNTAX).
Proof.
  intros format_float address_of. split.
  - eexists. split; [vm_compute; reflexivity |].
    split; [vm_compute; reflexivity | reflexivity].
  - eexists. split; [vm_compute; reflexivity |].
    split; [vm_compute; reflexivity | reflexivity].
Qed.

(** ** Duplicate keys *)

(** C3.  On the claim's document the parse stops at the value [1] with a
    syntax error (line 1), before any key is compared; the aggregated
    DuplicateMapKey error, listing both lines, is what the same document
    gives once its values are not number literals. *)
Theorem C3_duplicate_key_document :
  (exists e,
      from_sled (u "a = 1" ++ NL ++ u "a = 2" ++ NL) = Raise (Sled e)
      /\ error_category e = SYNTAX
      /\ reason e = [Str (u "Invalid entity. No entity starts with ");
                     Repr (u "1"); Str (u ".")]
      /\ start_line_num e = 1)
  /\ from_sled (u "a = x" ++ NL ++ u "a = y" ++ NL)
     = Raise (Sled
         {| error_message :=
              [Str (u "Sled map starting on line "); Int 1;
               Str (u " at index "); Int 0;
               Str (u " contains duplicate keys."); Str NL;
               Str (u "a"); Str (u ": ");
               Str (u "line "); Int 1; Str (u " index "); Int 0;
               Str (u ", ");
               Str (u "line "); Int 2; Str (u " index "); Int 0];
            error_category := DUPLICATE_MAP_KEY;
            reason :=
              [Str (u "Sled map starting on line "); Int 1;
               Str (u " at index "); Int 0;
               Str (u " contains duplicate keys.")];
            start_line_num := 1 |}).
Proof.
  split.
  - eexists. split; [vm_compute; reflexivity | repeat split].
  - vm_compute. reflexivity.
Qed.

(** ** Integer bounds *)

(** C5.  As values, the greatest integer and its successor are both
    rejected with a syntax error (the claim expects success, and
    NumberRangeOverflow); as keys of a nested map, where the number parser
    is reached, the bound is enforced as claimed; and every serializer
    refuses the successor with NumberRangeOverflow. *)
Theorem C5_integer_bounds :
  (exists e,
      from_sled (u "x = 9223372036854775807") = Raise (Sled e)
      /\ error_category e = SYNTAX)
  /\ (exists e,
         from_sled (u "x = 9223372036854775808") = Raise (Sled e)
         /\ error_category e = SYNTAX)
  /\ from_sled (u "x = {9223372036854775807 = y}")
     = Ok (PyDict [(PyStr (u "x"),
                    PyDict [(PyInt 9223372036854775807, PyStr (u "y"))])])
  /\ (exists e,
         from_sled (u "x = {9223372036854775808 = y}") = Raise (Sled e)
         /\ error_category e = NUMBER_RANGE)
  /\ (forall format_float address_of self depth indent,
         exists e,
           to_entity format_float address_of self (S depth)
             (PyInt two_to_63) indent = Raise (Sled e)
           /\ error_category e = NUMBER_RANGE)
  /\ (forall format_float address_of self,
         exists e,
           to_sled format_float address_of self
             (PyDict [(PyStr (u "x"), PyInt two_to_63)]) = Raise (Sled e)
           /\ error_category e = NUMBER_RANGE).
Proof.
  split; [eexists; split; [vm_compute; reflexivity | reflexivity] |].
  split; [eexists; split; [vm_compute; reflexivity | reflexivity] |].
  split; [vm_compute; reflexivity |].
  split; [eexists; split; [vm_compute; reflexivity | reflexivity] |].
  split.
  - intros. eexists. split; [reflexivity | reflexivity].
  - intros format_float address_of
           [cls i braces ls lse aq ao qm qme uc dm ep bl hs hb hl ut].
    destruct cls, braces; eexists; (split; [reflexivity | reflexivity]).
Qed.

(** ** Integer keys *)

(** [_parse_integer] fails on its first statement in every state. *)
Lemma _parse_integer_raises :
  forall self, _parse_integer self = Raise (Builtin Py.AttributeError).
Proof. reflexivity. Qed.

(** C6.  The claim's document does not parse: the second key of the
    integer-keyed map is handed to [_parse_integer], which raises
    [AttributeError].  A map with a single integer key parses. *)
Theorem C6_integer_keyed_map :
  from_sled (u "m = {1 = @true; 2 = @false}")
  = Raise (Builtin Py.AttributeError)
  /\ from_sled (u "m = {1 = @true}")
     = Ok (PyDict [(PyStr (u "m"), PyDict [(PyInt 1, PyBool true)])]).
Proof. split; vm_compute; reflexivity. Qed.

(** ** Exceptions other than [SledError] *)

(** C7.  Four documents on which [from_sled] raises a built-in exception
    instead of a [SledError]: a second integer key ([AttributeError]); an
    empty Unicode escape ([ValueError] from [int]); an unclosed [@hex(] at
    the end of the input ([IndexError] from [_peek]); a sign without digits
    as a key ([ValueError] from the construction of the error itself). *)
Theorem C7_other_exceptions_escape :
  from_sled (u "m = {1 = a; 2 = b}") = Raise (Builtin Py.AttributeError)
  /\ from_sled (u "x = " ++ Examples.DQ ++ [92%N] ++ u "u{}" ++ Examples.DQ)
     = Raise (Builtin Py.ValueError)
  /\ from_sled (u "x = @hex(") = Raise (Builtin Py.IndexError)
  /\ from_sled (u "x = {+ = a}") = Raise (Builtin Py.ValueError).
Proof. repeat split; vm_compute; reflexivity. Qed.

(** ** Keyword floats *)

(** C8.  [@nan], [@inf] and [@ninf] in value position parse to NaN and the
    two infinities, and every serializer (any class, any attributes, any
    indent) emits exactly these lexemes for them. *)
Theorem C8_keyword_floats :
  from_sled (u "x = @nan") = Ok (PyDict [(PyStr (u "x"), PyFloat S754_nan)])
  /\ from_sled (u "x = @inf")
     = Ok (PyDict [(PyStr (u "x"), PyFloat (S754_infinity false))])
  /\ from_sled (u "x = @ninf")
     = Ok (PyDict [(PyStr (u "x"), PyFloat (S754_infinity true))])
  /\ (forall format_float address_of self depth indent,
         to_entity format_float address_of self (S depth)
           (PyFloat S754_nan) indent = Ok (u "@nan")
         /\ to_entity format_float address_of self (S depth)
              (PyFloat (S754_infinity false)) indent = Ok (u "@inf")
         /\ to_entity format_float address_of self (S depth)
              (PyFloat (S754_infinity true)) indent = Ok (u "@ninf")).
Proof.
  split; [vm_compute; reflexivity |].
  split; [vm_compute; reflexivity |].
  split; [vm_compute; reflexivity |].
  intros. simpl. unfold to_entity_body, _try_base_concrete, to_float. simpl.
  destruct (class self); repeat split; reflexivity.
Qed.

(** ** Hexadecimal case *)

(** The serializers built with [hex_upper_case=True]. *)
Lemma upper_case_serializers :
  new_SledSerializer Examples.upper_case_options
  = Ok (Examples.upper_case Examples.canonical)
  /\ new_SledSerializerMini Examples.upper_case_options
     = Ok (Examples.upper_case Examples.minified)
  /\ new_SledSerializerBasic Examples.upper_case_options
     = Ok (Examples.upper_case Examples.basic).
Proof. repeat split; reflexivity. Qed.

(** C9.  With [hex_upper_case=True] no serializer emits an upper-case
    digest, whatever the bytes: [_to_hex_content] returns the method
    [content.upper] instead of calling it, so [to_hex] raises [TypeError]
    (the canonical serializer takes [len] of the method), or [ValueError]
    (from [bytes.hex] with a separator), or emits the [repr] of the
    method around the lower-case digest. *)
Theorem C9_upper_case_digest_missing address_of self b indent :
  _hex_upper_case self = true ->
  to_hex address_of self b indent = Raise (Builtin Py.TypeError)
  \/ to_hex address_of self b indent = Raise (Builtin Py.ValueError)
  \/ exists content,
       to_hex address_of self b indent
       = Ok (enclose_hex
               (u "<built-in method upper of str object at "
                ++ address_of content ++ u ">")).
Proof.
  intros Hupper. unfold to_hex, _to_hex_content. rewrite Hupper.
  destruct (class self).
  - right. right. eexists. reflexivity.
  - destruct (bytes_hex_sep b _ _) as [content |];
      [| right; left; reflexivity].
    destruct (_hex_line_length self <=? 0).
    + right. right. eexists. reflexivity.
    + left. reflexivity.
  - right. right. eexists. reflexivity.
Qed.

Lemma C9_upper_case_witness :
  _hex_upper_case (Examples.upper_case Examples.canonical) = true
  /\ (to_hex (fun _ => u "0x7f51937e1b70")
        (Examples.upper_case Examples.canonical) [xde; xad] []
      = Raise (Builtin Py.TypeError)
      \/ to_hex (fun _ => u "0x7f51937e1b70")
           (Examples.upper_case Examples.canonical) [xde; xad] []
         = Raise (Builtin Py.ValueError)
      \/ exists content,
           to_hex (fun _ => u "0x7f51937e1b70")
             (Examples.upper_case Examples.canonical) [xde; xad] []
           = Ok (enclose_hex
                   (u "<built-in method upper of str object at "
                    ++ (fun _ : Py.str => u "0x7f51937e1b70") content
                    ++ u ">"))).
Proof.
  split; [reflexivity |].
  apply (C9_upper_case_digest_missing (fun _ => u "0x7f51937e1b70")
           (Examples.upper_case Examples.canonical) [xde; xad] []).
  reflexivity.
Defined.

(** On two bytes: the default [SledSerializer] raises [TypeError];
    [SledSerializerMini] and [SledSerializerBasic] emit the [repr] of the
    method. *)
Lemma upper_case_of_two_bytes :
  forall address_of indent,
    to_hex address_of (Examples.upper_case Examples.canonical)
      [xde; xad] indent
    = Raise (Builtin Py.TypeError)
    /\ to_hex address_of (Examples.upper_case Examples.minified)
         [xde; xad] indent
       = Ok (u "@hex("
             ++ (u "<built-in method upper of str object at "
                 ++ address_of (u "dead") ++ u ">")
             ++ u ")")
    /\ to_hex address_of (Examples.upper_case Examples.basic)
         [xde; xad] indent
       = Ok (u "@hex("
             ++ (u "<built-in method upper of str object at "
                 ++ address_of (u "dead") ++ u ">")
             ++ u ")").
Proof. intros. repeat split; reflexivity. Qed.

(** The digest of [bytes.hex] is made of digits and lower-case letters. *)
Lemma bytes_hex_lower_case :
  forall b,
    forallb (fun c => mem [c] (symbols (u "0123456789abcdef")))
      (bytes_hex b) = true.
Proof.
  induction b as [|x b IH]; [reflexivity |].
  unfold bytes_hex in *. cbn [flat_map]. rewrite forallb_app, IH.
  rewrite andb_true_r. destruct x; reflexivity.
Qed.

(** With the option off, [SledSerializerMini] and [SledSerializerBasic]
    emit the lower-case digest of every byte string. *)
Lemma lower_case_digest_plain address_of self b indent :
  _hex_upper_case self = false ->
  class self <> SledSerializer ->
  to_hex address_of self b indent = Ok (enclose_hex (bytes_hex b)).
Proof.
  intros Hupper Hclass. unfold to_hex, _to_hex_content. rewrite Hupper.
  destruct (class self); [reflexivity | contradiction | reflexivity].
Qed.

(** With the option off, the digest is in lower case. *)
Lemma lower_case_digest :
  forall address_of indent,
    to_hex address_of Examples.minified [xde; xad; xbe; xef] indent
    = Ok (u "@hex(deadbeef)")
    /\ to_hex address_of Examples.canonical [xde; xad; xbe; xef] indent
       = Ok (u "@hex(dead_beef)").
Proof. intros. split; reflexivity. Qed.

(** * Errors located in a text *)

(** ** Facts about slices and searches *)

Lemma bound_nonneg (s : Py.str) i : 0 <= i -> Py.bound s i = i.
Proof.
  intros H. unfold Py.bound.
  assert (H0 : (i <? 0) = false) by (apply Z.ltb_ge; lia).
  now rewrite H0.
Qed.

Lemma slice_nonneg (s : Py.str) a b :
  0 <= a -> 0 <= b ->
  Py.slice s a b = firstn (Z.to_nat (b - a)) (skipn (Z.to_nat a) s).
Proof.
  intros Ha Hb. unfold Py.slice. now rewrite !bound_nonneg by lia.
Qed.

Lemma slice_empty (s : Py.str) a : Py.slice s a a = [].
Proof. unfold Py.slice. rewrite Z.sub_diag. reflexivity. Qed.

Lemma startswith_single (s : Py.str) x :
  Py.startswith s [x] = match s with y :: _ => N.eqb x y | [] => false end.
Proof.
  destruct s as [|y s]; simpl; [reflexivity |].
  unfold Py.chr_eqb. destruct s; apply andb_true_r.
Qed.

(** The search for one symbol returns its first position. *)
Lemma find_from_single x (s : Py.str) :
  forall i,
    (Py.find_from [x] s i = -1 /\ ~ In x s)
    \/ (exists k : nat,
           Py.find_from [x] s i = i + Z.of_nat k
           /\ nth_error s k = Some x
           /\ ~ In x (firstn k s)).
Proof.
  induction s as [|y s IH]; intros i.
  - left. split; [reflexivity | intros []].
  - cbn [Py.find_from]. rewrite startswith_single.
    destruct (N.eqb_spec x y) as [-> | Hne].
    + right. exists 0%nat. repeat split; [lia | intros []].
    + destruct (IH (i + 1)) as [[Hr Hn] | [k [Hr [Hk Hn]]]].
      * left. split; [exact Hr |]. intros [H | H]; [congruence | tauto].
      * right. exists (S k). repeat split; [lia | exact Hk |].
        intros [H | H]; [congruence | tauto].
Qed.

Lemma find_from_absent x (s : Py.str) i :
  ~ In x s -> Py.find_from [x] s i = -1.
Proof.
  revert i. induction s as [|y s IH]; intros i H; [reflexivity |].
  cbn [Py.find_from]. rewrite startswith_single.
  destruct (N.eqb_spec x y) as [-> | Hne]; [exfalso; apply H; now left |].
  apply IH. intros Hin. apply H. now right.
Qed.

Lemma not_in_firstn {A} (x : A) n l : ~ In x l -> ~ In x (firstn n l).
Proof.
  revert n. induction l as [|a l IH]; intros [|n] H; simpl; try tauto.
  intros [Ha | Hin]; [apply H; now left |].
  apply (IH n); [intros Hl; apply H; now right | exact Hin].
Qed.

Lemma not_in_skipn {A} (x : A) n l : ~ In x l -> ~ In x (skipn n l).
Proof.
  revert n. induction l as [|a l IH]; intros n H.
  - destruct n; exact H.
  - destruct n as [|m]; [exact H |].
    simpl. apply IH. intros Hl. apply H. now right.
Qed.

Lemma not_in_slice x (s : Py.str) a b : ~ In x s -> ~ In x (Py.slice s a b).
Proof. intros H. unfold Py.slice. now apply not_in_firstn, not_in_skipn. Qed.

Lemma find_empty_range (s : Py.str) x a : Py.find s [x] a a = -1.
Proof. unfold Py.find. now rewrite slice_empty. Qed.

Lemma existsb_eqb_In x (l : Py.str) :
  existsb (N.eqb x) l = false -> ~ In x l.
Proof.
  intros H Hin. assert (existsb (N.eqb x) l = true); [| congruence].
  apply existsb_exists. exists x. split; [exact Hin | apply N.eqb_refl].
Qed.

Lemma firstn_length_le {A} n (l : list A) : (length (firstn n l) <= n)%nat.
Proof. rewrite length_firstn. lia. Qed.

Lemma nth_error_in_firstn {A} (x : A) (l : list A) :
  forall k n, nth_error l k = Some x -> (k < n)%nat -> In x (firstn n l).
Proof.
  induction l as [|a l IH]; intros k n Hk Hlt.
  - destruct k; discriminate.
  - destruct n as [|n]; [lia |]. destruct k as [|k]; simpl in *.
    + left. congruence.
    + right. apply (IH k); [exact Hk | lia].
Qed.

(** The end of the line that starts at [ls]: at or after the index, inside
    the text, with no line feed before it. *)
Lemma line_end_spec self :
  well_formed self = true ->
  exists line_end,
    _find_line_end (_line_start self) self = Ok (line_end, self)
    /\ _index self <= line_end <= Py.len (_text self)
    /\ ~ In 10%N (Py.slice (_text self) (_line_start self) line_end).
Proof.
  unfold well_formed. rewrite !andb_true_iff, !Z.leb_le, negb_true_iff.
  intros [[[H0 H1] H2] Hnl]. apply existsb_eqb_In in Hnl.
  set (text := _text self) in *. set (ls := _line_start self) in *.
  set (idx := _index self) in *.
  unfold _find_line_end, get. fold text. unfold Py.find2, Py.find.
  rewrite (bound_nonneg text ls) by lia.
  rewrite (slice_nonneg text ls (Py.len text)) by (unfold Py.len; lia).
  rewrite (slice_nonneg text ls idx) in Hnl by lia.
  assert (Hall : firstn (Z.to_nat (Py.len text - ls))
                   (skipn (Z.to_nat ls) text) = skipn (Z.to_nat ls) text).
  { apply firstn_all2. rewrite length_skipn. unfold Py.len. lia. }
  rewrite Hall.
  destruct (find_from_single 10%N (skipn (Z.to_nat ls) text) ls)
    as [[Hr Hn] | [k [Hr [Hk Hn]]]].
  - cbv [spec.DEFAULT_LINE_SEPARATOR spec.LF_LINE_SEPARATOR].
    rewrite Hr. simpl. eexists. split; [reflexivity |].
    split; [lia |].
    rewrite (slice_nonneg text ls (Py.len text)) by (unfold Py.len; lia).
    rewrite Hall. exact Hn.
  - cbv [spec.DEFAULT_LINE_SEPARATOR spec.LF_LINE_SEPARATOR].
    rewrite Hr.
    assert (Hneq : (ls + Z.of_nat k =? -1) = false) by (apply Z.eqb_neq; lia).
    rewrite Hneq. eexists. split; [reflexivity |].
    assert (Hklt : (k < length (skipn (Z.to_nat ls) text))%nat).
    { apply nth_error_Some. congruence. }
    rewrite length_skipn in Hklt.
    assert (Hidx : idx <= ls + Z.of_nat k).
    { destruct (Z.le_gt_cases idx (ls + Z.of_nat k)) as [Hle | Hgt];
        [exact Hle |].
      exfalso. apply Hnl.
      apply (nth_error_in_firstn _ _ k); [exact Hk | lia]. }
    split; [unfold Py.len; lia |].
    rewrite slice_nonneg by lia.
    replace (Z.to_nat (ls + Z.of_nat k - ls)) with k by lia.
    exact Hn.
Qed.

(** In a well-formed state, the error built at the index with the default
    arguments is a [SledError] with the given reason and category, on the
    current line. *)
Lemma _make_invalid_sled_error_default why category self :
  well_formed self = true ->
  exists e,
    _make_invalid_sled_error why category None None None None self
    = Ok (e, self)
    /\ error_category e = category
    /\ reason e = why
    /\ start_line_num e = _line_num self.
Proof.
  intros Hwf. destruct (line_end_spec self Hwf) as [line_end [Hle [Hb Hn]]].
  revert Hwf. unfold well_formed.
  rewrite !andb_true_iff, !Z.leb_le, negb_true_iff.
  intros [[[H0 H1] H2] _].
  unfold _make_invalid_sled_error, default.
  set (text := _text self) in *. set (ls := _line_start self) in *.
  set (idx := _index self) in *.
  assert (Ha : (ls <=? idx) && (idx <? idx + 1)
               && (idx + 1 <=? Py.len text + 1) = true).
  { rewrite !andb_true_iff, !Z.leb_le, Z.ltb_lt. lia. }
  rewrite Ha. cbn [negb].
  replace (idx + 1 - 1) with idx by lia.
  cbv [spec.DEFAULT_LINE_SEPARATOR spec.LF_LINE_SEPARATOR] in *.
  rewrite find_empty_range. cbn [Z.eqb negb].
  rewrite Hle.
  unfold SledErrors.make_short_parse_error.
  set (line := Py.slice text ls line_end) in *.
  assert (Hlen : Py.len line = line_end - ls).
  { unfold line. rewrite slice_nonneg by lia.
    unfold Py.len. rewrite length_firstn, length_skipn.
    unfold Py.len in Hb. lia. }
  assert (Hv : (0 <=? idx - ls) && (idx - ls <? idx + 1 - ls)
               && (idx + 1 - ls <=? Py.len line + 1) = true).
  { rewrite !andb_true_iff, !Z.leb_le, Z.ltb_lt. lia. }
  rewrite Hv. cbn [negb].
  assert (Hc : Py.contains (Py.slice_to line (-1))
                 spec.DEFAULT_LINE_SEPARATOR = false).
  { unfold Py.contains, Py.slice_to.
    cbv [spec.DEFAULT_LINE_SEPARATOR spec.LF_LINE_SEPARATOR].
    rewrite find_from_absent by (apply not_in_slice; exact Hn).
    reflexivity. }
  rewrite Hc.
  match goal with
  | |- context [let '(_, _) := ?p in _] => destruct p
  end.
  eexists. split; [reflexivity |]. repeat split.
Qed.

(** [raise self._make_invalid_sled_error(reason)] in a well-formed state
    raises a [SledError] of category Syntax on the current line. *)
Lemma raise_invalid_syntax {A} why self :
  well_formed self = true ->
  exists e,
    @raise_invalid A why self = Raise (Sled e)
    /\ error_category e = SYNTAX
    /\ reason e = why
    /\ start_line_num e = _line_num self.
Proof.
  intros Hwf.
  destruct (_make_invalid_sled_error_default why SYNTAX self Hwf)
    as [e [He Hp]].
  exists e. split; [| exact Hp].
  unfold raise_invalid, bind. rewrite He. reflexivity.
Qed.

(** Membership of one symbol in a set given by its elements. *)
Lemma mem_single_In c (S : frozenset) :
  mem [c] S = true -> In [c] S.
Proof.
  unfold mem. intros H. apply existsb_exists in H.
  destruct H as [x [Hin Heq]].
  destruct x as [|y [|z x]]; simpl in Heq; try discriminate.
  - rewrite andb_true_r in Heq. apply N.eqb_eq in Heq. now subst.
  - rewrite andb_false_r in Heq. discriminate.
Qed.

(** A later key of a string-keyed map that starts like a number is refused
    by [_parse_string] with a syntax error. *)
Lemma _parse_string_refuses_number self c :
  well_formed self = true ->
  Py.getitem (_text self) (_index self) = Some c ->
  mem [c] spec.NUMBER_START_SET = true ->
  exists e,
    _parse_string self = Raise (Sled e)
    /\ error_category e = SYNTAX
    /\ reason e = [Str (u "Invalid string. No string starts with ");
                   Repr [c]; Str (u ".")]
    /\ start_line_num e = _line_num self.
Proof.
  intros Hwf Hget Hmem.
  unfold _parse_string, bind, get, _peek. rewrite Hget.
  apply mem_single_In in Hmem. simpl in Hmem.
  assert (Hc : Py.eqb [c] spec.KEYWORD_MARK = false
               /\ mem [c] spec.QUOTE_MARK_SET = false
               /\ mem [c] spec.IDENTITY_DISALLOWED_START_SYMBOLS = true).
  { repeat (destruct Hmem as [Hmem | Hmem];
            [injection Hmem as <-; repeat split; vm_compute; reflexivity |]).
    destruct Hmem. }
  destruct Hc as [H1 [H2 H3]]. rewrite H1, H2, H3. cbn [negb].
  apply raise_invalid_syntax. exact Hwf.
Qed.

(** A value that starts like a number is refused by [_parse_entity]: the
    comparison [c == NUMBER_START_SET] fails, and the symbol cannot start
    an identity. *)
Lemma _parse_entity_refuses_number ent self c :
  well_formed self = true ->
  Py.getitem (_text self) (_index self) = Some c ->
  mem [c] spec.NUMBER_START_SET = true ->
  exists e,
    _parse_entity_body ent self = Raise (Sled e)
    /\ error_category e = SYNTAX
    /\ reason e = [Str (u "Invalid entity. No entity starts with ");
                   Repr [c]; Str (u ".")]
    /\ start_line_num e = _line_num self.
Proof.
  intros Hwf Hget Hmem.
  unfold _parse_entity_body, bind, _peek. rewrite Hget.
  apply mem_single_In in Hmem. simpl in Hmem.
  assert (Hc : Py.eqb [c] spec.MAP_OPEN_MARK = false
               /\ Py.eqb [c] spec.LIST_OPEN_MARK = false
               /\ Py.eqb [c] spec.KEYWORD_MARK = false
               /\ mem [c] spec.QUOTE_MARK_SET = false
               /\ mem [c] spec.IDENTITY_DISALLOWED_START_SYMBOLS = true).
  { repeat (destruct Hmem as [Hmem | Hmem];
            [injection Hmem as <-; repeat split; vm_compute; reflexivity |]).
    destruct Hmem. }
  destruct Hc as [H1 [H2 [H3 [H4 H5]]]].
  rewrite H1, H2, H3, H4, H5. unfold str_eq_frozenset. cbn [negb].
  apply raise_invalid_syntax. exact Hwf.
Qed.

(** ** Line separators in a text that starts without carriage return *)

Lemma replace_go_prefix old new (p rest : Py.str) first :
  hd_error old = Some first -> ~ In first p ->
  Py.replace_go old new 0 (p ++ rest) = p ++ Py.replace_go old new 0 rest.
Proof.
  intros Hold. induction p as [|a p IH]; intros Hp; [reflexivity |].
  cbn [app Py.replace_go].
  destruct old as [|o old]; [discriminate |]. injection Hold as ->.
  cbn [Py.startswith]. unfold Py.chr_eqb.
  destruct (N.eqb_spec first a) as [-> | Hne]; [exfalso; apply Hp; now left |].
  cbn [andb]. f_equal. apply IH. intros Hin. apply Hp. now right.
Qed.

Lemma standardize_prefix (p rest : Py.str) :
  existsb (N.eqb 13) p = false ->
  standardize_line_separator (p ++ rest)
  = p ++ standardize_line_separator rest.
Proof.
  intros H. apply existsb_eqb_In in H. unfold standardize_line_separator, Py.replace.
  rewrite (replace_go_prefix _ _ p rest 13%N) by (try reflexivity; exact H).
  rewrite (replace_go_prefix _ _ p _ 13%N) by (try reflexivity; exact H).
  reflexivity.
Qed.

(** ** States over a text with a known beginning *)

Lemma well_formed_prefix (p rest : Py.str) i n ls :
  0 <= ls <= i -> i <= Py.len p ->
  existsb (N.eqb 10) (Py.slice p ls i) = false ->
  well_formed {| _text := p ++ rest; _index := i; _line_num := n;
                 _line_start := ls |} = true.
Proof.
  intros Hls Hi Hnl. unfold well_formed. cbn [_text _index _line_start].
  rewrite !andb_true_iff, !Z.leb_le, negb_true_iff.
  unfold Py.len in *. rewrite length_app.
  repeat split; try lia.
  rewrite slice_nonneg in * by lia.
  rewrite skipn_app, firstn_app.
  replace (Z.to_nat ls - length p)%nat with 0%nat by lia.
  replace (Z.to_nat (i - ls) - length (skipn (Z.to_nat ls) p))%nat
    with 0%nat by (rewrite length_skipn; lia).
  cbn [skipn firstn]. rewrite app_nil_r. exact Hnl.
Qed.

(** ** Numbers in value position *)

(** Whatever follows, a document whose first value starts like a number is
    refused with a syntax error at that symbol. *)
Lemma number_value_is_refused c rest :
  mem [c] spec.NUMBER_START_SET = true ->
  exists e,
    from_sled (u "x = " ++ c :: rest) = Raise (Sled e)
    /\ error_category e = SYNTAX
    /\ reason e = [Str (u "Invalid entity. No entity starts with ");
                   Repr [c]; Str (u ".")]
    /\ start_line_num e = 1.
Proof.
  intros Hmem. apply mem_single_In in Hmem. simpl in Hmem.
  unfold from_sled, Parser__init__.
  change (u "x = " ++ c :: rest) with ((u "x = " ++ [c]) ++ rest).
  assert (Hcr : existsb (N.eqb 13) (u "x = " ++ [c]) = false).
  { repeat (destruct Hmem as [Hmem | Hmem];
            [injection Hmem as <-; reflexivity |]).
    destruct Hmem. }
  rewrite standardize_prefix by exact Hcr. clear Hcr.
  generalize (standardize_line_separator rest). clear rest. intros rest.
  repeat (destruct Hmem as [Hmem | Hmem];
          [injection Hmem as <-;
           run_to_raise_invalid;
           lazymatch goal with
           | |- context [@raise_invalid ?A ?why ?st] =>
               destruct (@raise_invalid_syntax A why st) as [e [He Hp]];
               [ lazymatch goal with
                 | |- context [?x :: rest] =>
                     apply (well_formed_prefix (u "x = " ++ [x]) rest
                              4 1 0);
                     [lia | vm_compute; discriminate | reflexivity]
                 end
               | rewrite He; exists e; split; [reflexivity | exact Hp] ]
           end |]).
  destruct Hmem.
Qed.

(** ** Keys of mixed kinds *)

(** C4.  A string key followed by a key that starts like a number: every
    text that starts with [{a = x; ] followed by a symbol that starts a
    number (a digit, a sign, or a decimal mark) makes the parse fail,
    whatever comes after that symbol, with an error of category Syntax,
    raised by [_parse_string] with the reason
    "Invalid string. No string starts with ...", on line 1; the category is
    not MapKeyTypeMismatch. *)
Theorem C4_later_number_key_is_syntax_error c rest :
  mem [c] spec.NUMBER_START_SET = true ->
  exists e,
    from_sled (u "{a = x; " ++ c :: rest) = Raise (Sled e)
    /\ error_category e = SYNTAX
    /\ reason e = [Str (u "Invalid string. No string starts with ");
                   Repr [c]; Str (u ".")]
    /\ start_line_num e = 1.
Proof.
  intros Hmem. apply mem_single_In in Hmem. simpl in Hmem.
  unfold from_sled, Parser__init__.
  change (u "{a = x; " ++ c :: rest) with ((u "{a = x; " ++ [c]) ++ rest).
  assert (Hcr : existsb (N.eqb 13) (u "{a = x; " ++ [c]) = false).
  { repeat (destruct Hmem as [Hmem | Hmem];
            [injection Hmem as <-; reflexivity |]).
    destruct Hmem. }
  rewrite standardize_prefix by exact Hcr. clear Hcr.
  generalize (standardize_line_separator rest). clear rest. intros rest.
  repeat (destruct Hmem as [Hmem | Hmem];
          [injection Hmem as <-;
           run_to_raise_invalid;
           match goal with
           | |- context [@raise_invalid ?A ?why ?st] =>
               destruct (@raise_invalid_syntax A why st) as [e [He Hp]];
               [ match goal with
                 | |- well_formed {| _text := ?t |} = true =>
                     idtac
                 | |- _ => idtac
                 end;
                 match goal with
                 | |- context [?x :: rest] =>
                     apply (well_formed_prefix (u "{a = x; " ++ [x]) rest
                              8 1 0);
                     [lia | vm_compute; discriminate | reflexivity]
                 end
               | rewrite He; exists e; split; [reflexivity | exact Hp] ]
           end |]).
  destruct Hmem.
Qed.

Lemma C4_later_number_key_witness :
  mem [50%N] spec.NUMBER_START_SET = true
  /\ exists e,
       from_sled (u "{a = x; 2 = 3}") = Raise (Sled e)
       /\ error_category e = SYNTAX
       /\ reason e = [Str (u "Invalid string. No string starts with ");
                      Repr [50%N]; Str (u ".")]
       /\ start_line_num e = 1.
Proof.
  split; [reflexivity |].
  apply (C4_later_number_key_is_syntax_error 50%N (u " = 3}")).
  reflexivity.
Defined.

(** The document [{a = 1; 2 = 3}] fails with category Syntax, not
    MapKeyTypeMismatch; so does [{a = x; 2 = 3}], whose first value is not
    a number. *)
Lemma C4_mixed_keys_category_is_syntax :
  (exists e,
      from_sled (u "{a = 1; 2 = 3}") = Raise (Sled e)
      /\ error_category e = SYNTAX)
  /\ (exists e,
        from_sled (u "{a = x; 2 = 3}") = Raise (Sled e)
        /\ error_category e = SYNTAX)
  /\ ~ (exists e,
          from_sled (u "{a = 1; 2 = 3}") = Raise (Sled e)
          /\ error_category e = MAP_KEY_TYPE)
  /\ ~ (exists e,
          from_sled (u "{a = x; 2 = 3}") = Raise (Sled e)
          /\ error_category e = MAP_KEY_TYPE).
Proof.
  repeat split.
  - eexists. split; [vm_compute; reflexivity | reflexivity].
  - eexists. split; [vm_compute; reflexivity | reflexivity].
  - intros [e [H Hc]]. vm_compute in H. injection H as <-. discriminate Hc.
  - intros [e [H Hc]]. vm_compute in H. injection H as <-. discriminate Hc.
Qed.

(** The category MapKeyTypeMismatch is raised for the first key of a nested
    map that is neither a string nor an integer. *)
Lemma first_key_neither_string_nor_integer :
  exists e,
    from_sled (u "m = {1.5 = @true}") = Raise (Sled e)
    /\ error_category e = MAP_KEY_TYPE
    /\ start_line_num e = 1.
Proof. eexists. split; [vm_compute; reflexivity | split; reflexivity]. Qed.

(** ** Scanning loops *)

Lemma skipn_cons_nth {A} (l : list A) :
  forall n x r, skipn n l = x :: r ->
                nth_error l n = Some x /\ skipn (S n) l = r.
Proof.
  induction l as [|a l IH]; intros n x r H.
  - destruct n; discriminate.
  - destruct n as [|n]; simpl in *.
    + injection H as -> ->. split; reflexivity.
    + apply IH. exact H.
Qed.

Lemma getitem_skipn (s : Py.str) i x r :
  0 <= i -> skipn (Z.to_nat i) s = x :: r -> Py.getitem s i = Some x.
Proof.
  intros Hi H. unfold Py.getitem.
  assert (H0 : (i <? 0) = false) by (apply Z.ltb_ge; lia).
  rewrite H0, H0. apply skipn_cons_nth in H. tauto.
Qed.

Lemma _peek_symbol self x r :
  0 <= _index self ->
  skipn (Z.to_nat (_index self)) (_text self) = x :: r ->
  _peek self = Ok ([x], self).
Proof.
  intros Hi H. unfold _peek. now rewrite (getitem_skipn _ _ x r).
Qed.

Lemma _next_symbol self x r :
  0 <= _index self ->
  skipn (Z.to_nat (_index self + 1)) (_text self) = x :: r ->
  _next self = Ok ([x], at_index self (_index self + 1)).
Proof.
  intros Hi H. unfold _next, _advance, bind, get, set_index.
  fold (at_index self (_index self + 1)).
  apply (_peek_symbol _ x r); cbn [at_index _index _text]; [lia | exact H].
Qed.


Lemma skipn_length_le {A} n (l r : list A) :
  skipn n l = r -> (length r <= length l)%nat.
Proof. intros <-. rewrite length_skipn. lia. Qed.


(** ** Identities *)

Lemma bind_ok {A B} (c : M A) (k : A -> M B) self a self' :
  c self = Ok (a, self') -> bind c k self = k a self'.
Proof. intros H. unfold bind. now rewrite H. Qed.

Lemma bind_raise {A B} (c : M A) (k : A -> M B) self e :
  c self = Raise e -> bind c k self = Raise e.
Proof. intros H. unfold bind. now rewrite H. Qed.

Lemma get_ok {A} (f : Parser -> A) self : get f self = Ok (f self, self).
Proof. reflexivity. Qed.


(** A symbol outside a set differs from every element of the set. *)
Lemma not_mem_neq (x y : N) (S : frozenset) :
  mem [x] S = false -> mem [y] S = true -> Py.eqb [x] [y] = false.
Proof.
  intros Hx Hy. cbn [Py.eqb]. unfold Py.chr_eqb.
  destruct (N.eqb_spec x y) as [-> | Hne]; [congruence | reflexivity].
Qed.


(** With a symbol that is neither a line feed, nor the comment mark, nor in
    the horizontal set, nothing is consumed. *)
Lemma _multi_line_consume_optional_nothing hs self x r :
  0 <= _index self ->
  skipn (Z.to_nat (_index self)) (_text self) = x :: r ->
  Py.eqb [x] spec.DEFAULT_LINE_SEPARATOR = false ->
  Py.eqb [x] spec.COMMENT_MARK = false ->
  mem [x] hs = false ->
  _multi_line_consume_optional hs self = Ok ([], self).
Proof.
  intros Hi Hs H1 H2 H3. unfold _multi_line_consume_optional.
  rewrite (bind_ok _ _ _ _ _ (get_ok _index self)). cbv beta.
  assert (Hloop : _multi_line_consume_optional_loop (scan_fuel self) hs self
                  = Ok (tt, self)).
  { unfold scan_fuel. cbn [_multi_line_consume_optional_loop].
    rewrite (bind_ok _ _ _ _ _ (_peek_symbol self x r Hi Hs)).
    cbv beta. rewrite H1, H2, H3. reflexivity. }
  rewrite (bind_ok
             (fun self0 =>
                _multi_line_consume_optional_loop (scan_fuel self0) hs self0)
             _ self tt self Hloop).
  rewrite (bind_ok _ _ _ _ _ (get_ok _index self)). cbv beta.
  unfold _get_range, get. now rewrite slice_empty.
Qed.

Lemma forallb_not_mem_existsb (S : frozenset) x (l : Py.str) :
  mem [x] S = true ->
  forallb (fun m => negb (mem [m] S)) l = true ->
  existsb (N.eqb x) l = false.
Proof.
  intros Hx. induction l as [|a l IH]; intros H; [reflexivity |].
  cbn [forallb existsb] in *. apply andb_true_iff in H.
  destruct H as [Ha Hl]. rewrite (IH Hl), orb_false_r.
  destruct (N.eqb_spec x a) as [-> | Hne]; [| reflexivity].
  rewrite Hx in Ha. discriminate.
Qed.

(** An identity token holds neither a carriage return nor a line feed. *)
Lemma identity_token_no_symbol x (s : Py.str) :
  mem [x] spec.IDENTITY_DISALLOWED_SYMBOLS = true ->
  identity_token s = true -> existsb (N.eqb x) s = false.
Proof.
  intros Hx. destruct s as [|first others]; [reflexivity |].
  cbn [identity_token existsb]. intros H. apply andb_true_iff in H.
  destruct H as [Hfirst Hothers]. apply negb_true_iff in Hfirst.
  rewrite (forallb_not_mem_existsb _ x others Hx Hothers), orb_false_r.
  destruct (N.eqb_spec x first) as [-> | Hne]; [| reflexivity].
  assert (Hs : mem [first] spec.IDENTITY_DISALLOWED_START_SYMBOLS = true).
  { unfold mem in *. apply existsb_exists in Hx.
    destruct Hx as [y [Hin Hy]]. apply existsb_exists. exists y.
    split; [| exact Hy].
    change spec.IDENTITY_DISALLOWED_START_SYMBOLS
      with (spec.IDENTITY_DISALLOWED_SYMBOLS
            ++ skipn (length spec.IDENTITY_DISALLOWED_SYMBOLS)
                 spec.IDENTITY_DISALLOWED_START_SYMBOLS).
    apply in_or_app. now left. }
  congruence.
Qed.

Lemma existsb_app_false {A} (f : A -> bool) l1 l2 :
  existsb f l1 = false -> existsb f l2 = false ->
  existsb f (l1 ++ l2) = false.
Proof. intros H1 H2. now rewrite existsb_app, H1, H2. Qed.


(** A symbol that can start an identity is not horizontal space. *)
Lemma identity_start_not_space first :
  mem [first] spec.IDENTITY_DISALLOWED_START_SYMBOLS = false ->
  mem [first] spec.HORIZONTAL_SPACE_SET = false.
Proof.
  intros H. unfold mem. cbn [existsb spec.HORIZONTAL_SPACE_SET].
  rewrite (not_mem_neq _ 32%N _ H), (not_mem_neq _ 9%N _ H); reflexivity.
Qed.





(** ** Strings with reserved symbols in the serializers *)




(** ** The two reserved symbols *)




Lemma returns_ret {A} (a : A) (P : A -> Prop) : P a -> returns (ret a) P.
Proof. intros H self a' self' E. injection E as <- _. exact H. Qed.

Lemma returns_bind {A B} (c : M A) (k : A -> M B) P Q :
  returns c P -> (forall a, P a -> returns (k a) Q) -> returns (bind c k) Q.
Proof.
  intros Hc Hk self b self' E. unfold bind in E.
  destruct (c self) as [[a self1] | |] eqn:Ec; try discriminate.
  exact (Hk a (Hc _ _ _ Ec) _ _ _ E).
Qed.

Lemma returns_bind_any {A B} (c : M A) (k : A -> M B) Q :
  (forall a, returns (k a) Q) -> returns (bind c k) Q.
Proof.
  intros Hk. apply (returns_bind c k (fun _ => True)); [easy | auto].
Qed.

Lemma returns_raise {A} e (P : A -> Prop) : returns (raise e) P.
Proof. intros self a self' E. discriminate. Qed.

Lemma returns_out_of_fuel {A} (P : A -> Prop) : returns out_of_fuel P.
Proof. intros self a self' E. discriminate. Qed.

Lemma returns_raise_invalid_at {A} r c a b ls ln (P : A -> Prop) :
  returns (raise_invalid_at r c a b ls ln) P.
Proof.
  unfold raise_invalid_at. apply returns_bind_any. intros e.
  apply returns_raise.
Qed.

Lemma returns_raise_invalid {A} r (P : A -> Prop) :
  returns (raise_invalid r) P.
Proof.
  unfold raise_invalid. apply returns_bind_any. intros e.
  apply returns_raise.
Qed.

Lemma returns_weaken {A} (c : M A) (P Q : A -> Prop) :
  returns c P -> (forall a, P a -> Q a) -> returns c Q.
Proof. intros H HPQ self a self' E. exact (HPQ _ (H _ _ _ E)). Qed.

Lemma returns_at {A} (c : Parser -> M A) (P : A -> Prop) :
  (forall s, returns (c s) P) -> returns (fun self => c self self) P.
Proof. intros H self a self' E. exact (H self _ _ _ E). Qed.

(** One step through a method body. *)
Ltac returns_step :=
  lazymatch goal with
  | |- returns (raise_invalid _) _ => apply returns_raise_invalid
  | |- returns (raise_invalid_at _ _ _ _ _ _) _ =>
      apply returns_raise_invalid_at
  | |- returns (raise _) _ => apply returns_raise
  | |- returns out_of_fuel _ => apply returns_out_of_fuel
  | |- returns (bind _ _) _ => apply returns_bind_any; intros ?
  | |- returns (if ?b then _ else _) _ => destruct b
  | |- returns (match ?x with _ => _ end) _ => destruct x
  end.

(** *** Strings *)

Lemma as_str_returns p :
  returns (as_str p) (fun ks => is_string_key (fst ks)).
Proof.
  unfold as_str. apply returns_bind_any. intros [s snapshot].
  apply returns_ret. now exists s.
Qed.

Lemma _parse_string_returns :
  returns _parse_string (fun ks => is_string_key (fst ks)).
Proof.
  unfold _parse_string. do 2 returns_step.
  repeat first [apply as_str_returns | returns_step].
Qed.

(** *** Numbers *)

Lemma _parse_number_excl_keyword_returns :
  returns _parse_number_excl_keyword
    (fun ks =>
       (is_integer_key (fst ks) /\ sled_type (snd ks) = Some INTEGER)
       \/ ((exists x, fst ks = PyFloat x)
           /\ sled_type (snd ks) = Some FLOAT)).
Proof.
  unfold _parse_number_excl_keyword.
  do 5 returns_step. returns_step.
  - (* no decimal mark *)
    returns_step; [do 2 returns_step |].
    returns_step.
    + returns_step.
      apply (returns_bind _ _ (fun s => sled_type s = Some FLOAT)).
      { intros self s self' E. unfold snapshot_here, get in E.
        injection E as <- _. reflexivity. }
      intros s Hs. returns_step. apply returns_ret. right.
      split; [eexists; reflexivity | exact Hs].
    + apply (returns_bind _ _ (fun s => sled_type s = Some INTEGER)).
      { intros self s self' E. unfold snapshot_here, get in E.
        injection E as <- _. reflexivity. }
      intros s Hs.
      destruct (Py.int _) as [evaluation |]; [| apply returns_raise].
      destruct ((evaluation <? spec.SLED_INTEGER_MIN)
                || (spec.SLED_INTEGER_MAX <? evaluation)) eqn:Hrange.
      * do 2 returns_step.
      * apply returns_ret. left. split; [| exact Hs].
        exists evaluation. split; [reflexivity |].
        apply orb_false_iff in Hrange. destruct Hrange as [H1 H2].
        apply Z.ltb_ge in H1, H2. split; assumption.
  - (* decimal mark *)
    do 2 returns_step. returns_step; [do 2 returns_step |].
    do 2 returns_step.
    apply (returns_bind _ _ (fun s => sled_type s = Some FLOAT)).
    { intros self s self' E. unfold snapshot_here, get in E.
      injection E as <- _. reflexivity. }
    intros s Hs. returns_step. apply returns_ret. right.
    split; [eexists; reflexivity | exact Hs].
Qed.

(** *** Map keys *)

Lemma _parse_map_key_returns : returns _parse_map_key key_of_kind.
Proof.
  unfold _parse_map_key. do 2 returns_step.
  repeat first
    [ apply (returns_weaken _ _ _ (as_str_returns _));
      intros ? H; left; exact H
    | apply (returns_weaken _ _ _ _parse_number_excl_keyword_returns);
      intros ? H; right; exact H
    | returns_step ].
Qed.

Lemma _parse_integer_returns (P : Entity * ParseSnapshot -> Prop) :
  returns _parse_integer P.
Proof. intros self a self' E. discriminate. Qed.

Lemma _handle_map_first_key_returns key_type :
  returns (_handle_map_first_key key_type) first_key_of_kind.
Proof.
  unfold _handle_map_first_key.
  destruct key_type as [[| | | | | | | |] |];
    try apply returns_raise.
  (* ([_parse_integer] raises at once, like the remaining types) *)
  - (* STRING *)
    apply (returns_bind _ _ _ _ _parse_string_returns).
    intros [key key_snapshot] Hkey. apply returns_ret. left.
    split; [exact Hkey | exact _parse_string_returns].
  - (* None *)
    apply (returns_bind _ _ _ _ _parse_map_key_returns).
    intros [key key_snapshot] Hkey. unfold key_of_kind in Hkey.
    cbn [fst snd] in Hkey.
    destruct (sled_type key_snapshot) as [[| | | | | | | |] |] eqn:Htype;
      try apply returns_raise_invalid_at.
    + (* INTEGER *)
      apply returns_ret. right. split; [| apply _parse_integer_returns].
      destruct Hkey as [H | [[H _] | [_ H]]];
        [now left | now right | discriminate].
    + (* STRING *)
      apply returns_ret. left. split; [| exact _parse_string_returns].
      destruct Hkey as [H | [[_ H] | [_ H]]];
        [exact H | discriminate | discriminate].
Qed.

(** *** Containers *)

Lemma eqb_refl (s : Py.str) : Py.eqb s s = true.
Proof.
  induction s as [|c s IH]; [reflexivity |].
  cbn [Py.eqb]. unfold Py.chr_eqb. now rewrite N.eqb_refl, IH.
Qed.

Lemma eqb_eq (s t : Py.str) : Py.eqb s t = true -> s = t.
Proof.
  revert t. induction s as [|c s IH]; intros [|d t] H;
    try discriminate; [reflexivity |].
  cbn [Py.eqb] in H. apply andb_true_iff in H. destruct H as [Hc Hs].
  apply N.eqb_eq in Hc. subst d. f_equal. now apply IH.
Qed.

Lemma key_eqb_refl k :
  is_string_key k \/ is_integer_key k -> key_eqb k k = true.
Proof.
  intros [[s ->] | [n [-> _]]]; cbn [key_eqb];
    [apply eqb_refl | apply Z.eqb_refl].
Qed.

Lemma one_kind_either keys :
  one_kind keys -> Forall (fun k => is_string_key k \/ is_integer_key k) keys.
Proof.
  intros [H | H]; (eapply Forall_impl; [| exact H]); intros k Hk;
    [now left | now right].
Qed.

Lemma has_seen_key_NoDup data :
  forall seen,
    Forall (fun k => is_string_key k \/ is_integer_key k) (keys_of data) ->
    NoDup seen ->
    has_seen_key seen data = false ->
    NoDup (seen ++ keys_of data).
Proof.
  induction data as [|[[k snapshot] v] data IH]; intros seen Hk Hseen H.
  - cbn. now rewrite app_nil_r.
  - cbn [has_seen_key] in H. cbn [keys_of map fst] in *.
    inversion Hk as [| ? ? Hk1 Hk2]; subst.
    destruct (existsb (key_eqb k) seen) eqn:Hex; [discriminate |].
    assert (Hnotin : ~ In k seen).
    { intros Hin.
      assert (existsb (key_eqb k) seen = true); [| congruence].
      apply existsb_exists. exists k. split; [exact Hin |].
      now apply key_eqb_refl. }
    specialize (IH (seen ++ [k]) Hk2).
    rewrite <- app_assoc in IH. cbn [app] in IH. apply IH; [| exact H].
    apply NoDup_app; [exact Hseen | | ].
    + constructor; [intros [] | constructor].
    + intros x Hx [<- | []]. exact (Hnotin Hx).
Qed.

(** The values of a list satisfy [P]. *)
Lemma fold_right_Forall {A} (P : A -> Prop) (l : list A) :
  fold_right (fun o rest => P o /\ rest) True l <-> Forall P l.
Proof.
  induction l as [|a l IH]; cbn [fold_right].
  - split; [constructor | trivial].
  - rewrite IH. split.
    + intros [H1 H2]. now constructor.
    + intros H. inversion H. now split.
Qed.

Lemma every_map_dict P items :
  every_map P (PyDict items)
  <-> P (map fst items) /\ Forall (every_map P) (map snd items).
Proof.
  cbn [every_map]. rewrite Forall_map.
  rewrite <- (fold_right_Forall (fun kv => every_map P (snd kv))).
  reflexivity.
Qed.

Lemma every_map_list P items :
  every_map P (PyList items) <-> Forall (every_map P) items.
Proof. cbn [every_map]. apply fold_right_Forall. Qed.

Section ContainersReturn.

Variable ent : M Entity.
Hypothesis ent_returns : returns ent (every_map parsed_keys).

Lemma _parse_map_pair_after_key_returns :
  returns (_parse_map_pair_after_key ent) (every_map parsed_keys).
Proof.
  unfold _parse_map_pair_after_key. do 3 returns_step; [returns_step |].
  do 2 returns_step. exact ent_returns.
Qed.

Lemma _parse_map_content_loop_returns fuel key_parse_func :
  forall data,
    Forall (every_map parsed_keys) (values_of data) ->
    (Forall is_string_key (keys_of data)
     /\ returns key_parse_func (fun ks => is_string_key (fst ks)))
    \/ (one_kind (keys_of data)
        /\ returns key_parse_func (fun _ => False)) ->
    returns (_parse_map_content_loop ent fuel key_parse_func data)
      (fun data' =>
         Forall (every_map parsed_keys) (values_of data')
         /\ one_kind (keys_of data')).
Proof.
  induction fuel as [|fuel IH]; intros data Hvalues Hkeys;
    cbn [_parse_map_content_loop]; do 2 returns_step.
  1, 2: returns_step;
    [ apply returns_ret; split; [exact Hvalues |];
      destruct Hkeys as [[H _] | [H _]]; [now left | exact H]
    | returns_step; [returns_step |] ].
  - (* no fuel left *)
    do 2 returns_step. returns_step. returns_step.
  - destruct Hkeys as [[Hk Hparser] | [Hk Hparser]].
    + apply (returns_bind _ _ _ _ Hparser). intros [key snapshot] Hkey.
      apply (returns_bind _ _ _ _ _parse_map_pair_after_key_returns).
      intros value Hvalue. apply IH.
      * unfold values_of. rewrite map_app. apply Forall_app.
        split; [exact Hvalues | now constructor].
      * left. split; [| exact Hparser].
        unfold keys_of. rewrite map_app. apply Forall_app.
        split; [exact Hk | now constructor].
    + apply (returns_bind _ _ _ _ Hparser). intros ? [].
Qed.

Lemma _parse_map_content_returns key_type :
  returns (_parse_map_content ent key_type) (every_map parsed_keys).
Proof.
  unfold _parse_map_content. do 5 returns_step. returns_step.
  { apply returns_ret. apply every_map_dict. cbn [map].
    split; [split; [constructor | left; constructor] | constructor]. }
  apply (returns_bind _ _ _ _ (_handle_map_first_key_returns key_type)).
  intros [[key key_snapshot] key_parse_func] Hfirst.
  apply (returns_bind _ _ _ _ _parse_map_pair_after_key_returns).
  intros value Hvalue.
  apply (returns_bind _ _
           (fun data' =>
              Forall (every_map parsed_keys) (values_of data')
              /\ one_kind (keys_of data'))).
  { intros self data self'.
    refine (_parse_map_content_loop_returns (scan_fuel self)
              key_parse_func _ _ _ self data self').
    - now constructor.
    - cbn [keys_of map fst]. unfold first_key_of_kind in Hfirst.
      destruct Hfirst as [[Hk Hp] | [Hk Hp]].
      + left. split; [now constructor | exact Hp].
      + right. split; [| exact Hp].
        destruct Hk as [Hk | Hk]; [left | right]; now constructor. }
  intros data [Hvalues Hkeys].
  destruct (has_seen_key [] data) eqn:Hseen; [apply returns_raise |].
  apply returns_ret. apply every_map_dict.
  rewrite !map_map. cbn [fst snd]. fold (keys_of data).
  split; [split; [| exact Hkeys] | exact Hvalues].
  apply (has_seen_key_NoDup data []);
    [apply one_kind_either; exact Hkeys | constructor | exact Hseen].
Qed.

Lemma _parse_list_content_loop_returns fuel :
  forall content,
    Forall (every_map parsed_keys) content ->
    returns (_parse_list_content_loop ent fuel content)
      (Forall (every_map parsed_keys)).
Proof.
  induction fuel as [|fuel IH]; intros content Hcontent;
    cbn [_parse_list_content_loop];
    (apply (returns_bind _ _ _ _ ent_returns); intros e He);
    do 2 returns_step;
    assert (Hall : Forall (every_map parsed_keys) (content ++ [e]))
      by (apply Forall_app; split; [exact Hcontent | now constructor]).
  - returns_step; [now apply returns_ret |].
    returns_step; returns_step.
  - returns_step; [now apply returns_ret |].
    returns_step; [returns_step |]. now apply IH.
Qed.

Lemma _parse_list_content_returns :
  returns (_parse_list_content ent) (every_map parsed_keys).
Proof.
  unfold _parse_list_content. do 2 returns_step. returns_step.
  { apply returns_ret. apply every_map_list. constructor. }
  apply (returns_bind _ _ (Forall (every_map parsed_keys))).
  { intros self content self'.
    refine (_parse_list_content_loop_returns (scan_fuel self) _ _
              self content self').
    constructor. }
  intros content Hcontent. apply returns_ret.
  now apply every_map_list.
Qed.

Lemma keyword_literal_evaluation P keyword_name k :
  KEYWORD_LITERALS_get keyword_name = Some k -> every_map P (evaluation k).
Proof.
  unfold KEYWORD_LITERALS_get. intros H. apply find_some in H.
  destruct H as [Hin _]. cbn in Hin.
  repeat (destruct Hin as [<- | Hin]; [exact I |]). destruct Hin.
Qed.

Lemma _parse_keyword_returns P :
  returns _parse_keyword (fun es => every_map P (fst es)).
Proof.
  unfold _parse_keyword. returns_step. returns_step; [returns_step |].
  do 3 returns_step. returns_step.
  destruct (KEYWORD_LITERALS_get _) as [k |] eqn:Hk.
  { apply returns_ret. exact (keyword_literal_evaluation P _ _ Hk). }
  repeat first [apply returns_ret; exact I | returns_step].
Qed.

Lemma _parse_entity_body_returns :
  returns (_parse_entity_body ent) (every_map parsed_keys).
Proof.
  unfold _parse_entity_body. returns_step. returns_step.
  { returns_step.
    apply (returns_bind _ _ _ _ (_parse_map_content_returns None)).
    intros content Hcontent. returns_step.
    returns_step; [returns_step; now apply returns_ret | returns_step]. }
  returns_step.
  { returns_step.
    apply (returns_bind _ _ _ _ _parse_list_content_returns).
    intros content Hcontent. returns_step.
    returns_step; [returns_step; now apply returns_ret | returns_step]. }
  returns_step.
  { apply (returns_bind _ _ _ _ (_parse_keyword_returns parsed_keys)).
    intros [keyword_evaluation snapshot] H. now apply returns_ret. }
  unfold str_eq_frozenset.
  repeat first [apply returns_ret; exact I | returns_step].
Qed.

End ContainersReturn.

Lemma _parse_entity_returns depth :
  returns (_parse_entity depth) (every_map parsed_keys).
Proof.
  induction depth as [|depth IH]; cbn [_parse_entity].
  - apply returns_out_of_fuel.
  - now apply _parse_entity_body_returns.
Qed.

(** *** Documents *)

Lemma _parse_map_content_loop_string_keys ent fuel key_parse_func :
  returns key_parse_func (fun ks => is_string_key (fst ks)) ->
  forall data,
    Forall is_string_key (keys_of data) ->
    returns (_parse_map_content_loop ent fuel key_parse_func data)
      (fun data' => Forall is_string_key (keys_of data')).
Proof.
  intros Hparser.
  induction fuel as [|fuel IH]; intros data Hkeys;
    cbn [_parse_map_content_loop]; do 2 returns_step;
    (returns_step; [now apply returns_ret |]);
    (returns_step; [returns_step |]);
    apply (returns_bind _ _ _ _ Hparser); intros [key snapshot] Hkey;
    returns_step.
  - returns_step.
  - apply IH. unfold keys_of. rewrite map_app. apply Forall_app.
    split; [exact Hkeys | now constructor].
Qed.

Lemma _parse_map_content_string_keys ent :
  returns (_parse_map_content ent (Some STRING))
    (fun v => exists items,
         v = PyDict items
         /\ Forall (fun kv => is_string_key (fst kv)) items).
Proof.
  unfold _parse_map_content. do 5 returns_step. returns_step.
  { apply returns_ret. exists []. split; [reflexivity | constructor]. }
  cbn [_handle_map_first_key].
  apply (returns_bind _ _
           (fun r => is_string_key (fst (fst r)) /\ snd r = _parse_string)).
  { apply (returns_bind _ _ _ _ _parse_string_returns).
    intros [key key_snapshot] Hkey. apply returns_ret. now split. }
  intros [[key key_snapshot] key_parse_func] [Hkey Hparser].
  cbn [fst snd] in Hkey, Hparser. subst key_parse_func.
  returns_step.
  apply (returns_bind _ _
           (fun data' => Forall is_string_key (keys_of data'))).
  { intros self data self'.
    refine (_parse_map_content_loop_string_keys ent (scan_fuel self)
              _parse_string _parse_string_returns _ _ self data self').
    now constructor. }
  intros data Hkeys.
  destruct (has_seen_key [] data); [apply returns_raise |].
  apply returns_ret. eexists. split; [reflexivity |].
  rewrite Forall_map. unfold keys_of in Hkeys. rewrite Forall_map in Hkeys.
  exact Hkeys.
Qed.

Lemma _parse_document_returns :
  returns _parse_document
    (fun v => every_map parsed_keys v /\ string_keyed v).
Proof.
  intros self v self' E. unfold _parse_document in E.
  set (entity := _parse_entity (scan_fuel self)) in E.
  assert (Hentity : returns entity (every_map parsed_keys))
    by apply _parse_entity_returns.
  clearbody entity.
  lazymatch type of E with
  | ?c self = _ =>
      assert (H : returns c
                    (fun v => every_map parsed_keys v /\ string_keyed v));
        [| exact (H self v self' E)]
  end.
  clear E. do 2 returns_step.
  apply (returns_bind _ _
           (fun v => every_map parsed_keys v /\ string_keyed v)).
  { intros s e s' E. split.
    - exact (_parse_map_content_returns entity Hentity _ s e s' E).
    - exact (_parse_map_content_string_keys entity s e s' E). }
  intros evaluation Hevaluation.
  do 4 returns_step. returns_step; [now apply returns_ret | returns_step].
Qed.

(** Every map of a parsed document has pairwise different keys. *)
Lemma every_map_impl (P Q : list Entity -> Prop) :
  (forall keys, P keys -> Q keys) ->
  forall e, every_map P e -> every_map Q e.
Proof.
  intros HPQ. fix IH 1.
  intros [| b | n | x | b | s | items | items]; try (intros; exact I).
  - cbn [every_map]. intros [Hkeys Hvalues]. split; [auto |].
    clear Hkeys. induction items as [|[k v] items IHitems]; [exact I |].
    cbn [fold_right snd] in *. destruct Hvalues as [Hv Hrest].
    split; [apply IH; exact Hv | apply IHitems; exact Hrest].
  - cbn [every_map].
    induction items as [|o items IHitems]; [intros; exact I |].
    cbn [fold_right]. intros [Ho Hrest].
    split; [apply IH; exact Ho | apply IHitems; exact Hrest].
Qed.

Lemma from_sled_returns text v :
  from_sled text = Ok v -> every_map parsed_keys v /\ string_keyed v.
Proof.
  unfold from_sled, parse. intros E.
  destruct (_parse_document (Parser__init__ text))
    as [[evaluation self'] | |] eqn:Ed; try discriminate.
  injection E as <-. exact (_parse_document_returns _ _ _ Ed).
Qed.

(** X1.  Whatever [from_sled] returns is a map whose keys are all
    strings. *)
Theorem parsed_document_is_string_keyed text v :
  from_sled text = Ok v ->
  exists items,
    v = PyDict items
    /\ Forall (fun kv => exists s, fst kv = PyStr s) items.
Proof. intros E. exact (proj2 (from_sled_returns text v E)). Qed.

Lemma parsed_document_is_string_keyed_witness :
  from_sled (u "a = {b = c}")
  = Ok (PyDict [(PyStr (u "a"), PyDict [(PyStr (u "b"), PyStr (u "c"))])])
  /\ exists items,
       PyDict [(PyStr (u "a"), PyDict [(PyStr (u "b"), PyStr (u "c"))])]
       = PyDict items
       /\ Forall (fun kv => exists s, fst kv = PyStr s) items.
Proof.
  split; [vm_compute; reflexivity |].
  apply (parsed_document_is_string_keyed (u "a = {b = c}")).
  vm_compute. reflexivity.
Defined.

(** X2.  In whatever [from_sled] returns, no map, at any depth, holds the
    same key twice. *)
Theorem parsed_maps_have_distinct_keys text v :
  from_sled text = Ok v -> every_map (@NoDup Entity) v.
Proof.
  intros E. apply (every_map_impl parsed_keys); [intros keys H; apply H |].
  exact (proj1 (from_sled_returns text v E)).
Qed.

Lemma parsed_maps_have_distinct_keys_witness :
  from_sled (u "a = {b = c; d = [{e = f}]}")
  = Ok (PyDict
          [(PyStr (u "a"),
            PyDict [(PyStr (u "b"), PyStr (u "c"));
                    (PyStr (u "d"),
                     PyList [PyDict [(PyStr (u "e"), PyStr (u "f"))]])])])
  /\ every_map (@NoDup Entity)
       (PyDict
          [(PyStr (u "a"),
            PyDict [(PyStr (u "b"), PyStr (u "c"));
                    (PyStr (u "d"),
                     PyList [PyDict [(PyStr (u "e"), PyStr (u "f"))]])])]).
Proof.
  split; [vm_compute; reflexivity |].
  apply (parsed_maps_have_distinct_keys (u "a = {b = c; d = [{e = f}]}")).
  vm_compute. reflexivity.
Defined.

(** X3.  In whatever [from_sled] returns, the keys of every map, at any
    depth, are all strings or all integers of the signed 64-bit range. *)
Theorem parsed_maps_have_keys_of_one_kind text v :
  from_sled text = Ok v ->
  every_map (fun keys =>
               Forall is_string_key keys \/ Forall is_integer_key keys) v.
Proof.
  intros E. apply (every_map_impl parsed_keys); [intros keys H; apply H |].
  exact (proj1 (from_sled_returns text v E)).
Qed.

Lemma parsed_maps_have_keys_of_one_kind_witness :
  from_sled (u "m = {1 = x}")
  = Ok (PyDict [(PyStr (u "m"), PyDict [(PyInt 1, PyStr (u "x"))])])
  /\ every_map (fun keys =>
                  Forall is_string_key keys \/ Forall is_integer_key keys)
       (PyDict [(PyStr (u "m"), PyDict [(PyInt 1, PyStr (u "x"))])]).
Proof.
  split; [vm_compute; reflexivity |].
  apply (parsed_maps_have_keys_of_one_kind (u "m = {1 = x}")).
  vm_compute. reflexivity.
Defined.

(** ** The end of the text *)

Lemma standardize_without_cr (s : Py.str) :
  existsb (N.eqb 13) s = false -> standardize_line_separator s = s.
Proof.
  intros H. rewrite <- (app_nil_r s) at 1.
  rewrite standardize_prefix by exact H. apply app_nil_r.
Qed.

Lemma getitem_at_end (s : Py.str) : Py.getitem s (Py.len s) = None.
Proof.
  unfold Py.getitem, Py.len.
  assert (H : (Z.of_nat (length s) <? 0) = false) by (apply Z.ltb_ge; lia).
  rewrite H, H, Nat2Z.id. apply nth_error_None. lia.
Qed.

Lemma _peek_at_end self :
  _index self = Py.len (_text self) -> _peek self = Ok ([], self).
Proof.
  intros H. unfold _peek. rewrite H, getitem_at_end, Z.eqb_refl.
  reflexivity.
Qed.

Lemma _is_at_end_true self :
  _index self = Py.len (_text self) -> _is_at_end self = Ok (true, self).
Proof. intros H. unfold _is_at_end, get. now rewrite H, Z.eqb_refl. Qed.

(** At the end of the text there is nothing to skip. *)
Lemma _multi_line_consume_optional_at_end hs self :
  _index self = Py.len (_text self) ->
  mem [] hs = false ->
  _multi_line_consume_optional hs self = Ok ([], self).
Proof.
  intros Hend Hhs. unfold _multi_line_consume_optional.
  rewrite (bind_ok _ _ _ _ _ (get_ok _index self)). cbv beta.
  assert (Hloop : _multi_line_consume_optional_loop (scan_fuel self) hs self
                  = Ok (tt, self)).
  { unfold scan_fuel. cbn [_multi_line_consume_optional_loop].
    rewrite (bind_ok _ _ _ _ _ (_peek_at_end self Hend)).
    cbv beta. rewrite Hhs. reflexivity. }
  rewrite (bind_ok
             (fun self0 =>
                _multi_line_consume_optional_loop (scan_fuel self0) hs self0)
             _ self tt self Hloop).
  rewrite (bind_ok _ _ _ _ _ (get_ok _index self)). cbv beta.
  unfold _get_range, get. now rewrite slice_empty.
Qed.

(** ** A document of one pair *)

Ltac run_to_value :=
  lazymatch goal with
  | |- ?lhs = Ok _ =>
      let t := eval lazy head beta delta
                 -[_multi_line_consume_optional _parse_entity_body
                   _peek _is_at_end raise_invalid raise_invalid_at]
                 iota zeta in lhs in
      change lhs with t
  end.

Ltac run_to_skip :=
  lazymatch goal with
  | |- ?lhs = Ok _ =>
      let t := eval lazy head beta delta
                 -[_multi_line_consume_optional _parse_entity_body
                   raise_invalid raise_invalid_at]
                 iota zeta in lhs in
      change lhs with t
  end.

(** The document [x=] followed by the text of one value that extends to the
    end of the input. *)
Lemma single_pair_document (c : N) (tail : Py.str) (v : Entity) :
  Py.eqb [c] spec.DEFAULT_LINE_SEPARATOR = false ->
  Py.eqb [c] spec.COMMENT_MARK = false ->
  mem [c] spec.HORIZONTAL_SPACE_SET = false ->
  (forall ent,
      _parse_entity_body ent
        {| _text := u "x=" ++ c :: tail; _index := 2;
           _line_num := 1; _line_start := 0 |}
      = Ok (v, {| _text := u "x=" ++ c :: tail;
                  _index := Py.len (u "x=" ++ c :: tail);
                  _line_num := 1; _line_start := 0 |})) ->
  parse {| _text := u "x=" ++ c :: tail; _index := 0;
           _line_num := 1; _line_start := 0 |}
  = Ok (PyDict [(PyStr (u "x"), v)]).
Proof.
  intros Hc1 Hc2 Hc3 Hvalue.
  change (u "x=" ++ c :: tail) with (120%N :: 61%N :: c :: tail) in *.
  set (text := 120%N :: 61%N :: c :: tail) in *.
  unfold parse, _parse_document.
  (* before the key *)
  run_to_skip.
  lazymatch goal with
  | |- context [_multi_line_consume_optional ?hs ?st] =>
      rewrite (_multi_line_consume_optional_nothing hs st 120%N
                 (61%N :: c :: tail));
      [| cbn; lia | reflexivity | reflexivity | reflexivity | reflexivity]
  end.
  (* the key; nothing before the separator *)
  run_to_skip.
  lazymatch goal with
  | |- context [_multi_line_consume_optional ?hs ?st] =>
      rewrite (_multi_line_consume_optional_nothing hs st 61%N (c :: tail));
      [| cbn; lia | reflexivity | reflexivity | reflexivity | reflexivity]
  end.
  (* the separator; nothing before the value *)
  run_to_skip.
  lazymatch goal with
  | |- context [_multi_line_consume_optional ?hs ?st] =>
      rewrite (_multi_line_consume_optional_nothing hs st c tail);
      [| cbn; lia | reflexivity | exact Hc1 | exact Hc2 | exact Hc3]
  end.
  (* the value *)
  run_to_skip.
  lazymatch goal with
  | |- context [_parse_entity_body ?ent ?st] =>
      change st with {| _text := text; _index := 2;
                        _line_num := 1; _line_start := 0 |};
      rewrite (Hvalue ent)
  end.
  (* the end of the map *)
  set (final := {| _text := text; _index := Py.len text;
                   _line_num := 1; _line_start := 0 |}).
  assert (Hend : _index final = Py.len (_text final)) by reflexivity.
  run_to_value.
  rewrite (_multi_line_consume_optional_at_end
             spec.DELIMITER_OR_HORIZONTAL_SPACE_SET final Hend eq_refl).
  run_to_value.
  rewrite (_peek_at_end final Hend).
  run_to_value.
  rewrite (_multi_line_consume_optional_at_end
             spec.DELIMITER_OR_HORIZONTAL_SPACE_SET final Hend eq_refl).
  run_to_value.
  rewrite (_peek_at_end final Hend).
  run_to_value.
  rewrite (_is_at_end_true final Hend).
  reflexivity.
Qed.

(** ** Bytes *)

Lemma find_from_first x (p rest : Py.str) i :
  ~ In x p -> Py.find_from [x] (p ++ x :: rest) i = i + Z.of_nat (length p).
Proof.
  revert i. induction p as [|a p IH]; intros i H.
  - cbn [app Py.find_from length]. rewrite startswith_single, N.eqb_refl.
    cbn. lia.
  - cbn [app Py.find_from]. rewrite startswith_single.
    destruct (N.eqb_spec x a) as [-> | Hne]; [exfalso; apply H; now left |].
    rewrite IH by (intros Hin; apply H; now right).
    cbn [length]. lia.
Qed.

Lemma slice_to_end (s : Py.str) i :
  0 <= i -> Py.slice s i (Py.len s) = skipn (Z.to_nat i) s.
Proof.
  intros Hi. rewrite slice_nonneg by (unfold Py.len; lia).
  apply firstn_all2. rewrite length_skipn. unfold Py.len. lia.
Qed.

(** The next occurrence of a symbol, after a run that does not hold it. *)
Lemma find2_first (s : Py.str) x i (p rest : Py.str) :
  0 <= i -> skipn (Z.to_nat i) s = p ++ x :: rest -> ~ In x p ->
  Py.find2 s [x] i = i + Py.len p.
Proof.
  intros Hi Hs Hp. unfold Py.find2, Py.find.
  rewrite bound_nonneg, slice_to_end, Hs by lia.
  now apply find_from_first.
Qed.

Lemma slice_run (s : Py.str) i (p rest : Py.str) :
  0 <= i -> skipn (Z.to_nat i) s = p ++ rest ->
  Py.slice s i (i + Py.len p) = p.
Proof.
  intros Hi Hs. rewrite slice_nonneg by (unfold Py.len; lia).
  rewrite Hs. replace (Z.to_nat (i + Py.len p - i)) with (length p)
    by (unfold Py.len; lia).
  rewrite firstn_app, Nat.sub_diag, firstn_all. apply app_nil_r.
Qed.

Lemma skipn_run {A} (l : list A) n (p rest : list A) :
  skipn n l = p ++ rest -> skipn (n + length p) l = rest.
Proof.
  intros H. rewrite Nat.add_comm, <- skipn_skipn, H.
  rewrite skipn_app, skipn_all, Nat.sub_diag. reflexivity.
Qed.

Lemma bytes_hex_forallb (p : N -> bool) :
  forallb p (u "0123456789abcdef") = true ->
  forall b, forallb p (bytes_hex b) = true.
Proof.
  intros Hp b. apply forallb_forall. intros c Hc.
  pose proof (bytes_hex_lower_case b) as Hb.
  rewrite forallb_forall in Hb. specialize (Hb c Hc).
  apply mem_single_In in Hb. apply in_map_iff in Hb.
  destruct Hb as [d [Hd Hin]]. injection Hd as ->.
  rewrite forallb_forall in Hp. now apply Hp.
Qed.

Lemma bytes_hex_length b : length (bytes_hex b) = (2 * length b)%nat.
Proof.
  induction b as [|x b IH]; [reflexivity |].
  unfold bytes_hex in *. cbn [flat_map length app]. rewrite IH. lia.
Qed.

(** [bytes.fromhex] undoes [bytes.hex]. *)
Lemma fromhex_bytes_hex b : Py.fromhex (bytes_hex b) = Some b.
Proof.
  unfold Py.fromhex. induction b as [|x b IH]; [reflexivity |].
  unfold bytes_hex in *. cbn [flat_map app Py.fromhex_go].
  rewrite IH. destruct x; reflexivity.
Qed.

Lemma difference_symbols_subset (S : frozenset) (s : Py.str) :
  forallb (fun c => mem [c] S) s = true -> difference (symbols s) S = [].
Proof.
  induction s as [|c s IH]; [reflexivity |].
  cbn [forallb]. intros H. apply andb_true_iff in H. destruct H as [Hc Hs].
  unfold difference, symbols in *. cbn [map filter]. rewrite Hc.
  cbn [negb]. now apply IH.
Qed.

Lemma forallb_negb_existsb {A} (p : A -> bool) (l : list A) :
  forallb (fun c => negb (p c)) l = true -> existsb p l = false.
Proof.
  induction l as [|c l IH]; [reflexivity |].
  cbn [forallb existsb]. intros H. apply andb_true_iff in H.
  destruct H as [Hc Hl]. apply negb_true_iff in Hc.
  rewrite Hc. now apply IH.
Qed.

(** [_parse_hex_content] on the digest of [b] followed by the close mark:
    the bytes [b], the index on the close mark. *)
Lemma _parse_hex_content_digest self b rest :
  0 <= _index self ->
  skipn (Z.to_nat (_index self)) (_text self)
  = bytes_hex b ++ 41%N :: rest ->
  _parse_hex_content self
  = Ok (b, at_index self (_index self + Py.len (bytes_hex b))).
Proof.
  intros Hi Hs. unfold _parse_hex_content.
  rewrite (bind_ok _ _ _ _ _ (get_ok _index self)). cbv beta.
  assert (Hclose : ~ In 41%N (bytes_hex b)).
  { apply existsb_eqb_In, forallb_negb_existsb.
    exact (bytes_hex_forallb (fun c => negb (N.eqb 41 c)) eq_refl b). }
  unfold get at 1. unfold bind at 1.
  change spec.HEX_CLOSE_MARK with [41%N].
  rewrite (find2_first _ 41%N _ _ rest Hi Hs Hclose).
  assert (Hneg : (_index self + Py.len (bytes_hex b) =? -1) = false)
    by (apply Z.eqb_neq; unfold Py.len; lia).
  rewrite Hneg.
  unfold _get_range. unfold get at 1. unfold bind at 1.
  rewrite (slice_run _ _ _ (41%N :: rest) Hi Hs).
  unfold issuperset.
  rewrite (bytes_hex_forallb (fun c => mem [c] spec.HEX_CHAR_SET) eq_refl b).
  cbn [negb].
  rewrite (difference_symbols_subset spec.HEX_DIGIT_SET (bytes_hex b))
    by apply (bytes_hex_forallb (fun c => mem [c] spec.HEX_DIGIT_SET)
                eq_refl).
  cbn [fold_left].
  assert (Heven : (Py.len (bytes_hex b) mod 2 =? 0) = true).
  { unfold Py.len. rewrite bytes_hex_length, Nat2Z.inj_mul.
    rewrite Z.mul_comm, Z_mod_mult. reflexivity. }
  rewrite Heven. cbn [negb].
  unfold set_index at 1. unfold bind at 1.
  rewrite fromhex_bytes_hex. reflexivity.
Qed.

Ltac run_to_hex_content :=
  lazymatch goal with
  | |- ?lhs = Ok _ =>
      let t := eval lazy head beta delta
                 -[_multi_line_consume_optional _parse_hex_content
                   raise_invalid raise_invalid_at]
                 iota zeta in lhs in
      change lhs with t
  end.

Ltac run_to_peek_value :=
  lazymatch goal with
  | |- ?lhs = Ok _ =>
      let t := eval lazy head beta delta
                 -[_multi_line_consume_optional _peek
                   raise_invalid raise_invalid_at]
                 iota zeta in lhs in
      change lhs with t
  end.

(** The value [@hex(...)] around the digest of [b], up to the end of the
    text. *)
Lemma _parse_entity_body_hex ent b :
  _parse_entity_body ent
    {| _text := u "x=" ++ 64%N :: u "hex(" ++ bytes_hex b ++ u ")";
       _index := 2; _line_num := 1; _line_start := 0 |}
  = Ok (PyBytes b,
        {| _text := u "x=" ++ 64%N :: u "hex(" ++ bytes_hex b ++ u ")";
           _index :=
             Py.len (u "x=" ++ 64%N :: u "hex(" ++ bytes_hex b ++ u ")");
           _line_num := 1; _line_start := 0 |}).
Proof.
  set (text := u "x=" ++ 64%N :: u "hex(" ++ bytes_hex b ++ u ")").
  assert (Hlen : Py.len text = 8 + Py.len (bytes_hex b)).
  { unfold text, Py.len. cbn [u Py.u map list_ascii_of_string app length].
    rewrite length_app. cbn [length]. lia. }
  rewrite Hlen.
  change text
    with (120%N :: 61%N :: 64%N :: 104%N :: 101%N :: 120%N :: 40%N
          :: bytes_hex b ++ [41%N]).
  clear text Hlen.
  run_to_hex_content.
  lazymatch goal with
  | |- context [_multi_line_consume_optional ?hs ?st] =>
      rewrite (_multi_line_consume_optional_nothing hs st 40%N
                 (bytes_hex b ++ [41%N]));
      [| cbn; lia | reflexivity | reflexivity | reflexivity | reflexivity]
  end.
  run_to_hex_content.
  lazymatch goal with
  | |- context [_parse_hex_content ?st] =>
      rewrite (_parse_hex_content_digest st b []);
      [| cbn; lia | reflexivity]
  end.
  run_to_peek_value.
  lazymatch goal with
  | |- context [_peek ?st] =>
      rewrite (_peek_symbol st 41%N []);
      [| cbn [at_index _index]; unfold Py.len; lia |]
  end.
  - run_to_peek_value. unfold at_index. cbn [_index _text _line_num
      _line_start]. do 3 f_equal. lia.
  - cbn [at_index _index _text].
    replace (Z.to_nat (6 + 1 + Py.len (bytes_hex b)))
      with (7 + length (bytes_hex b))%nat by (unfold Py.len; lia).
    apply (skipn_run _ 7 (bytes_hex b) [41%N]). reflexivity.
Qed.

(** X4.  Every byte string survives the minified serializer and the
    parser: the text that [SledSerializerMini()] emits for the map with the
    one pair [x: b] parses back to that map. *)
Theorem minified_bytes_round_trip format_float address_of b :
  exists text,
    to_sled format_float address_of Examples.minified
      (PyDict [(PyStr (u "x"), PyBytes b)]) = Ok text
    /\ from_sled text = Ok (PyDict [(PyStr (u "x"), PyBytes b)]).
Proof.
  exists (u "x=" ++ 64%N :: u "hex(" ++ bytes_hex b ++ u ")").
  split; [reflexivity |].
  unfold from_sled, Parser__init__.
  rewrite standardize_without_cr.
  - apply single_pair_document; try reflexivity.
    intros ent. apply _parse_entity_body_hex.
  - change (u "x=" ++ 64%N :: u "hex(" ++ bytes_hex b ++ u ")")
      with (u "x=@hex(" ++ bytes_hex b ++ u ")").
    apply existsb_app_false; [reflexivity |].
    apply existsb_app_false; [| reflexivity].
    apply forallb_negb_existsb.
    exact (bytes_hex_forallb (fun c => negb (N.eqb 13 c)) eq_refl b).
Qed.

(** ** Scanning up to the end of the text *)

Lemma skipn_nil_length {A} n (l : list A) :
  skipn n l = [] -> (length l <= n)%nat.
Proof.
  intros H. apply (f_equal (@length A)) in H. rewrite length_skipn in H.
  cbn in H. lia.
Qed.

Lemma _peek_tail self tail :
  0 <= _index self <= Py.len (_text self) ->
  skipn (Z.to_nat (_index self)) (_text self) = tail ->
  _peek self = Ok (head_symbol tail, self).
Proof.
  intros Hi Hs. destruct tail as [|c rest].
  - apply _peek_at_end. apply skipn_nil_length in Hs. unfold Py.len in *.
    lia.
  - now apply (_peek_symbol self c rest).
Qed.

Lemma at_index_at_index self i j :
  at_index (at_index self i) j = at_index self j.
Proof. reflexivity. Qed.

(** [while self._next() in S: pass] over a run [mid] of symbols that pass
    the test, up to a symbol that does not or to the end of the text. *)
Lemma _next_while_stops p (mid : Py.str) :
  forall fuel self tail,
    0 <= _index self < Py.len (_text self) ->
    skipn (Z.to_nat (_index self + 1)) (_text self) = mid ++ tail ->
    forallb (fun m => p [m]) mid = true ->
    p (head_symbol tail) = false ->
    (length mid <= fuel)%nat ->
    _next_while fuel p self
    = Ok (tt, at_index self (_index self + 1 + Z.of_nat (length mid))).
Proof.
  induction mid as [|m mid IH]; intros fuel self tail Hi Hs Hp Hc Hf.
  - cbn [app] in Hs.
    assert (Hn : _next self
                 = Ok (head_symbol tail, at_index self (_index self + 1))).
    { unfold _next, _advance, bind, get, set_index.
      fold (at_index self (_index self + 1)).
      apply _peek_tail; cbn [at_index _index _text]; [lia | exact Hs]. }
    destruct fuel; cbn [_next_while]; unfold bind; rewrite Hn, Hc;
      cbn [length Z.of_nat]; rewrite Z.add_0_r; reflexivity.
  - cbn [app] in Hs. cbn [forallb] in Hp. apply andb_true_iff in Hp.
    destruct Hp as [Hm Hp].
    assert (Hn := _next_symbol self m _ (proj1 Hi) Hs).
    destruct fuel as [|fuel]; [cbn [length] in Hf; lia |].
    cbn [_next_while]. unfold bind. rewrite Hn, Hm.
    assert (Hlt : _index self + 1 < Py.len (_text self)).
    { apply skipn_length_le in Hs as Hle.
      assert (Hne : (Z.to_nat (_index self + 1) < length (_text self))%nat).
      { destruct (Nat.lt_ge_cases (Z.to_nat (_index self + 1))
                    (length (_text self))) as [H | H]; [exact H |].
        rewrite skipn_all2 in Hs by exact H. discriminate. }
      unfold Py.len. lia. }
    rewrite (IH fuel (at_index self (_index self + 1)) tail).
    + unfold at_index. cbn [_index _text _line_num _line_start length].
      do 3 f_equal. lia.
    + cbn [at_index _index _text]. lia.
    + cbn [at_index _index _text].
      replace (Z.to_nat (_index self + 1 + 1))
        with (S (Z.to_nat (_index self + 1))) by lia.
      apply skipn_cons_nth in Hs. tauto.
    + exact Hp.
    + exact Hc.
    + cbn [length] in Hf. lia.
Qed.

Lemma while_next_stops p (mid : Py.str) self tail :
  0 <= _index self < Py.len (_text self) ->
  skipn (Z.to_nat (_index self + 1)) (_text self) = mid ++ tail ->
  forallb (fun m => p [m]) mid = true ->
  p (head_symbol tail) = false ->
  while_next p self
  = Ok (tt, at_index self (_index self + 1 + Z.of_nat (length mid))).
Proof.
  intros Hi Hs Hp Hc. unfold while_next.
  apply (_next_while_stops p mid _ self tail); try assumption.
  apply skipn_length_le in Hs. rewrite length_app in Hs.
  unfold scan_fuel. lia.
Qed.

Lemma skipn_cons_lt {A} n (l : list A) x r :
  skipn n l = x :: r -> (n < length l)%nat.
Proof.
  intros H. destruct (Nat.lt_ge_cases n (length l)) as [Hlt | Hge];
    [exact Hlt |].
  rewrite skipn_all2 in H by exact Hge. discriminate.
Qed.

Lemma skipn_S_tail {A} n (l : list A) x r :
  skipn n l = x :: r -> skipn (S n) l = r.
Proof. intros H. apply skipn_cons_nth in H. tauto. Qed.

(** ** Strings *)

Lemma _parse_identity_stops self first others tail :
  0 <= _index self ->
  skipn (Z.to_nat (_index self)) (_text self)
  = first :: others ++ tail ->
  identity_token (first :: others) = true ->
  ends_identity tail = true ->
  exists snapshot,
    _parse_identity self
    = Ok ((first :: others, snapshot),
          at_index self (_index self + 1 + Z.of_nat (length others))).
Proof.
  intros Hi Hs Hid Hc. cbn [identity_token] in Hid.
  apply andb_true_iff in Hid. destruct Hid as [Hfirst Hothers].
  apply negb_true_iff in Hfirst.
  assert (Hs' : skipn (Z.to_nat (_index self + 1)) (_text self)
                = others ++ tail).
  { replace (Z.to_nat (_index self + 1)) with (S (Z.to_nat (_index self)))
      by lia.
    now apply skipn_S_tail in Hs. }
  assert (Hlt : 0 <= _index self < Py.len (_text self)).
  { apply skipn_cons_lt in Hs. unfold Py.len. lia. }
  unfold _parse_identity.
  rewrite (bind_ok _ _ _ _ _ (_peek_symbol self first _ Hi Hs)).
  cbv beta. rewrite Hfirst.
  rewrite (bind_ok _ _ _ _ _ (get_ok _index self)). cbv beta.
  rewrite (bind_ok _ _ _ _ _
             (while_next_stops
                (fun c0 : Py.str =>
                   negb (mem c0 spec.IDENTITY_DISALLOWED_SYMBOLS))
                others self tail Hlt Hs' Hothers
                (f_equal negb Hc))).
  cbv beta.
  set (self' := at_index self (_index self + 1 + Z.of_nat (length others))).
  unfold snapshot_here.
  rewrite (bind_ok _ _ _ _ _ (get_ok _ self')). cbv beta.
  rewrite (bind_ok _ _ _ _ _ (get_ok _index self')). cbv beta.
  unfold _get_range.
  rewrite (bind_ok _ _ _ _ _ (get_ok _ self')). cbv beta.
  unfold ret. subst self'. cbn [at_index _index _text _line_num _line_start].
  rewrite slice_nonneg by lia.
  replace (Z.to_nat (_index self + 1 + Z.of_nat (length others)
                     - _index self))
    with (S (length others)) by lia.
  rewrite Hs. cbn [firstn].
  rewrite firstn_app, Nat.sub_diag, firstn_all. cbn [firstn].
  rewrite app_nil_r.
  eexists. reflexivity.
Qed.

Lemma identity_start_facts first :
  mem [first] spec.IDENTITY_DISALLOWED_START_SYMBOLS = false ->
  Py.eqb [first] spec.MAP_OPEN_MARK = false
  /\ Py.eqb [first] spec.LIST_OPEN_MARK = false
  /\ Py.eqb [first] spec.KEYWORD_MARK = false
  /\ mem [first] spec.QUOTE_MARK_SET = false.
Proof.
  intros Hfirst.
  repeat split; try (apply (not_mem_neq _ _ _ Hfirst); reflexivity).
  unfold mem. cbn [existsb spec.QUOTE_MARK_SET].
  change spec.SINGLE_QUOTE_MARK with [39%N].
  change spec.DOUBLE_QUOTE_MARK with [34%N].
  rewrite (not_mem_neq _ 39%N _ Hfirst), (not_mem_neq _ 34%N _ Hfirst);
    reflexivity.
Qed.

(** A value that is an identity, in front of [tail]. *)
Lemma _parse_entity_body_identity_stops ent self first others tail :
  0 <= _index self ->
  skipn (Z.to_nat (_index self)) (_text self)
  = first :: others ++ tail ->
  identity_token (first :: others) = true ->
  ends_identity tail = true ->
  _parse_entity_body ent self
  = Ok (PyStr (first :: others),
        at_index self (_index self + 1 + Z.of_nat (length others))).
Proof.
  intros Hi Hs Hid Hc.
  destruct (_parse_identity_stops self first others tail Hi Hs Hid Hc)
    as [snapshot Hp].
  cbn [identity_token] in Hid. apply andb_true_iff in Hid.
  destruct Hid as [Hfirst _]. apply negb_true_iff in Hfirst.
  destruct (identity_start_facts first Hfirst) as [H1 [H2 [H3 H4]]].
  unfold _parse_entity_body.
  rewrite (bind_ok _ _ _ _ _ (_peek_symbol self first _ Hi Hs)).
  cbv beta. rewrite H1, H2, H3, H4. unfold str_eq_frozenset.
  rewrite Hfirst. cbn [negb].
  rewrite (bind_ok _ _ _ _ _ Hp). reflexivity.
Qed.

Lemma bind_assoc_at {A B C} (c : M A) (f : A -> M B) (g : B -> M C) self :
  bind c (fun x => bind (f x) g) self = bind (bind c f) g self.
Proof. unfold bind. destruct (c self) as [[a self'] | |]; reflexivity. Qed.

Lemma quote_mark_restricted q :
  mem [q] (union spec.RESTRICTED_QUOTE_SYMBOLS (symbols [q])) = true.
Proof.
  unfold mem, union. rewrite existsb_app. cbn [symbols map existsb Py.eqb].
  unfold Py.chr_eqb. rewrite N.eqb_refl. cbn. apply orb_true_r.
Qed.

(** [_parse_quote] on a quote whose content needs no escape. *)
Lemma _parse_quote_plain self q s rest :
  0 <= _index self ->
  skipn (Z.to_nat (_index self)) (_text self) = q :: s ++ q :: rest ->
  mem [q] spec.QUOTE_MARK_SET = true ->
  quotable q s = true ->
  exists snapshot,
    _parse_quote self
    = Ok ((s, snapshot), at_index self (_index self + Py.len s + 2)).
Proof.
  intros Hi Hs Hq Hplain.
  assert (Hs1 : skipn (Z.to_nat (_index self + 1)) (_text self)
                = s ++ q :: rest).
  { replace (Z.to_nat (_index self + 1)) with (S (Z.to_nat (_index self)))
      by lia.
    now apply skipn_S_tail in Hs. }
  unfold _parse_quote.
  rewrite (bind_ok _ _ _ _ _ (_peek_symbol self q _ Hi Hs)). cbv beta.
  rewrite Hq. cbn [negb].
  rewrite (bind_ok _ _ _ _ _ (get_ok _index self)). cbv beta.
  set (restricted := union spec.RESTRICTED_QUOTE_SYMBOLS (symbols [q])).
  set (inside := at_index self (_index self + 1)).
  assert (Hadvance : _advance self = Ok (tt, inside)) by reflexivity.
  rewrite (bind_ok _ _ _ _ _ Hadvance). cbv beta.
  set (closing := at_index self (_index self + 1 + Py.len s)).
  assert (Hclosing : skipn (Z.to_nat (_index closing)) (_text closing)
                     = q :: rest).
  { cbn [closing at_index _index _text].
    replace (Z.to_nat (_index self + 1 + Py.len s))
      with (Z.to_nat (_index self + 1) + length s)%nat
      by (unfold Py.len; lia).
    now apply (skipn_run _ _ s (q :: rest)). }
  assert (Hloop : _parse_quote_loop (scan_fuel inside) [q] restricted []
                    inside
                  = Ok ([s], at_index self (_index self + Py.len s + 2))).
  { unfold scan_fuel. cbn [_parse_quote_loop].
    rewrite (bind_ok _ _ _ _ _ (get_ok _index inside)). cbv beta.
    assert (Hscan :
              (c <- _peek ;;
               (if negb (mem c restricted)
                then while_next (fun c0 : Py.str => negb (mem c0 restricted))
                else ret tt)) inside
              = Ok (tt, closing)).
    { destruct s as [|a s'].
      - rewrite (bind_ok _ _ _ _ _
                   (_peek_symbol inside q rest
                      ltac:(cbn [inside at_index _index]; lia) Hs1)).
        cbv beta. unfold restricted. rewrite quote_mark_restricted.
        cbn [negb]. unfold ret, closing, inside, at_index.
        cbn [_index _text _line_num _line_start Py.len length Z.of_nat].
        rewrite Z.add_0_r. reflexivity.
      - cbn [app] in Hs1. unfold quotable in Hplain.
        cbn [forallb] in Hplain. apply andb_true_iff in Hplain.
        destruct Hplain as [Ha Hs'].
        rewrite (bind_ok _ _ _ _ _
                   (_peek_symbol inside a _
                      ltac:(cbn [inside at_index _index]; lia) Hs1)).
        cbv beta. fold restricted in Ha. rewrite Ha.
        assert (Hlt : 0 <= _index inside < Py.len (_text inside)).
        { cbn [inside at_index _index _text].
          apply skipn_cons_lt in Hs1. unfold Py.len. lia. }
        rewrite (while_next_stops
                   (fun c0 : Py.str => negb (mem c0 restricted))
                   s' inside (q :: rest) Hlt).
        + unfold closing, inside. rewrite at_index_at_index.
          cbn [at_index _index].
          do 3 f_equal. unfold Py.len. cbn [length]. lia.
        + cbn [inside at_index _index _text].
          replace (Z.to_nat (_index self + 1 + 1))
            with (S (Z.to_nat (_index self + 1))) by lia.
          now apply skipn_S_tail in Hs1.
        + exact Hs'.
        + cbn [head_symbol]. unfold restricted.
          now rewrite quote_mark_restricted. }
    rewrite (bind_assoc_at _peek).
    rewrite (bind_ok _ _ inside tt closing Hscan).
    rewrite (bind_ok _ _ _ _ _ (get_ok _index closing)). cbv beta.
    unfold _get_range.
    rewrite (bind_ok _ _ _ _ _ (get_ok _ closing)). cbv beta.
    cbn [closing inside at_index _index _text].
    rewrite (slice_run _ _ s (q :: rest)) by (try lia; exact Hs1).
    fold closing.
    rewrite (bind_ok _ _ _ _ _
               (_peek_symbol closing q rest
                  ltac:(cbn [closing at_index _index]; unfold Py.len; lia)
                  Hclosing)).
    cbv beta. cbn [Py.eqb]. unfold Py.chr_eqb. rewrite N.eqb_refl.
    cbn [andb].
    assert (Hquit : _advance closing
                    = Ok (tt, at_index closing (_index closing + 1)))
      by reflexivity.
    rewrite (bind_ok _ _ _ _ _ Hquit). unfold ret.
    cbn [closing at_index _index _text _line_num _line_start app].
    unfold closing. rewrite at_index_at_index. do 3 f_equal. lia. }
  rewrite (bind_ok
             (fun self0 =>
                _parse_quote_loop (scan_fuel self0) [q] restricted [] self0)
             _ inside _ _ Hloop).
  unfold snapshot_here.
  rewrite (bind_ok _ _ _ _ _ (get_ok _ _)). cbv beta.
  unfold ret. cbn [Py.join]. eexists. reflexivity.
Qed.

Lemma quote_mark_cases q :
  mem [q] spec.QUOTE_MARK_SET = true -> q = 39%N \/ q = 34%N.
Proof.
  intros H. apply mem_single_In in H. cbn in H.
  destruct H as [H | [H | []]]; injection H as <-; [now left | now right].
Qed.

(** A value that is a quote whose content needs no escape. *)
Lemma _parse_entity_body_quote ent self q s rest :
  0 <= _index self ->
  skipn (Z.to_nat (_index self)) (_text self) = q :: s ++ q :: rest ->
  mem [q] spec.QUOTE_MARK_SET = true ->
  quotable q s = true ->
  _parse_entity_body ent self
  = Ok (PyStr s, at_index self (_index self + Py.len s + 2)).
Proof.
  intros Hi Hs Hq Hplain.
  destruct (_parse_quote_plain self q s rest Hi Hs Hq Hplain)
    as [snapshot Hp].
  unfold _parse_entity_body.
  rewrite (bind_ok _ _ _ _ _ (_peek_symbol self q _ Hi Hs)). cbv beta.
  assert (H : Py.eqb [q] spec.MAP_OPEN_MARK = false
              /\ Py.eqb [q] spec.LIST_OPEN_MARK = false
              /\ Py.eqb [q] spec.KEYWORD_MARK = false)
    by (destruct (quote_mark_cases q Hq) as [-> | ->];
        repeat split; reflexivity).
  destruct H as [H1 [H2 H3]]. rewrite H1, H2, H3.
  unfold str_eq_frozenset. rewrite Hq.
  rewrite (bind_ok _ _ _ _ _ Hp). reflexivity.
Qed.

Lemma needs_no_escape_In s c :
  needs_no_escape s = true -> In c s ->
  (32 <= c /\ c <> 127 /\ c <> 92 /\ c <> 34)%N.
Proof.
  intros H Hin. unfold needs_no_escape in H.
  rewrite forallb_forall in H. specialize (H c Hin).
  rewrite !andb_true_iff, !negb_true_iff, N.leb_le, !N.eqb_neq in H. tauto.
Qed.

Lemma replace_absent (s : Py.str) c new :
  ~ In c s -> Py.replace s [c] new = s.
Proof.
  intros H. unfold Py.replace. rewrite <- (app_nil_r s) at 1.
  rewrite (replace_go_prefix [c] new s [] c eq_refl H). apply app_nil_r.
Qed.

Lemma contains_absent (s : Py.str) c :
  ~ In c s -> Py.contains s [c] = false.
Proof.
  intros H. unfold Py.contains. now rewrite find_from_absent.
Qed.

Lemma filter_none {A} (f : A -> bool) l :
  (forall x, In x l -> f x = false) -> filter f l = [].
Proof.
  induction l as [|a l IH]; intros H; [reflexivity |].
  cbn [filter]. rewrite (H a) by now left.
  apply IH. intros x Hx. apply H. now right.
Qed.

Lemma escape_string_plain s :
  needs_no_escape s = true -> escape_string Examples.minified s = s.
Proof.
  intros H. unfold escape_string.
  cbn [Examples.minified _quote_mark _quote_mark_escape _ascii_only].
  change spec.ESCAPE_CHARACTER with [92%N].
  change Examples.DQ with [34%N].
  assert (Hnot : forall c, (c < 32 \/ c = 127 \/ c = 92 \/ c = 34)%N ->
                           ~ In c s).
  { intros c Hc Hin. pose proof (needs_no_escape_In s c H Hin). lia. }
  rewrite (replace_absent s 92%N) by (apply Hnot; lia).
  rewrite (replace_absent s 34%N) by (apply Hnot; lia).
  rewrite (filter_none (Py.contains s) spec.C0_SIMPLE_ESCAPE_SET).
  2: { intros x Hx. cbn in Hx.
       repeat (destruct Hx as [<- | Hx];
               [apply contains_absent, Hnot; lia |]).
       destruct Hx. }
  cbn [fold_left].
  rewrite (filter_none (Py.contains s) spec.C0_CONTROL_SET).
  2: { intros x Hx. cbn in Hx.
       repeat (destruct Hx as [<- | Hx];
               [apply contains_absent, Hnot; lia |]).
       destruct Hx. }
  reflexivity.
Qed.

Lemma needs_no_escape_quotable s :
  needs_no_escape s = true -> quotable 34 s = true.
Proof.
  intros H. unfold quotable. apply forallb_forall. intros c Hc.
  pose proof (needs_no_escape_In s c H Hc) as Hin.
  apply negb_true_iff.
  destruct (mem [c] (union spec.RESTRICTED_QUOTE_SYMBOLS (symbols [34%N])))
    eqn:Hm; [| reflexivity].
  exfalso. apply mem_single_In in Hm. cbn in Hm.
  repeat (destruct Hm as [Hm | Hm];
          [try discriminate; injection Hm as <-; lia |]).
  destruct Hm.
Qed.

Lemma needs_no_escape_cr s :
  needs_no_escape s = true -> existsb (N.eqb 13) s = false.
Proof.
  intros H. apply forallb_negb_existsb, forallb_forall. intros c Hc.
  pose proof (needs_no_escape_In s c H Hc) as Hin.
  apply negb_true_iff, N.eqb_neq. lia.
Qed.

(** X5.  Every string without control symbols, escape characters and
    double quote marks survives the minified serializer and the parser,
    whether it is emitted as an identity or as a quote. *)
Theorem minified_string_round_trip format_float address_of s :
  needs_no_escape s = true ->
  exists text,
    to_sled format_float address_of Examples.minified
      (PyDict [(PyStr (u "x"), PyStr s)]) = Ok text
    /\ from_sled text = Ok (PyDict [(PyStr (u "x"), PyStr s)]).
Proof.
  intros Hplain.
  exists (u "x=" ++ to_string Examples.minified s []).
  split; [reflexivity |].
  unfold from_sled, Parser__init__, to_string.
  destruct s as [|a s']; [reflexivity |].
  cbn [Py.eqb]. unfold _try_to_identity.
  cbn [Py.eqb Examples.minified _always_quote _ascii_only orb andb firstn].
  rewrite orb_false_r.
  destruct (mem [a] spec.IDENTITY_DISALLOWED_START_SYMBOLS) eqn:Hstart;
    [| destruct (isdisjoint spec.IDENTITY_DISALLOWED_SYMBOLS (a :: s'))
         eqn:Hdisjoint;
       [destruct (existsb Py.isspace (a :: s')) eqn:Hspace |]];
    cbn [orb negb Py.eqb class Examples.minified].
  3: { (* an identity *)
    assert (Hid : identity_token (a :: s') = true).
    { cbn [identity_token]. rewrite Hstart. cbn [negb andb].
      unfold isdisjoint in Hdisjoint. cbn [forallb] in Hdisjoint.
      apply andb_true_iff in Hdisjoint. tauto. }
    rewrite standardize_without_cr.
    2: { apply existsb_app_false; [reflexivity |].
         apply identity_token_no_symbol; [reflexivity | exact Hid]. }
    apply single_pair_document.
    - apply (not_mem_neq _ _ _ Hstart); reflexivity.
    - apply (not_mem_neq _ _ _ Hstart); reflexivity.
    - now apply identity_start_not_space.
    - intros ent.
      rewrite (_parse_entity_body_identity_stops ent _ a s' []);
        [| cbn; lia | cbn [_index _text]; now rewrite app_nil_r
         | exact Hid | reflexivity].
      unfold at_index. cbn [_index _text _line_num _line_start].
      do 3 f_equal. unfold Py.len. cbn [u Py.u map list_ascii_of_string
        app length]. lia. }
  all: (* a quote *)
    rewrite (escape_string_plain _ Hplain); unfold quoted;
    cbn [Examples.minified _quote_mark];
    change Examples.DQ with [34%N]; cbn [app];
    (rewrite standardize_without_cr;
     [| apply existsb_app_false; [reflexivity |];
        change (34%N :: a :: s' ++ [34%N])
          with ([34%N] ++ (a :: s') ++ [34%N]);
        apply existsb_app_false; [reflexivity |];
        apply existsb_app_false; [| reflexivity];
        now apply needs_no_escape_cr]);
    (apply single_pair_document; try reflexivity);
    intros ent;
    (rewrite (_parse_entity_body_quote ent _ 34%N (a :: s') []);
     [| cbn; lia | reflexivity | reflexivity
      | now apply needs_no_escape_quotable]);
    unfold at_index; cbn [_index _text _line_num _line_start];
    do 3 f_equal; unfold Py.len;
    cbn [u Py.u map list_ascii_of_string app length];
    rewrite length_app; cbn [length]; lia.
Qed.

Lemma minified_string_round_trip_witness :
  needs_no_escape (u "John Doe") = true
  /\ exists text,
       to_sled (fun _ _ => []) (fun _ => []) Examples.minified
         (PyDict [(PyStr (u "x"), PyStr (u "John Doe"))]) = Ok text
       /\ from_sled text
          = Ok (PyDict [(PyStr (u "x"), PyStr (u "John Doe"))]).
Proof.
  split; [reflexivity |].
  apply (minified_string_round_trip (fun _ _ => []) (fun _ => [])
           (u "John Doe")).
  reflexivity.
Defined.

(** ** Line feeds *)

Lemma forallb_repeat {A} (p : A -> bool) x n :
  p x = true -> forallb p (repeat x n) = true.
Proof.
  intros H. induction n as [|n IH]; [reflexivity |].
  cbn [repeat forallb]. now rewrite H, IH.
Qed.

(** A run of line feeds is consumed as a whole; the line number grows by
    its length, and the next line starts after it. *)
Lemma _consume_default_line_separators_run self k tail :
  0 <= _index self ->
  skipn (Z.to_nat (_index self)) (_text self)
  = 10%N :: repeat 10%N k ++ tail ->
  Py.eqb (head_symbol tail) spec.DEFAULT_LINE_SEPARATOR = false ->
  _consume_default_line_separators self
  = Ok (10%N :: repeat 10%N k,
        on_line self (_index self + 1 + Z.of_nat k)
          (_line_num self + (1 + Z.of_nat k))).
Proof.
  intros Hi Hs Htail.
  assert (Hs1 : skipn (Z.to_nat (_index self + 1)) (_text self)
                = repeat 10%N k ++ tail).
  { replace (Z.to_nat (_index self + 1)) with (S (Z.to_nat (_index self)))
      by lia.
    now apply skipn_S_tail in Hs. }
  assert (Hlt : 0 <= _index self < Py.len (_text self)).
  { apply skipn_cons_lt in Hs. unfold Py.len. lia. }
  unfold _consume_default_line_separators.
  rewrite (bind_ok _ _ _ _ _ (_peek_symbol self 10%N _ Hi Hs)). cbv beta.
  change (Py.eqb [10%N] spec.DEFAULT_LINE_SEPARATOR) with true.
  cbn [negb].
  rewrite (bind_ok _ _ _ _ _ (get_ok _index self)). cbv beta.
  rewrite (bind_ok _ _ _ _ _
             (while_next_stops
                (fun c : Py.str => Py.eqb c spec.DEFAULT_LINE_SEPARATOR)
                (repeat 10%N k) self tail Hlt Hs1
                (forallb_repeat _ _ _ eq_refl) Htail)).
  rewrite repeat_length.
  set (after := at_index self (_index self + 1 + Z.of_nat k)).
  rewrite (bind_ok _ _ _ _ _ (get_ok _index after)). cbv beta.
  rewrite (bind_ok _ _ _ _ _ (get_ok _line_num after)). cbv beta.
  unfold bind at 1. unfold set_line at 1.
  unfold _get_range, get.
  cbn [after at_index _index _text _line_num _line_start].
  change (10%N :: repeat 10%N k) with (repeat 10%N (S k)).
  rewrite (slice_nonneg _ _ _ Hi) by lia.
  replace (Z.to_nat (_index self + 1 + Z.of_nat k - _index self))
    with (S k) by lia.
  rewrite Hs. cbn [firstn repeat].
  rewrite firstn_app, repeat_length, Nat.sub_diag, firstn_all2
    by (rewrite repeat_length; lia).
  cbn [firstn]. rewrite app_nil_r. unfold on_line.
  do 4 f_equal. lia.
Qed.

(** Line feeds, then a symbol or the end of the text that end the skipping:
    the line feeds are skipped and counted. *)
Lemma _multi_line_consume_optional_newlines hs self k tail :
  0 <= _index self ->
  skipn (Z.to_nat (_index self)) (_text self)
  = 10%N :: repeat 10%N k ++ tail ->
  Py.eqb (head_symbol tail) spec.DEFAULT_LINE_SEPARATOR = false ->
  Py.eqb (head_symbol tail) spec.COMMENT_MARK = false ->
  mem (head_symbol tail) hs = false ->
  _multi_line_consume_optional hs self
  = Ok (10%N :: repeat 10%N k,
        on_line self (_index self + 1 + Z.of_nat k)
          (_line_num self + (1 + Z.of_nat k))).
Proof.
  intros Hi Hs H1 H2 H3.
  unfold _multi_line_consume_optional.
  rewrite (bind_ok _ _ _ _ _ (get_ok _index self)). cbv beta.
  set (after := on_line self (_index self + 1 + Z.of_nat k)
                  (_line_num self + (1 + Z.of_nat k))).
  assert (Hafter : skipn (Z.to_nat (_index after)) (_text after) = tail).
  { cbn [after on_line _index _text].
    replace (Z.to_nat (_index self + 1 + Z.of_nat k))
      with (Z.to_nat (_index self) + length (repeat 10%N (S k)))%nat
      by (rewrite repeat_length; lia).
    apply (skipn_run _ _ (repeat 10%N (S k)) tail). exact Hs. }
  assert (Hlen : _index after <= Py.len (_text after)).
  { cbn [after on_line _index _text].
    pose proof (f_equal (@length N) Hs) as Hl.
    rewrite length_skipn in Hl. cbn [length] in Hl.
    rewrite length_app, repeat_length in Hl.
    unfold Py.len. lia. }
  assert (Hloop : _multi_line_consume_optional_loop (scan_fuel self) hs self
                  = Ok (tt, after)).
  { unfold scan_fuel. cbn [_multi_line_consume_optional_loop].
    rewrite (bind_ok _ _ _ _ _ (_peek_symbol self 10%N _ Hi Hs)).
    cbv beta.
    change (Py.eqb [10%N] spec.DEFAULT_LINE_SEPARATOR) with true.
    cbv iota.
    rewrite (bind_ok _ _ _ _ _
               (_consume_default_line_separators_run self k tail Hi Hs H1)).
    fold after.
    assert (Hpos : (1 <= length (_text self))%nat).
    { apply skipn_cons_lt in Hs. lia. }
    destruct (length (_text self)) as [|n]; [lia |].
    cbn [_multi_line_consume_optional_loop].
    rewrite (bind_ok _ _ _ _ _
               (_peek_tail after tail
                  ltac:(split; [cbn [after on_line _index]; lia
                               | exact Hlen]) Hafter)).
    cbv beta. rewrite H1, H2, H3. reflexivity. }
  rewrite (bind_ok
             (fun self0 =>
                _multi_line_consume_optional_loop (scan_fuel self0) hs self0)
             _ self tt _ Hloop).
  rewrite (bind_ok _ _ _ _ _ (get_ok _index _)). cbv beta.
  unfold _get_range, get. cbn [after on_line _index _text].
  change (10%N :: repeat 10%N k) with (repeat 10%N (S k)).
  rewrite (slice_nonneg _ _ _ Hi) by lia.
  replace (Z.to_nat (_index self + 1 + Z.of_nat k - _index self))
    with (S k) by lia.
  rewrite Hs. cbn [firstn repeat].
  rewrite firstn_app, repeat_length, Nat.sub_diag, firstn_all2
    by (rewrite repeat_length; lia).
  cbn [firstn]. now rewrite app_nil_r.
Qed.

Lemma well_formed_on_line self i n :
  0 <= i <= Py.len (_text self) -> well_formed (on_line self i n) = true.
Proof.
  intros H. unfold well_formed, on_line. cbn [_text _index _line_start].
  rewrite slice_empty. cbn [existsb negb].
  rewrite !andb_true_iff, !Z.leb_le. lia.
Qed.

Lemma existsb_repeat_false {A} (p : A -> bool) x n :
  p x = false -> existsb p (repeat x n) = false.
Proof.
  intros H. induction n as [|n IH]; [reflexivity |].
  cbn [repeat existsb]. now rewrite H, IH.
Qed.

(** The case of the theorem below in which line feeds come first. *)
Ltac after_line_feeds k rest :=
  lazymatch goal with
  | |- context [repeat 10%N k ++ ?c :: rest] =>
      set (text := 10%N :: repeat 10%N k ++ c :: rest);
      set (start := {| _text := text; _index := 0; _line_num := 1;
                       _line_start := 0 |});
      set (here := on_line start (0 + 1 + Z.of_nat k)
                     (1 + (1 + Z.of_nat k)));
      assert (Hhere : skipn (Z.to_nat (_index here)) (_text here)
                      = c :: rest)
        by (cbn [here start on_line _index _text];
            replace (Z.to_nat (0 + 1 + Z.of_nat k))
              with (0 + length (repeat 10%N (S k)))%nat
              by (rewrite repeat_length; lia);
            apply (skipn_run text 0 (repeat 10%N (S k)) (c :: rest));
            reflexivity);
      assert (Hi : 0 <= _index here)
        by (cbn [here on_line _index]; lia);
      assert (Hwf : well_formed here = true)
        by (apply well_formed_on_line; cbn [start _text];
            unfold text, Py.len; cbn [length];
            rewrite length_app, repeat_length; cbn [length]; lia);
      run_to_multi_line;
      rewrite (_multi_line_consume_optional_newlines
                 spec.DELIMITER_OR_HORIZONTAL_SPACE_SET start k
                 (c :: rest) ltac:(cbn; lia) eq_refl
                 eq_refl eq_refl eq_refl);
      fold here;
      run_to_peek;
      lazymatch goal with
      | |- context [_peek ?st] =>
          change st with here; rewrite (_peek_symbol here c rest Hi Hhere)
      end;
      run_to_peek;
      lazymatch goal with
      | |- context [_peek ?st] =>
          change st with here; rewrite (_peek_symbol here c rest Hi Hhere)
      end;
      run_to_error;
      lazymatch goal with
      | |- context [@raise_invalid ?A ?why ?st] =>
          change st with here;
          destruct (@raise_invalid_syntax A why here Hwf)
            as [e [He [H1 [H2 H3]]]];
          rewrite He; exists e;
          split; [reflexivity |];
          split; [exact H1 |];
          split; [exact H2 |];
          rewrite H3; cbn [here on_line _line_num]; lia
      end
  end.

(** X6.  The line number of an error counts the line feeds before it:
    after [n] line feeds, a symbol that cannot start a key is reported on
    line [n + 1]. *)
Theorem error_line_number_counts_line_feeds n c rest :
  cannot_start_key c = true ->
  exists e,
    from_sled (repeat 10%N n ++ c :: rest) = Raise (Sled e)
    /\ error_category e = SYNTAX
    /\ reason e = [Str (u "Invalid string. No string starts with ");
                   Repr [c]; Str (u ".")]
    /\ start_line_num e = Z.of_nat n + 1.
Proof.
  intros Hc. apply mem_single_In in Hc. cbn in Hc.
  unfold from_sled, Parser__init__.
  replace (repeat 10%N n ++ c :: rest)
    with ((repeat 10%N n ++ [c]) ++ rest) by (now rewrite <- app_assoc).
  assert (Hcr : existsb (N.eqb 13) (repeat 10%N n ++ [c]) = false).
  { apply existsb_app_false; [now apply existsb_repeat_false |].
    repeat (destruct Hc as [Hc | Hc]; [injection Hc as <-; reflexivity |]).
    destruct Hc. }
  rewrite standardize_prefix by exact Hcr. clear Hcr.
  generalize (standardize_line_separator rest). clear rest. intros rest.
  rewrite <- app_assoc. cbn [app].
  unfold parse, _parse_document.
  destruct n as [|k].
  - (* on the first line *)
    cbn [repeat app].
    repeat (destruct Hc as [Hc | Hc];
            [injection Hc as <-;
             run_to_error;
             lazymatch goal with
             | |- context [@raise_invalid ?A ?why ?st] =>
                 destruct (@raise_invalid_syntax A why st)
                   as [e [He Hp]];
                 [ lazymatch goal with
                   | |- context [?x :: rest] =>
                       apply (well_formed_prefix [x] rest 0 1 0);
                       [lia | vm_compute; discriminate | reflexivity]
                   end
                 | rewrite He; exists e; split; [reflexivity | exact Hp] ]
             end |]).
    destruct Hc.
  - (* after line feeds *)
    cbn [repeat app].
    repeat (destruct Hc as [Hc | Hc];
            [injection Hc as <-; after_line_feeds k rest |]).
    destruct Hc.
Qed.

Lemma error_line_number_witness :
  cannot_start_key 61%N = true
  /\ exists e,
       from_sled (repeat 10%N 2 ++ 61%N :: u "x") = Raise (Sled e)
       /\ error_category e = SYNTAX
       /\ reason e = [Str (u "Invalid string. No string starts with ");
                      Repr [61%N]; Str (u ".")]
       /\ start_line_num e = Z.of_nat 2 + 1.
Proof.
  split; [reflexivity |].
  apply (error_line_number_counts_line_feeds 2 61%N (u "x")).
  reflexivity.
Defined.

(** ** Line separators *)

Lemma replace_go_single_removes c new (s : Py.str) :
  ~ In c new -> ~ In c (Py.replace_go [c] new 0 s).
Proof.
  intros Hnew. induction s as [|a s IH]; [intros [] |].
  cbn [Py.replace_go]. rewrite startswith_single.
  destruct (N.eqb_spec c a) as [-> | Hne].
  - cbn [length Nat.sub]. intros Hin. apply in_app_or in Hin.
    destruct Hin as [Hin | Hin]; [exact (Hnew Hin) | exact (IH Hin)].
  - intros [Hin | Hin]; [congruence | exact (IH Hin)].
Qed.

(** X7.  [standardize_line_separator] leaves no carriage return, and
    changes nothing in a text that it has already been applied to. *)
Theorem standardize_line_separator_normal text :
  ~ In 13%N (standardize_line_separator text)
  /\ standardize_line_separator (standardize_line_separator text)
     = standardize_line_separator text.
Proof.
  assert (H : ~ In 13%N (standardize_line_separator text)).
  { unfold standardize_line_separator, Py.replace.
    apply replace_go_single_removes. intros [H | []]. discriminate. }
  split; [exact H |].
  apply standardize_without_cr.
  destruct (existsb (N.eqb 13) (standardize_line_separator text)) eqn:E;
    [| reflexivity].
  exfalso. apply H. apply existsb_exists in E.
  destruct E as [x [Hin Hx]]. apply N.eqb_eq in Hx. now subst x.
Qed.

(** ** The error raised at the current symbol *)

(** X8.  In a state in which the line start is before the index, with no
    line feed in between, [raise self._make_invalid_sled_error(reason)] raises a
    [SledError] of category Syntax with the given reason and the current
    line number, whose message gives the column of the current symbol
    (counted from the line start) and points at it with one mark. *)
Theorem error_points_at_current_symbol {A} why self :
  well_formed self = true ->
  exists e line spaces,
    @raise_invalid A why self = Raise (Sled e)
    /\ error_category e = SYNTAX
    /\ reason e = why
    /\ start_line_num e = _line_num self
    /\ error_message e
       = why
         ++ [Str (NL ++ u "Line "); Int (_line_num self);
             Str (u ", from index ");
             Int (_index self - _line_start self);
             Str (u " to "); Int (_index self + 1 - _line_start self);
             Str (u ":" ++ NL);
             Str line; Str NL; Str spaces; Str (u "^")].
Proof.
  intros Hwf. destruct (line_end_spec self Hwf) as [line_end [Hle [Hb Hn]]].
  revert Hwf. unfold well_formed.
  rewrite !andb_true_iff, !Z.leb_le, negb_true_iff.
  intros [[[H0 H1] H2] _].
  unfold raise_invalid, bind, _make_invalid_sled_error, default.
  set (text := _text self) in *. set (ls := _line_start self) in *.
  set (idx := _index self) in *.
  assert (Ha : (ls <=? idx) && (idx <? idx + 1)
               && (idx + 1 <=? Py.len text + 1) = true).
  { rewrite !andb_true_iff, !Z.leb_le, Z.ltb_lt. lia. }
  rewrite Ha. cbn [negb].
  replace (idx + 1 - 1) with idx by lia.
  cbv [spec.DEFAULT_LINE_SEPARATOR spec.LF_LINE_SEPARATOR] in *.
  rewrite find_empty_range. cbn [Z.eqb negb].
  rewrite Hle.
  unfold SledErrors.make_short_parse_error.
  set (line := Py.slice text ls line_end) in *.
  assert (Hlen : Py.len line = line_end - ls).
  { unfold line. rewrite slice_nonneg by lia.
    unfold Py.len. rewrite length_firstn, length_skipn.
    unfold Py.len in Hb. lia. }
  assert (Hv : (0 <=? idx - ls) && (idx - ls <? idx + 1 - ls)
               && (idx + 1 - ls <=? Py.len line + 1) = true).
  { rewrite !andb_true_iff, !Z.leb_le, Z.ltb_lt. lia. }
  rewrite Hv. cbn [negb].
  assert (Hc : Py.contains (Py.slice_to line (-1))
                 spec.DEFAULT_LINE_SEPARATOR = false).
  { unfold Py.contains, Py.slice_to.
    cbv [spec.DEFAULT_LINE_SEPARATOR spec.LF_LINE_SEPARATOR].
    rewrite find_from_absent by (apply not_in_slice; exact Hn).
    reflexivity. }
  rewrite Hc.
  replace (idx + 1 - ls - (idx - ls)) with 1 by lia.
  match goal with
  | |- context [let '(_, _) := ?p in _] => destruct p as [shown before]
  end.
  unfold raise.
  eexists. exists shown. eexists.
  split; [reflexivity |]. repeat split.
Qed.

Lemma error_points_at_current_symbol_witness :
  well_formed {| _text := u "a<b"; _index := 1; _line_num := 1;
                 _line_start := 0 |} = true
  /\ exists e line spaces,
       @raise_invalid unit [Str (u "Stray symbol.")]
         {| _text := u "a<b"; _index := 1; _line_num := 1;
            _line_start := 0 |}
       = Raise (Sled e)
       /\ error_category e = SYNTAX
       /\ reason e = [Str (u "Stray symbol.")]
       /\ start_line_num e = 1
       /\ error_message e
          = [Str (u "Stray symbol.")]
            ++ [Str (NL ++ u "Line "); Int 1;
                Str (u ", from index "); Int (1 - 0);
                Str (u " to "); Int (1 + 1 - 0);
                Str (u ":" ++ NL);
                Str line; Str NL; Str spaces; Str (u "^")].
Proof.
  split; [reflexivity |].
  apply (@error_points_at_current_symbol unit [Str (u "Stray symbol.")]
           {| _text := u "a<b"; _index := 1; _line_num := 1;
              _line_start := 0 |}).
  reflexivity.
Defined.

(** ** Identities *)

Lemma identity_document s :
  identity_token s = true ->
  from_sled (u "x=" ++ s) = Ok (PyDict [(PyStr (u "x"), PyStr s)]).
Proof.
  intros Hid. destruct s as [|a s']; [discriminate |].
  assert (Hstart : mem [a] spec.IDENTITY_DISALLOWED_START_SYMBOLS = false).
  { cbn [identity_token] in Hid. apply andb_true_iff in Hid.
    now apply negb_true_iff. }
  unfold from_sled, Parser__init__.
  rewrite standardize_without_cr.
  2: { apply existsb_app_false; [reflexivity |].
       apply identity_token_no_symbol; [reflexivity | exact Hid]. }
  apply single_pair_document.
  - apply (not_mem_neq _ _ _ Hstart); reflexivity.
  - apply (not_mem_neq _ _ _ Hstart); reflexivity.
  - now apply identity_start_not_space.
  - intros ent.
    rewrite (_parse_entity_body_identity_stops ent _ a s' []);
      [| cbn; lia | cbn [_index _text]; now rewrite app_nil_r
       | exact Hid | reflexivity].
    unfold at_index. cbn [_index _text _line_num _line_start].
    do 3 f_equal. unfold Py.len. cbn [u Py.u map list_ascii_of_string
      app length]. lia.
Qed.

(** X9.  Whatever a serializer, of any class and with any options, emits
    as a bare identity is read back by the parser as the same string. *)
Theorem bare_identity_is_read_back self s :
  _try_to_identity self s <> [] ->
  _try_to_identity self s = s
  /\ from_sled (u "x=" ++ _try_to_identity self s)
     = Ok (PyDict [(PyStr (u "x"), PyStr s)]).
Proof.
  unfold _try_to_identity.
  destruct (Py.eqb s [] || _always_quote self
            || mem (firstn 1 s) spec.IDENTITY_DISALLOWED_START_SYMBOLS
            || negb (isdisjoint spec.IDENTITY_DISALLOWED_SYMBOLS s)
            || existsb Py.isspace s
            || _ascii_only self && negb (forallb Py.isascii s)) eqn:Hcond;
    [intros H; now contradiction H |].
  intros _. split; [reflexivity |].
  apply identity_document.
  rewrite !orb_false_iff in Hcond.
  destruct Hcond as [[[[[Hempty _] Hstart] Hdisjoint] _] _].
  destruct s as [|a s']; [discriminate |].
  cbn [firstn] in Hstart. apply negb_false_iff in Hdisjoint.
  cbn [identity_token]. rewrite Hstart. cbn [negb andb].
  unfold isdisjoint in Hdisjoint. cbn [forallb] in Hdisjoint.
  apply andb_true_iff in Hdisjoint. tauto.
Qed.

Lemma bare_identity_is_read_back_witness :
  _try_to_identity Examples.canonical (u "Jane") <> []
  /\ _try_to_identity Examples.canonical (u "Jane") = u "Jane"
  /\ from_sled (u "x=" ++ _try_to_identity Examples.canonical (u "Jane"))
     = Ok (PyDict [(PyStr (u "x"), PyStr (u "Jane"))]).
Proof.
  assert (H : _try_to_identity Examples.canonical (u "Jane") <> [])
    by (vm_compute; discriminate).
  split; [exact H |].
  exact (bare_identity_is_read_back Examples.canonical (u "Jane") H).
Defined.

(** ** The parser in front of a given text *)

(** Moving past a prefix of what is in front. *)
Lemma points_at_after self (p r : Py.str) :
  points_at self (p ++ r) ->
  points_at (at_index self (_index self + Py.len p)) r.
Proof.
  intros [Hi Hs].
  pose proof (f_equal (@length N) Hs) as Hl.
  rewrite length_skipn, length_app in Hl.
  split; cbn [at_index _index _text].
  - unfold Py.len in *. lia.
  - replace (Z.to_nat (_index self + Py.len p))
      with (Z.to_nat (_index self) + length p)%nat
      by (unfold Py.len; lia).
    now apply (skipn_run _ _ p r).
Qed.






(** ** Keywords *)






(** ** Strings of the minified serializer *)

(** The two forms in which the default minified serializer emits a string
    that needs no escape: the identity, or the quote. *)
Lemma to_string_minified_cases s indent :
  needs_no_escape s = true ->
  (identity_token s = true /\ to_string Examples.minified s indent = s)
  \/ to_string Examples.minified s indent = 34%N :: s ++ [34%N].
Proof.
  intros Hplain. unfold to_string.
  destruct s as [|a s']; [right; reflexivity |].
  cbn [Py.eqb]. unfold _try_to_identity.
  cbn [Py.eqb Examples.minified _always_quote _ascii_only orb andb firstn].
  rewrite orb_false_r.
  destruct (mem [a] spec.IDENTITY_DISALLOWED_START_SYMBOLS) eqn:Hstart;
    [| destruct (isdisjoint spec.IDENTITY_DISALLOWED_SYMBOLS (a :: s'))
         eqn:Hdisjoint;
       [destruct (existsb Py.isspace (a :: s')) eqn:Hspace |]];
    cbn [orb negb Py.eqb class Examples.minified].
  3: { left. split; [| reflexivity].
       cbn [identity_token]. rewrite Hstart. cbn [negb andb].
       unfold isdisjoint in Hdisjoint. cbn [forallb] in Hdisjoint.
       apply andb_true_iff in Hdisjoint. tauto. }
  all: right; rewrite (escape_string_plain _ Hplain); reflexivity.
Qed.





(** ** Objects that the minified serializer and the parser carry both ways *)

Lemma join_delimited part parts :
  Py.join spec.DELIMITER_MARK (part :: parts) = part ++ delimited parts.
Proof.
  revert part. induction parts as [|q parts IH]; intros part.
  - cbn. now rewrite app_nil_r.
  - change (Py.join spec.DELIMITER_MARK (part :: q :: parts))
      with (part ++ spec.DELIMITER_MARK
            ++ Py.join spec.DELIMITER_MARK (q :: parts)).
    rewrite IH. unfold delimited. cbn [map concat].
    now rewrite <- app_assoc.
Qed.


Lemma length_join_In part parts :
  In part parts ->
  (length part <= length (Py.join spec.DELIMITER_MARK parts))%nat.
Proof.
  induction parts as [|q parts IH]; [intros [] |].
  intros [-> | Hin].
  - rewrite join_delimited, length_app. lia.
  - specialize (IH Hin). rewrite join_delimited.
    destruct parts as [|r parts]; [destruct Hin |].
    rewrite join_delimited in IH. unfold delimited in *.
    cbn [map concat]. rewrite !length_app in *. lia.
Qed.

Lemma printable_app a b :
  printable a = true -> printable b = true -> printable (a ++ b) = true.
Proof. unfold printable. intros Ha Hb. now rewrite forallb_app, Ha, Hb. Qed.

Lemma printable_join parts :
  Forall (fun part => printable part = true) parts ->
  printable (Py.join spec.DELIMITER_MARK parts) = true.
Proof.
  induction 1 as [|part parts Hpart Hparts IH]; [reflexivity |].
  destruct parts as [|q parts]; [exact Hpart |].
  change (Py.join spec.DELIMITER_MARK (part :: q :: parts))
    with (part ++ spec.DELIMITER_MARK
          ++ Py.join spec.DELIMITER_MARK (q :: parts)).
  apply printable_app; [exact Hpart |].
  apply printable_app; [reflexivity | exact IH].
Qed.


Lemma needs_no_escape_printable s :
  needs_no_escape s = true -> printable s = true.
Proof.
  unfold needs_no_escape, printable. rewrite !forallb_forall.
  intros H c Hc. specialize (H c Hc).
  repeat (apply andb_true_iff in H; destruct H as [H _]). exact H.
Qed.

(** The first symbol of an identity starts an entity. *)
Lemma identity_starts_entity first others :
  mem [first] spec.IDENTITY_DISALLOWED_START_SYMBOLS = false ->
  starts_entity (first :: others) = true.
Proof.
  intros H. unfold starts_entity, mem. cbn [head_symbol].
  unfold between_entities. cbn [existsb].
  rewrite (not_mem_neq first 10%N _ H eq_refl
           : Py.eqb [first] spec.DEFAULT_LINE_SEPARATOR = false).
  rewrite (not_mem_neq first 35%N _ H eq_refl
           : Py.eqb [first] spec.COMMENT_MARK = false).
  rewrite (not_mem_neq first 93%N _ H eq_refl
           : Py.eqb [first] spec.LIST_CLOSE_MARK = false).
  rewrite (not_mem_neq first 125%N _ H eq_refl
           : Py.eqb [first] spec.MAP_CLOSE_MARK = false).
  rewrite (not_mem_neq first 32%N _ H eq_refl
           : Py.eqb [first] (u " ") = false).
  rewrite (not_mem_neq first 9%N _ H eq_refl).
  rewrite (not_mem_neq first 59%N _ H eq_refl
           : Py.eqb [first] spec.DELIMITER_MARK = false).
  reflexivity.
Qed.

Lemma to_string_facts s :
  needs_no_escape s = true ->
  starts_entity (to_string Examples.minified s []) = true
  /\ printable (to_string Examples.minified s []) = true
  /\ (1 <= length (to_string Examples.minified s []))%nat
  /\ Py.eqb (head_symbol (to_string Examples.minified s []))
       spec.MAP_OPEN_MARK = false.
Proof.
  intros Hplain.
  destruct (to_string_minified_cases s [] Hplain) as [[Hid ->] | ->].
  - destruct s as [|first others]; [discriminate |].
    assert (Hstart : mem [first] spec.IDENTITY_DISALLOWED_START_SYMBOLS
                     = false).
    { cbn [identity_token] in Hid. apply andb_true_iff in Hid.
      now apply negb_true_iff. }
    repeat split.
    + now apply identity_starts_entity.
    + now apply needs_no_escape_printable.
    + cbn [length]. lia.
    + apply (not_mem_neq _ _ _ Hstart). reflexivity.
  - repeat split.
    + change (34%N :: s ++ [34%N]) with ([34%N] ++ s ++ [34%N]).
      apply printable_app; [reflexivity |].
      apply printable_app; [| reflexivity].
      now apply needs_no_escape_printable.
    + cbn [length]. lia.
Qed.



Lemma Entity_nested_ind (P : Entity -> Prop) :
  P PyNone -> (forall b, P (PyBool b)) -> (forall n, P (PyInt n)) ->
  (forall x, P (PyFloat x)) -> (forall b, P (PyBytes b)) ->
  (forall s, P (PyStr s)) ->
  (forall items, Forall (fun kv => P (snd kv)) items -> P (PyDict items)) ->
  (forall items, Forall P items -> P (PyList items)) ->
  forall obj, P obj.
Proof.
  intros HNone HBool HInt HFloat HBytes HStr HDict HList.
  fix IH 1. intros [| b | n | x | b | s | items | items].
  - exact HNone.
  - apply HBool.
  - apply HInt.
  - apply HFloat.
  - apply HBytes.
  - apply HStr.
  - apply HDict. induction items as [|kv items IHitems]; constructor.
    + apply IH.
    + exact IHitems.
  - apply HList. induction items as [|o items IHitems]; constructor.
    + apply IH.
    + exact IHitems.
Qed.

Lemma fold_max_le {A} (f : A -> nat) (l : list A) bound :
  Forall (fun a => (f a <= bound)%nat) l ->
  (fold_right (fun a n => Nat.max (f a) n) O l <= bound)%nat.
Proof.
  induction 1 as [|a l Ha Hl IH]; cbn [fold_right]; [lia |].
  apply Nat.max_lub; assumption.
Qed.

Lemma fold_max_ge {A} (f : A -> nat) (l : list A) a :
  In a l -> (f a <= fold_right (fun a n => Nat.max (f a) n) O l)%nat.
Proof.
  induction l as [|b l IH]; [intros [] |].
  intros [-> | Hin]; cbn [fold_right]; [lia |].
  specialize (IH Hin). lia.
Qed.

Lemma portable_dict items :
  portable (PyDict items) = true ->
  Forall (fun kv => exists k, fst kv = PyStr k /\ needs_no_escape k = true
                              /\ portable (snd kv) = true) items
  /\ has_repeat (map fst items) = false.
Proof.
  cbn [portable]. intros H. apply andb_true_iff in H.
  destruct H as [Hitems Hkeys]. split; [| now apply negb_true_iff].
  apply Forall_forall. intros [k v] Hin.
  rewrite forallb_forall in Hitems. specialize (Hitems _ Hin).
  cbn [fst snd] in *. apply andb_true_iff in Hitems.
  destruct k; try (destruct Hitems; discriminate).
  exists s. tauto.
Qed.

Lemma pair_text_facts kv :
  (exists k, fst kv = PyStr k /\ needs_no_escape k = true) ->
  starts_entity (minified_text (snd kv)) = true
  /\ printable (minified_text (snd kv)) = true
  /\ (nesting (snd kv) <= length (minified_text (snd kv)))%nat ->
  starts_entity (pair_text kv) = true
  /\ printable (pair_text kv) = true
  /\ (nesting (snd kv) <= length (pair_text kv))%nat
  /\ Py.eqb (head_symbol (pair_text kv)) spec.MAP_OPEN_MARK = false.
Proof.
  destruct kv as [k v]. cbn [fst snd]. intros [s [-> Hs]] [_ [Hv Hn]].
  destruct (to_string_facts s Hs) as [H1 [H2 [H3 H4]]].
  unfold pair_text. cbn [fst snd key_text].
  destruct (to_string Examples.minified s []) as [|h t] eqn:E;
    [discriminate |].
  repeat split.
  - exact H1.
  - apply printable_app; [exact H2 |].
    apply printable_app; [reflexivity | exact Hv].
  - rewrite !length_app. lia.
  - exact H4.
Qed.

Lemma minified_text_dict items :
  minified_text (PyDict items)
  = spec.MAP_OPEN_MARK
    ++ Py.join spec.DELIMITER_MARK (map pair_text items)
    ++ spec.MAP_CLOSE_MARK.
Proof. reflexivity. Qed.

(** The text of a portable object: how it starts, what it holds, and that
    it is at least as long as the object is deep. *)
Lemma minified_text_facts obj :
  portable obj = true ->
  starts_entity (minified_text obj) = true
  /\ printable (minified_text obj) = true
  /\ (nesting obj <= length (minified_text obj))%nat.
Proof.
  induction obj as [| b | n | x | b | s | items IH | items IH]
    using Entity_nested_ind; intros Hp.
  - repeat split. cbn. lia.
  - destruct b; repeat split; cbn; lia.
  - discriminate.
  - destruct x as [z | [|] | | z m e]; try discriminate; repeat split; cbn; lia.
  - repeat split.
    + cbn [minified_text]. unfold enclose_hex.
      apply printable_app; [reflexivity |].
      apply printable_app; [reflexivity |].
      apply printable_app; [reflexivity |].
      apply printable_app; [| reflexivity].
      apply bytes_hex_forallb. reflexivity.
    + cbn. lia.
  - destruct (to_string_facts s Hp) as [H1 [H2 [H3 _]]].
    repeat split; assumption.
  - destruct (portable_dict items Hp) as [Hitems _].
    assert (Hpairs : Forall (fun kv =>
                         printable (pair_text kv) = true
                         /\ (nesting (snd kv) <= length (pair_text kv))%nat)
                       items).
    { rewrite Forall_forall in *. intros kv Hin.
      destruct (Hitems kv Hin) as [k [Hk [Hplain Hv]]].
      destruct (pair_text_facts kv) as [_ [H2 [H3 _]]].
      - now exists k.
      - now apply IH.
      - now split. }
    repeat split.
    + rewrite minified_text_dict. apply printable_app; [reflexivity |].
      apply printable_app; [| reflexivity].
      apply printable_join. apply Forall_map.
      revert Hpairs. apply Forall_impl. now intros kv [H _].
    + rewrite minified_text_dict. cbn [nesting]. rewrite !length_app.
      change (length spec.MAP_OPEN_MARK) with 1%nat.
      apply le_n_S.
      apply Nat.le_trans
        with (length (Py.join spec.DELIMITER_MARK (map pair_text items)));
        [| lia].
      apply (fold_max_le (fun kv => nesting (snd kv))).
      rewrite Forall_forall in *. intros kv Hin.
      destruct (Hpairs kv Hin) as [_ Hn].
      apply (Nat.le_trans _ _ _ Hn).
      apply length_join_In. now apply in_map.
  - cbn [portable] in Hp. rewrite forallb_forall in Hp.
    assert (Hitems : Forall (fun o =>
                         printable (minified_text o) = true
                         /\ (nesting o <= length (minified_text o))%nat)
                       items).
    { rewrite Forall_forall in *. intros o Hin.
      destruct (IH o Hin (Hp o Hin)) as [_ [H2 H3]]. now split. }
    repeat split.
    + cbn [minified_text]. apply printable_app; [reflexivity |].
      apply printable_app; [| reflexivity].
      apply printable_join. apply Forall_map.
      revert Hitems. apply Forall_impl. now intros o [H _].
    + cbn [minified_text nesting]. rewrite !length_app.
      change (length spec.LIST_OPEN_MARK) with 1%nat.
      apply le_n_S.
      apply Nat.le_trans
        with (length (Py.join spec.DELIMITER_MARK
                        (map minified_text items)));
        [| lia].
      apply (fold_max_le nesting).
      rewrite Forall_forall in *. intros o Hin.
      destruct (Hitems o Hin) as [_ Hn].
      apply (Nat.le_trans _ _ _ Hn).
      apply length_join_In. now apply in_map.
Qed.

(** ** The serializer on a portable object *)

Lemma for_each_map {A B} (f : A -> result B) (g : A -> B) l :
  Forall (fun a => f a = Ok (g a)) l -> for_each f l = Ok (map g l).
Proof.
  induction 1 as [|a l Ha Hl IH]; [reflexivity |].
  cbn [for_each map]. now rewrite Ha, IH.
Qed.

Lemma map_unwrap (items : list (Entity * Entity)) :
  map (fun kv => (_unwrap (fst kv), _unwrap (snd kv))) items = items.
Proof.
  induction items as [|[k v] items IH]; [reflexivity |].
  cbn [map fst snd]. unfold _unwrap at 1 2. now rewrite IH.
Qed.

Lemma forallb_is_str items :
  Forall (fun kv : Entity * Entity => exists k, fst kv = PyStr k /\
            needs_no_escape k = true /\ portable (snd kv) = true) items ->
  forallb (fun kv : Entity * Entity => is_str (fst kv)) items = true.
Proof.
  intros H. apply forallb_forall. rewrite Forall_forall in H.
  intros kv Hin. destruct (H kv Hin) as [k [-> _]]. reflexivity.
Qed.

(** The pairs of a map, given what [to_entity] does on the values. *)
Lemma to_smap_content_minified entity items :
  Forall (fun kv => exists k, fst kv = PyStr k /\ needs_no_escape k = true
                              /\ portable (snd kv) = true) items ->
  Forall (fun kv => entity (snd kv) [] = Ok (minified_text (snd kv)))
    items ->
  to_smap_content Examples.minified entity items []
  = Ok (Py.join spec.DELIMITER_MARK (map pair_text items)).
Proof.
  intros Hitems Hvalues. unfold to_smap_content.
  cbn [class Examples.minified].
  rewrite (for_each_map _ pair_text); [reflexivity |].
  rewrite Forall_forall in *. intros [k v] Hin.
  destruct (Hitems _ Hin) as [s [Hk _]]. specialize (Hvalues _ Hin).
  cbn [fst snd] in *. subst k. unfold smap_pair.
  cbn [fst snd class Examples.minified]. unfold EMPTY_INDENT.
  rewrite Hvalues. reflexivity.
Qed.

Lemma to_entity_minified format_float address_of obj :
  portable obj = true ->
  forall depth, (nesting obj <= depth)%nat ->
  to_entity format_float address_of Examples.minified depth obj []
  = Ok (minified_text obj).
Proof.
  induction obj as [| b | n | x | b | s | items IH | items IH]
    using Entity_nested_ind; intros Hp [|depth] Hdepth;
    try (cbn [nesting] in Hdepth; lia); try discriminate Hp.
  - reflexivity.
  - destruct b; reflexivity.
  - destruct x as [z | [|] | | z m e]; try discriminate; reflexivity.
  - reflexivity.
  - reflexivity.
  - destruct (portable_dict items Hp) as [Hitems Hkeys].
    cbn [to_entity]. unfold to_entity_body, _unwrap.
    cbn [_try_base_concrete]. unfold to_map.
    cbn [class Examples.minified]. unfold to_map_content.
    rewrite map_unwrap, (forallb_is_str items Hitems).
    unfold _validate_distinct_map_keys. rewrite Hkeys.
    unfold EMPTY_INDENT.
    rewrite to_smap_content_minified; [reflexivity | exact Hitems |].
    rewrite Forall_forall in *. intros kv Hin.
    destruct (Hitems kv Hin) as [k [_ [_ Hv]]].
    apply (IH kv Hin Hv). cbn [nesting] in Hdepth.
    pose proof (fold_max_ge (fun kv => nesting (snd kv)) items kv Hin).
    cbv beta in *. lia.
  - cbn [portable] in Hp. rewrite forallb_forall in Hp.
    cbn [to_entity]. unfold to_entity_body, _unwrap.
    cbn [_try_base_concrete]. unfold to_list.
    cbn [class Examples.minified]. unfold EMPTY_INDENT.
    rewrite (for_each_map _ minified_text); [reflexivity |].
    rewrite Forall_forall in *. intros o Hin.
    apply (IH o Hin (Hp o Hin)). cbn [nesting] in Hdepth.
    pose proof (fold_max_ge nesting items o Hin). lia.
Qed.

(** ** The parser on the text of a portable object *)
























(** ** Entities *)


(** ** Documents *)


(** The minified serializer on a portable dict. *)
Lemma to_sled_minified format_float address_of items :
  portable (PyDict items) = true ->
  to_sled format_float address_of Examples.minified (PyDict items)
  = Ok (Py.join spec.DELIMITER_MARK (map pair_text items)).
Proof.
  intros Hp. destruct (portable_dict items Hp) as [Hitems Hkeys].
  unfold to_sled, _unwrap.
  change (map (fun kv : Entity * Entity => (fst kv, snd kv)) items)
    with (map (fun kv => (_unwrap (fst kv), _unwrap (snd kv))) items).
  rewrite map_unwrap, (forallb_is_str items Hitems).
  unfold to_top_level_smap, to_top_level_smap_str.
  cbn [class _use_top_level_braces Examples.minified].
  apply to_smap_content_minified; [exact Hitems |].
  rewrite Forall_forall in *. intros kv Hin.
  destruct (Hitems kv Hin) as [k [_ [_ Hv]]].
  apply (to_entity_minified _ _ _ Hv). cbn [nesting].
  pose proof (fold_max_ge (fun kv => nesting (snd kv)) items kv Hin).
  cbv beta in *. lia.
Qed.

Lemma printable_document items :
  portable (PyDict items) = true ->
  printable (Py.join spec.DELIMITER_MARK (map pair_text items)) = true.
Proof.
  intros Hp. destruct (portable_dict items Hp) as [Hitems _].
  apply printable_join, Forall_map.
  rewrite Forall_forall in *. intros kv Hin.
  destruct (Hitems kv Hin) as [k [Hk [Hplain Hv]]].
  apply pair_text_facts; [now exists k |].
  now apply minified_text_facts.
Qed.



(** X11.  The text that the minified serializer gives for such an object is
    one line: it holds no symbol below the space, so no line feed, no
    carriage return and no tab, however deep the object is nested. *)
Theorem minified_text_is_one_line format_float address_of items text :
  portable (PyDict items) = true ->
  to_sled format_float address_of Examples.minified (PyDict items)
  = Ok text ->
  Forall (fun c => (32 <= c)%N) text.
Proof.
  intros Hp Htext. rewrite (to_sled_minified _ _ items Hp) in Htext.
  injection Htext as <-. pose proof (printable_document items Hp) as H.
  unfold printable in H. rewrite forallb_forall in H.
  apply Forall_forall. intros c Hc. apply N.leb_le. now apply H.
Qed.

Lemma minified_text_is_one_line_witness :
  Forall (fun c => (32 <= c)%N)
    (u "tags=[@nil;@true;[]];nested={a=b}").
Proof.
  apply (minified_text_is_one_line (fun _ _ => []) (fun _ => [])
           [(PyStr (u "tags"), PyList [PyNone; PyBool true; PyList []]);
            (PyStr (u "nested"), PyDict [(PyStr (u "a"), PyStr (u "b"))])]);
    reflexivity.
Defined.

(** ** White space between entities *)





Lemma points_at_moved self after (p r : Py.str) :
  points_at self (p ++ r) -> moved self after (Py.len p) ->
  points_at after r.
Proof.
  intros Hat [Htext Hindex].
  pose proof (points_at_after _ _ _ Hat) as [Hi Hs].
  cbn [at_index _index _text] in Hi, Hs.
  unfold points_at. now rewrite Htext, Hindex.
Qed.

Lemma scan_fuel_moved self after n :
  moved self after n -> scan_fuel after = scan_fuel self.
Proof. intros [H _]. unfold scan_fuel. now rewrite H. Qed.








(** ** The indented layout of [SledSerializerBasic] and [SledSerializer] *)







(** ** The serializers on a portable object *)










(** ** The parser on the indented text of a portable object *)











(** ** Pairs, maps and lists of the indented layout *)

Lemma moved_points_at self after (p r : Py.str) n :
  points_at self (p ++ r) -> moved self after n -> n = Py.len p ->
  points_at after r.
Proof. intros Hat Hm ->. exact (points_at_moved _ _ _ _ Hat Hm). Qed.




Lemma value_end_line tail (ws : Py.str) :
  value_end ((NL ++ ws) ++ tail) = true.
Proof. reflexivity. Qed.









(** ** Entities and documents of the indented layout *)






